(** * eBird alert scraper: a shallow embedding of [scraper/scrape.py]

    The development follows the pipeline of the script:
    [get_cookies_from_env], [fetch_alerts], [parse_alerts] (with
    [extract_sighting_data] and [extract_sightings_generic]),
    [generate_output] (with [generate_simple_html]), chained by [main].

    Modelling conventions.
    - Text read from the page, the environment and the network is a
      [string]: a sequence of 8-bit characters read as the code points
      U+0000..U+00FF.  Whitespace and case folding are Python's
      [str.strip] and [str.lower] on that range.
    - Text inside decoded JSON values, in the records, and in the files
      written is a [str]: a sequence of code points, since an escape
      [\uXXXX] reaches every one of them, the lone surrogates included.
    - A Python [dict] is an association list in insertion order with unique
      keys ([dict_set] overwrites in place, as Python does).
    - A float is an IEEE 754 binary64 value ([spec_float] of the Standard
      Library); a decimal literal is rounded to the nearest one.  The
      text Python prints for a finite float is a parameter, [float_repr].
    - A parsed page is a tree of [node]s, the shape BeautifulSoup builds.
      The HTML tokenizer itself is a library, and is a parameter where the
      script calls it; so is [json.loads] where the script calls it, with
      the decoder of this file as one instance.
    - A call of a library may raise: the tokenizer, the decoder, the
      request, the template, the file system.  What the model cannot
      decide (a full disk, the depth at which the interpreter gives up) is
      read from the [world] record, as is the environment, the answer of
      the request and the clock.  What the script does to the outside is
      logged as a list of [event]s, and a run ends in a [result].
      Printing to the standard output is taken not to fail. *)

From Stdlib Require Import String Ascii List ZArith NArith Lia Bool Arith.
From Stdlib Require Import DecimalString Decimal DecimalFacts.
From Stdlib Require Import DecimalPos DecimalNat DecimalN DecimalZ.
From Stdlib Require Import Floats.SpecFloat.
Import ListNotations.

Open Scope string_scope.
Open Scope list_scope.


(** ** Python strings *)
Module Py.

Definition code (c : ascii) : nat := nat_of_ascii c.

(** [str.isspace] on one character of U+0000..U+00FF. *)
Definition isspace (c : ascii) : bool :=
  let n := code c in
  (Nat.leb 9 n && Nat.leb n 13) || (Nat.leb 28 n && Nat.leb n 32)
  || Nat.eqb n 133 || Nat.eqb n 160.

(** [str.lower] on one character of U+0000..U+00FF. *)
Definition lower_char (c : ascii) : ascii :=
  let n := code c in
  if (Nat.leb 65 n && Nat.leb n 90)
     || (Nat.leb 192 n && Nat.leb n 222 && negb (Nat.eqb n 215))
  then ascii_of_nat (n + 32) else c.

Fixpoint lower (s : string) : string :=
  match s with
  | EmptyString => EmptyString
  | String c r => String (lower_char c) (lower r)
  end.

Fixpoint lstrip (s : string) : string :=
  match s with
  | EmptyString => EmptyString
  | String c r => if isspace c then lstrip r else s
  end.

(** [rstrip] drops the trailing run of whitespace. *)
Fixpoint rstrip (s : string) : string :=
  match s with
  | EmptyString => EmptyString
  | String c r =>
      match rstrip r with
      | EmptyString => if isspace c then EmptyString else String c EmptyString
      | r' => String c r'
      end
  end.

Definition strip (s : string) : string := rstrip (lstrip s).

(** [s.startswith(p)]. *)
Fixpoint startswith (p s : string) : bool :=
  match p, s with
  | EmptyString, _ => true
  | String a p', String b s' => Ascii.eqb a b && startswith p' s'
  | String _ _, EmptyString => false
  end.

(** [p in s] for two strings. *)
Fixpoint contains (p s : string) : bool :=
  startswith p s ||
  match s with
  | EmptyString => false
  | String _ r => contains p r
  end.

(** [s.split(sep)] for a one-character separator: never empty, one
    more piece than there are separators. *)
Fixpoint split (sep : ascii) (s : string) : list string :=
  match s with
  | EmptyString => [EmptyString]
  | String c r =>
      if Ascii.eqb c sep then EmptyString :: split sep r
      else match split sep r with
           | [] => [String c EmptyString]
           | p :: ps => String c p :: ps
           end
  end.

(** [s.split(sep, 1)] when [sep] occurs in [s]: the text before the
    first separator and the text after it. *)
Fixpoint split1 (sep : ascii) (s : string) : string * string :=
  match s with
  | EmptyString => (EmptyString, EmptyString)
  | String c r =>
      if Ascii.eqb c sep then (EmptyString, r)
      else let (a, b) := split1 sep r in (String c a, b)
  end.

(** [sep in s] for a one-character [sep]. *)
Fixpoint has_char (sep : ascii) (s : string) : bool :=
  match s with
  | EmptyString => false
  | String c r => Ascii.eqb c sep || has_char sep r
  end.

(** Truth value of a string: non-empty. *)
Definition truthy (s : string) : bool :=
  match s with EmptyString => false | _ => true end.

(** [sep.join(l)]. *)
Fixpoint join (sep : string) (l : list string) : string :=
  match l with
  | [] => EmptyString
  | [x] => x
  | x :: r => x ++ sep ++ join sep r
  end.

(** [str(n)] for a natural number. *)
Definition str_of_nat (n : nat) : string :=
  NilZero.string_of_uint (Nat.to_uint n).

(** [str(z)] for an integer. *)
Definition str_of_Z (z : Z) : string :=
  NilZero.string_of_int (Z.to_int z).

End Py.

(** ** Text as a sequence of code points *)

Inductive str : Set :=
| Empty
| Char (c : N) (r : str).

Declare Scope text_scope.
Delimit Scope text_scope with text.
Bind Scope text_scope with str.

Module Text.

Fixpoint of_bytes (l : list Byte.byte) : str :=
  match l with
  | [] => Empty
  | b :: r => Char (Byte.to_N b) (of_bytes r)
  end.

Fixpoint to_bytes (t : str) : option (list Byte.byte) :=
  match t with
  | Empty => Some []
  | Char c r =>
      match Byte.of_N c, to_bytes r with
      | Some b, Some l => Some (b :: l)
      | _, _ => None
      end
  end.

Fixpoint append (a b : str) : str :=
  match a with
  | Empty => b
  | Char c r => Char c (append r b)
  end.

Fixpoint length (t : str) : nat :=
  match t with
  | Empty => 0
  | Char _ r => S (length r)
  end.

Fixpoint eqb (a b : str) : bool :=
  match a, b with
  | Empty, Empty => true
  | Char x a', Char y b' => N.eqb x y && eqb a' b'
  | _, _ => false
  end.

(** The text of a string of the 8-bit range: each character is its
    code point. *)
Fixpoint wide (s : string) : str :=
  match s with
  | EmptyString => Empty
  | String c r => Char (N_of_ascii c) (wide r)
  end.

(** Back to a string, for text known to lie in the 8-bit range (a run
    of digits). *)
Fixpoint narrow (t : str) : string :=
  match t with
  | Empty => EmptyString
  | Char c r => String (ascii_of_N c) (narrow r)
  end.

(** [sep.join(l)] for an empty [sep]. *)
Fixpoint concat (l : list str) : str :=
  match l with
  | [] => Empty
  | x :: r => append x (concat r)
  end.

(** [sep.join(l)] *)
Fixpoint join (sep : str) (l : list str) : str :=
  match l with
  | [] => Empty
  | x :: r =>
      match r with
      | [] => x
      | _ :: _ => append x (append sep (join sep r))
      end
  end.

(** The code points of a text, in order. *)
Fixpoint chars (t : str) : list N :=
  match t with
  | Empty => []
  | Char c r => c :: chars r
  end.

(** [t.startswith(p)] *)
Fixpoint startswith (p t : str) : bool :=
  match p, t with
  | Empty, _ => true
  | Char a p', Char b t' => N.eqb a b && startswith p' t'
  | Char _ _, Empty => false
  end.

(** [p in t] for two texts. *)
Fixpoint contains (p t : str) : bool :=
  startswith p t ||
  match t with
  | Empty => false
  | Char _ r => contains p r
  end.

(** Truth value of a text: non-empty. *)
Definition truthy (t : str) : bool :=
  match t with Empty => false | _ => true end.

(** The code points U+D800..U+DFFF: a surrogate on its own is no
    character, and UTF-8 has no encoding for it. *)
Definition is_surrogate (c : N) : bool :=
  N.leb 55296 c && N.leb c 57343.

(** [t.encode("utf-8")] succeeds. *)
Fixpoint encodable (t : str) : bool :=
  match t with
  | Empty => true
  | Char c r => negb (is_surrogate c) && encodable r
  end.

End Text.

String Notation str Text.of_bytes Text.to_bytes : text_scope.
Infix "++" := Text.append (right associativity, at level 60) : text_scope.

(** The code point of a character of the 8-bit range. *)
Definition chr (a : ascii) : N := N_of_ascii a.

(** [c] is the character [a]. *)
Definition is_char (c : N) (a : ascii) : bool := N.eqb c (chr a).

(** ** Python dictionaries, insertion ordered *)

(** What can be a key: a type with a test of equality. *)
Class Key (K : Type) : Type := { key_eqb : K -> K -> bool }.

#[export] Instance string_key : Key string := {| key_eqb := String.eqb |}.

#[export] Instance text_key : Key str := {| key_eqb := Text.eqb |}.

(** The test decides equality. *)
Class KeyOk (K : Type) `{Key K} : Prop :=
  key_eqb_eq : forall a b : K, key_eqb a b = true <-> a = b.

Section Dict.
Context {K V : Type} `{Key K}.

Definition dict := list (K * V).

Fixpoint dict_get (k : K) (d : dict) : option V :=
  match d with
  | [] => None
  | (k', v) :: r => if key_eqb k k' then Some v else dict_get k r
  end.

(** [d[k] = v]: overwrite where the key already is, else append. *)
Fixpoint dict_set (k : K) (v : V) (d : dict) : dict :=
  match d with
  | [] => [(k, v)]
  | (k', v') :: r =>
      if key_eqb k k' then (k', v) :: r else (k', v') :: dict_set k v r
  end.

Definition dict_keys (d : dict) : list K := map fst d.

Definition dict_mem (k : K) (d : dict) : bool :=
  match dict_get k d with Some _ => true | None => false end.
End Dict.
Arguments dict K V : clear implicits.

(** ** Python values that reach a sighting, exceptions *)

#[local] Unset Elimination Schemes.

(** The values [json.loads] builds.  An integer literal is an [int]; a
    literal with a fraction or an exponent, and the constants [NaN],
    [Infinity] and [-Infinity], are floats. *)
Inductive json : Type :=
| JNull
| JBool (b : bool)
| JInt (z : Z)
| JFloat (x : spec_float)
| JStr (t : str)
| JList (l : list json)
| JDict (d : list (str * json)).

(** The exceptions of the script and of the libraries it calls.
    [JSONDecodeError] is a [ValueError] that the handler of the fallback
    names; a [ValueError] here is one that is not a [JSONDecodeError].
    [OtherError] is any class that none of the others is and that no
    handler of the script names. *)
Inductive exn : Type :=
| TypeError
| AttributeError
| KeyError
| ValueError
| RecursionError
| JSONDecodeError
| UnicodeEncodeError
| OSError
| ParserRejectedMarkup
| RequestException
| SystemExit (status : nat)
| OtherError (name : string).

Inductive result (A : Type) : Type :=
| Ok (a : A)
| Raise (e : exn).
Arguments Ok {A} a.
Arguments Raise {A} e.

(** Python's [==] between a string and a decoded value. *)
Definition json_is_str (s : str) (v : json) : bool :=
  match v with JStr t => Text.eqb s t | _ => false end.

(** [x == 0.0] *)
Definition float_is_zero (x : spec_float) : bool :=
  match x with S754_zero _ => true | _ => false end.

(** Truth value of a Python value. *)
Definition truthy (v : json) : bool :=
  match v with
  | JNull => false
  | JBool b => b
  | JInt z => negb (Z.eqb z 0)
  | JFloat x => negb (float_is_zero x)
  | JStr t => Text.truthy t
  | JList l => match l with [] => false | _ => true end
  | JDict d => match d with [] => false | _ => true end
  end.

(** ** The parse tree of BeautifulSoup *)
Module Bs4.

(** The classes of string BeautifulSoup puts in a tree. *)
Inductive string_kind : Type :=
| NavigableString
| CData
| Comment
| Script
| Stylesheet
| TemplateString
| RubyTextString
| RubyParenthesisString
| Declaration.

(** A [Tag] has a name, its [class] attribute as the list of tokens the
    tree builder splits it into (absent: [None]), the other attributes
    as one string each, and its contents.  The document itself is the
    tag named ["[document]"]. *)
Inductive node : Type :=
| Tag (name : string) (class_ : option (list string))
      (attrs : dict string string) (contents : list node)
| Str (kind : string_kind) (s : string).

#[local] Set Elimination Schemes.

Definition is_tag (n : node) : bool :=
  match n with Tag _ _ _ _ => true | Str _ _ => false end.

Definition name_of (n : node) : option string :=
  match n with Tag nm _ _ _ => Some nm | Str _ _ => None end.

Definition class_of (n : node) : option (list string) :=
  match n with Tag _ c _ _ => c | Str _ _ => None end.

(** [tag.get(k)] for an attribute other than [class]. *)
Definition attr (k : string) (n : node) : option string :=
  match n with Tag _ _ a _ => dict_get k a | Str _ _ => None end.

(** [tag.descendants]: everything below the tag, in document order. *)
Fixpoint descendants (n : node) : list node :=
  match n with
  | Tag _ _ _ cs => flat_map (fun c => c :: descendants c) cs
  | Str _ _ => []
  end.

(** The same walk, each node with its chain of enclosing tags, the
    nearest first; [anc] is the chain of [n] itself. *)
Fixpoint descendants_ctx (anc : list node) (n : node)
  : list (list node * node) :=
  match n with
  | Tag _ _ _ cs =>
      flat_map (fun c => (n :: anc, c) :: descendants_ctx (n :: anc) c) cs
  | Str _ _ => []
  end.

(** *** Search criteria *)

(** How a callable is matched against [class]: against each token,
    then against the tokens joined by a space; against [None] when the
    attribute is absent. *)
Definition matches_class (f : option string -> bool)
           (c : option (list string)) : bool :=
  match c with
  | None => f None
  | Some toks =>
      existsb (fun t => f (Some t)) toks || f (Some (Py.join " " toks))
  end.

(** A search criterion: a tag name, a callable on [class], a callable
    on another attribute, an exact value of another attribute. *)
Record criteria : Type := {
  by_name : option string;
  by_class : option (option string -> bool);
  by_attr_fn : option (string * (option string -> bool));
  by_attr_eq : option (string * string)
}.

Definition any : criteria :=
  {| by_name := None; by_class := None;
     by_attr_fn := None; by_attr_eq := None |}.

Definition named (nm : string) : criteria :=
  {| by_name := Some nm; by_class := None;
     by_attr_fn := None; by_attr_eq := None |}.

Definition with_class (c : criteria) (f : option string -> bool) :=
  {| by_name := by_name c; by_class := Some f;
     by_attr_fn := by_attr_fn c; by_attr_eq := by_attr_eq c |}.

Definition with_attr_fn (c : criteria) (k : string)
           (f : option string -> bool) :=
  {| by_name := by_name c; by_class := by_class c;
     by_attr_fn := Some (k, f); by_attr_eq := by_attr_eq c |}.

Definition with_attr_eq (c : criteria) (k v : string) :=
  {| by_name := by_name c; by_class := by_class c;
     by_attr_fn := by_attr_fn c; by_attr_eq := Some (k, v) |}.

(** Only tags are found; every criterion given has to hold. *)
Definition matches (c : criteria) (n : node) : bool :=
  match n with
  | Str _ _ => false
  | Tag nm cl at_ _ =>
      match by_name c with Some x => String.eqb x nm | None => true end
      && match by_class c with
         | Some f => matches_class f cl
         | None => true
         end
      && match by_attr_fn c with
         | Some (k, f) => f (dict_get k at_)
         | None => true
         end
      && match by_attr_eq c with
         | Some (k, v) =>
             match dict_get k at_ with
             | Some x => String.eqb x v
             | None => negb (Py.truthy v)
             end
         | None => true
         end
  end.

Definition find_all (c : criteria) (n : node) : list node :=
  filter (matches c) (descendants n).

Definition find (c : criteria) (n : node) : option node :=
  hd_error (find_all c n).

Definition find_all_ctx (c : criteria) (anc : list node) (n : node)
  : list (list node * node) :=
  filter (fun p => matches c (snd p)) (descendants_ctx anc n).

Definition find_ctx (c : criteria) (anc : list node) (n : node)
  : option (list node * node) :=
  hd_error (find_all_ctx c anc n).

(** [tag.find_parent(names)] on the chain of enclosing tags. *)
Definition find_parent (names : list string) (anc : list node)
  : option node :=
  List.find (fun a =>
               match name_of a with
               | Some nm => existsb (String.eqb nm) names
               | None => false
               end) anc.

(** *** Text *)

(** The string classes [get_text] keeps, by the name of the tag it is
    called on. *)
Definition interesting (tag_name : string) (k : string_kind) : bool :=
  if String.eqb tag_name "script" then
    match k with Script => true | _ => false end
  else if String.eqb tag_name "style" then
    match k with Stylesheet => true | _ => false end
  else if String.eqb tag_name "template" then
    match k with TemplateString => true | _ => false end
  else if String.eqb tag_name "rt" then
    match k with RubyTextString => true | _ => false end
  else if String.eqb tag_name "rp" then
    match k with RubyParenthesisString => true | _ => false end
  else
    match k with NavigableString | CData => true | _ => false end.

(** The stripped, non-empty strings below a tag that [get_text] keeps. *)
Definition stripped_strings (n : node) : list string :=
  match n with
  | Str _ _ => []
  | Tag nm _ _ _ =>
      flat_map (fun d =>
                  match d with
                  | Str k s =>
                      if interesting nm k then
                        let t := Py.strip s in
                        if Py.truthy t then [t] else []
                      else []
                  | Tag _ _ _ _ => []
                  end) (descendants n)
  end.

(** [tag.get_text(strip=True)]. *)
Definition get_text_strip (n : node) : string :=
  String.concat "" (stripped_strings n).

(** [tag.string]: the one string a tag holds, through single children. *)
Fixpoint string_of (n : node) : option string :=
  match n with
  | Str _ s => Some s
  | Tag _ _ _ [c] => string_of c
  | Tag _ _ _ _ => None
  end.

(** *** Equality of tags: same name, same attributes, same contents *)

Definition attrs_eqb (a b : dict string string) : bool :=
  Nat.eqb (length a) (length b)
  && forallb (fun kv =>
                match dict_get (fst kv) b with
                | Some v => String.eqb (snd kv) v
                | None => false
                end) a.

Definition class_eqb (a b : option (list string)) : bool :=
  match a, b with
  | None, None => true
  | Some x, Some y =>
      if list_eq_dec string_dec x y then true else false
  | _, _ => false
  end.

Fixpoint node_eqb (a b : node) : bool :=
  match a, b with
  | Str _ s, Str _ t => String.eqb s t
  | Tag n1 c1 a1 k1, Tag n2 c2 a2 k2 =>
      String.eqb n1 n2 && class_eqb c1 c2 && attrs_eqb a1 a2
      && (fix all2 (l : list node) (r : list node) : bool :=
            match l, r with
            | [], [] => true
            | x :: l', y :: r' => node_eqb x y && all2 l' r'
            | _, _ => false
            end) k1 k2
  | _, _ => false
  end.

(** [x in l] for a list of tags. *)
Definition node_in (x : node) (l : list node) : bool :=
  existsb (node_eqb x) l.

End Bs4.

(** ** The JSON text format: [json.dump] and [json.loads] *)
Module Json.

#[local] Open Scope text_scope.

Definition dquote : N := 34.
Definition newline : N := 10.
Definition backslash : N := 92.

(** The digit of [n] below sixteen, in lower case. *)
Definition hex_digit (n : N) : N :=
  if N.ltb n 10 then 48 + n else 87 + n.

(** *** Encoder, [ensure_ascii=False]: only the quote, the backslash and
    the control characters below U+0020 are escaped; every other code
    point is written as it is. *)
Definition escape_char (c : N) : str :=
  if N.eqb c dquote then Char backslash (Char dquote "")
  else if N.eqb c backslash then Char backslash (Char backslash "")
  else if N.eqb c 10 then "\n"
  else if N.eqb c 13 then "\r"
  else if N.eqb c 9 then "\t"
  else if N.eqb c 8 then "\b"
  else if N.eqb c 12 then "\f"
  else if N.ltb c 32 then
    "\u00" ++ Char (hex_digit (c / 16)) (Char (hex_digit (c mod 16)) "")
  else Char c "".

Fixpoint escape (s : str) : str :=
  match s with
  | Empty => Empty
  | Char c r => escape_char c ++ escape r
  end.

Definition encode_str (s : str) : str :=
  Char dquote (escape s ++ Char dquote "").

Fixpoint indent (lvl : nat) : str :=
  match lvl with
  | 0 => ""
  | S k => "  " ++ indent k
  end.

(** A line break followed by the indentation of level [lvl]. *)
Definition nl (lvl : nat) : str := Char newline (indent lvl).

(** The items of a non-empty container, each on its own line. *)
Definition lines {A : Type} (f : A -> str) (lvl : nat)
  : list A -> str :=
  fix go (l : list A) : str :=
    match l with
    | [] => ""
    | [x] => f x
    | x :: r => f x ++ "," ++ nl lvl ++ go r
    end.

Section Encoder.

(** [float.__repr__] on a finite float. *)
Variable float_repr : spec_float -> str.

(** The text [json.dump] writes for a float. *)
Definition float_text (x : spec_float) : str :=
  match x with
  | S754_nan => "NaN"
  | S754_infinity false => "Infinity"
  | S754_infinity true => "-Infinity"
  | _ => float_repr x
  end.

(** [json.dumps(v, indent=2, ensure_ascii=False)] at nesting level [lvl]. *)
Fixpoint encode (lvl : nat) (v : json) : str :=
  match v with
  | JNull => "null"
  | JBool true => "true"
  | JBool false => "false"
  | JInt z => Text.wide (Py.str_of_Z z)
  | JFloat x => float_text x
  | JStr s => encode_str s
  | JList [] => "[]"
  | JList l =>
      "[" ++ nl (S lvl) ++ lines (encode (S lvl)) (S lvl) l
          ++ nl lvl ++ "]"
  | JDict [] => "{}"
  | JDict d =>
      "{" ++ nl (S lvl)
          ++ lines (fun kv => encode_str (fst kv) ++ ": "
                              ++ encode (S lvl) (snd kv)) (S lvl) d
          ++ nl lvl ++ "}"
  end.

Definition dumps (v : json) : str := encode 0 v.

End Encoder.

(** *** Floats: the nearest binary64 value of a decimal *)

Definition prec : Z := 53.
Definition emax : Z := 1024.

(** [m * 10^e], rounded to the nearest float, ties to even; beyond the
    largest float it is an infinity, below half the smallest a zero. *)
Definition float_of_decimal (neg : bool) (m : N) (e : Z) : spec_float :=
  match m with
  | N0 => S754_zero neg
  | Npos p =>
      match e with
      | Z0 => binary_round prec emax neg p 0
      | Zpos k => binary_round prec emax neg (p * 10 ^ k) 0
      | Zneg k =>
          SFdiv prec emax (S754_finite neg p 0)
                (S754_finite false (10 ^ k) 0)
      end
  end.

(** *** Decoder *)

Definition is_ws (c : N) : bool :=
  N.eqb c 32 || N.eqb c 9 || N.eqb c 10 || N.eqb c 13.

Fixpoint skip_ws (s : str) : str :=
  match s with
  | Empty => Empty
  | Char c r => if is_ws c then skip_ws r else s
  end.

Definition is_digit (c : N) : bool := N.leb 48 c && N.leb c 57.

(** The longest run of digits at the head of [s], and what follows. *)
Fixpoint span_digits (s : str) : str * str :=
  match s with
  | Empty => (Empty, Empty)
  | Char c r =>
      if is_digit c then
        let (ds, rest) := span_digits r in (Char c ds, rest)
      else (Empty, s)
  end.

Definition hex_value (c : N) : option N :=
  if N.leb 48 c && N.leb c 57 then Some (c - 48)%N
  else if N.leb 97 c && N.leb c 102 then Some (c - 87)%N
  else if N.leb 65 c && N.leb c 70 then Some (c - 55)%N
  else None.

Definition hex4 (a b c d : N) : option N :=
  match hex_value a, hex_value b, hex_value c, hex_value d with
  | Some x, Some y, Some z, Some w => Some (((x * 16 + y) * 16 + z) * 16 + w)%N
  | _, _, _, _ => None
  end.

(** The character a one-letter escape stands for. *)
Definition unescape (e : N) : option N :=
  if N.eqb e dquote then Some dquote
  else if N.eqb e backslash then Some backslash
  else if is_char e "/" then Some (chr "/")
  else if is_char e "b" then Some 8%N
  else if is_char e "f" then Some 12%N
  else if is_char e "n" then Some 10%N
  else if is_char e "r" then Some 13%N
  else if is_char e "t" then Some 9%N
  else None.

Definition is_high (n : N) : bool := N.leb 55296 n && N.leb n 56319.
Definition is_low (n : N) : bool := N.leb 56320 n && N.leb n 57343.

(** The code point of a surrogate pair. *)
Definition join_surrogates (hi lo : N) : N :=
  65536 + ((hi - 55296) * 1024 + (lo - 56320)).

(** The body of a string, after the opening quote, up to the closing
    quote.  A raw control character, an unknown escape and a missing
    closing quote are errors.  An escape [\uXXXX] is the code point
    [XXXX]; a high surrogate followed by the escape of a low one is the
    code point of the pair; any other surrogate stands on its own. *)
Fixpoint scan_string (s : str) : option (str * str) :=
  match s with
  | Empty => None
  | Char c r =>
      if N.eqb c dquote then Some (Empty, r)
      else if N.eqb c backslash then
        match r with
        | Empty => None
        | Char e r1 =>
            if is_char e "u" then
              match r1 with
              | Char h1 (Char h2 (Char h3 (Char h4 r2))) =>
                  match hex4 h1 h2 h3 h4 with
                  | Some n =>
                      let single :=
                        match scan_string r2 with
                        | Some (t, rest) => Some (Char n t, rest)
                        | None => None
                        end in
                      if is_high n then
                        match r2 with
                        | Char b (Char u (Char g1 (Char g2 (Char g3
                            (Char g4 r3))))) =>
                            if N.eqb b backslash && is_char u "u" then
                              match hex4 g1 g2 g3 g4 with
                              | Some m =>
                                  if is_low m then
                                    match scan_string r3 with
                                    | Some (t, rest) =>
                                        Some (Char (join_surrogates n m) t,
                                              rest)
                                    | None => None
                                    end
                                  else single
                              | None => None
                              end
                            else single
                        | _ => single
                        end
                      else single
                  | None => None
                  end
              | _ => None
              end
            else
              match unescape e with
              | Some ch =>
                  match scan_string r1 with
                  | Some (t, rest) => Some (Char ch t, rest)
                  | None => None
                  end
              | None => None
              end
        end
      else if N.ltb c 32 then None
      else
        match scan_string r with
        | Some (t, rest) => Some (Char c t, rest)
        | None => None
        end
  end.

(** The optional sign of a number. *)
Definition lex_sign (s : str) : str * str :=
  match s with
  | Char c r => if is_char c "-" then ("-", r) else ("", s)
  | Empty => ("", s)
  end.

(** The integer part: [0], or a non-zero digit and a run of digits. *)
Definition lex_int (s : str) : option (str * str) :=
  match s with
  | Char d r =>
      if is_digit d then
        if is_char d "0" then Some ("0", r)
        else let (ds, rest) := span_digits r in Some (Char d ds, rest)
      else None
  | Empty => None
  end.

(** The optional fraction: a dot and at least one digit. *)
Definition lex_frac (s : str) : str * str :=
  match s with
  | Char p (Char d r) =>
      if is_char p "." && is_digit d then
        let (ds, rest) := span_digits r in (Char p (Char d ds), rest)
      else ("", s)
  | _ => ("", s)
  end.

(** The optional exponent: [e] or [E], an optional sign, at least one
    digit. *)
Definition lex_exp (s : str) : str * str :=
  match s with
  | Char e r =>
      if is_char e "e" || is_char e "E" then
        let (sg, r1) :=
          match r with
          | Char c r' =>
              if is_char c "+" || is_char c "-" then (Char c "", r')
              else ("", r)
          | Empty => ("", r)
          end in
        match r1 with
        | Char d _ =>
            if is_digit d then
              let (ds, rest) := span_digits r1 in (Char e (sg ++ ds), rest)
            else ("", s)
        | Empty => ("", s)
        end
      else ("", s)
  | Empty => ("", s)
  end.

(** [int(l)] for the text of an integer. *)
Definition int_of_literal (l : str) : Z :=
  match NilZero.int_of_string (Text.narrow l) with
  | Some d => Z.of_int d
  | None => 0%Z
  end.

(** The number a run of digits denotes. *)
Definition N_of_digits (ds : str) : N :=
  match NilZero.uint_of_string (Text.narrow ds) with
  | Some u => N.of_uint u
  | None => 0%N
  end.

(** The value of an exponent part, [0] for none. *)
Definition exp_value (ep : str) : Z :=
  match ep with
  | Empty => 0%Z
  | Char _ r =>
      match r with
      | Char c ds =>
          if is_char c "-" then Z.opp (Z.of_N (N_of_digits ds))
          else if is_char c "+" then Z.of_N (N_of_digits ds)
          else Z.of_N (N_of_digits r)
      | Empty => 0%Z
      end
  end.

(** [float(sg + ip + fp + ep)]: the digits of the integer part and of
    the fraction are the mantissa, the exponent is lowered by the
    number of digits of the fraction. *)
Definition float_of_literal (sg ip fp ep : str) : spec_float :=
  let fd := match fp with Char _ ds => ds | Empty => Empty end in
  float_of_decimal (Text.truthy sg) (N_of_digits (ip ++ fd))
                   (exp_value ep - Z.of_nat (Text.length fd)).

(** The longest integer literal [int] converts, in digits. *)
Definition int_max_str_digits : N := 4300.

(** A number at the head of [s]: an [int] when it has neither fraction
    nor exponent, else a float.  An integer of more digits than [int]
    converts is a [ValueError]. *)
Definition scan_number (s : str) : result (json * str) :=
  let (sg, s1) := lex_sign s in
  match lex_int s1 with
  | None => Raise JSONDecodeError
  | Some (ip, s2) =>
      let (fp, s3) := lex_frac s2 in
      let (ep, s4) := lex_exp s3 in
      match fp, ep with
      | Empty, Empty =>
          if N.ltb int_max_str_digits (N.of_nat (Text.length ip)) then
            Raise ValueError
          else Ok (JInt (int_of_literal (sg ++ ip)), s4)
      | _, _ => Ok (JFloat (float_of_literal sg ip fp ep), s4)
      end
  end.

(** [s] without the prefix [p], when it starts with it. *)
Fixpoint strip_prefix (p s : str) : option str :=
  match p, s with
  | Empty, _ => Some s
  | Char a p', Char b s' =>
      if N.eqb a b then strip_prefix p' s' else None
  | Char _ _, Empty => None
  end.

(** The literals and numbers. *)
Definition scan_atom (s : str) : result (json * str) :=
  match strip_prefix "null" s with
  | Some r => Ok (JNull, r)
  | None =>
  match strip_prefix "true" s with
  | Some r => Ok (JBool true, r)
  | None =>
  match strip_prefix "false" s with
  | Some r => Ok (JBool false, r)
  | None =>
  match scan_number s with
  | Ok x => Ok x
  | Raise JSONDecodeError =>
      match strip_prefix "NaN" s with
      | Some r => Ok (JFloat S754_nan, r)
      | None =>
      match strip_prefix "Infinity" s with
      | Some r => Ok (JFloat (S754_infinity false), r)
      | None =>
      match strip_prefix "-Infinity" s with
      | Some r => Ok (JFloat (S754_infinity true), r)
      | None => Raise JSONDecodeError
      end end end
  | Raise e => Raise e
  end end end end.

(** [dict(pairs)]: a later pair overwrites an earlier one with its key. *)
Definition dict_of_pairs (pairs : list (str * json)) : dict str json :=
  fold_left (fun d kv => dict_set (fst kv) (snd kv) d) pairs [].

(** One value at the head of [s]; [scan_items] reads the items of a list
    up to its closing bracket, [scan_members] the members of an object
    up to its closing brace.  [depth] is the number of containers that
    may still be entered: one more is a [RecursionError].  [fuel] bounds
    the number of calls: two calls at most are made for a character
    read. *)
Fixpoint scan (fuel depth : nat) (s : str) : result (json * str) :=
  match fuel with
  | 0 => Raise JSONDecodeError
  | S f =>
      match s with
      | Empty => Raise JSONDecodeError
      | Char c r =>
          if N.eqb c dquote then
            match scan_string r with
            | Some (t, rest) => Ok (JStr t, rest)
            | None => Raise JSONDecodeError
            end
          else if is_char c "{" then
            match depth with
            | 0 => Raise RecursionError
            | S d =>
                match skip_ws r with
                | Char c1 r1 =>
                    if is_char c1 "}" then Ok (JDict [], r1)
                    else
                      match scan_members f d (Char c1 r1) with
                      | Ok (pairs, rest) =>
                          Ok (JDict (dict_of_pairs pairs), rest)
                      | Raise e => Raise e
                      end
                | Empty => Raise JSONDecodeError
                end
            end
          else if is_char c "[" then
            match depth with
            | 0 => Raise RecursionError
            | S d =>
                match skip_ws r with
                | Char c1 r1 =>
                    if is_char c1 "]" then Ok (JList [], r1)
                    else
                      match scan_items f d (Char c1 r1) with
                      | Ok (items, rest) => Ok (JList items, rest)
                      | Raise e => Raise e
                      end
                | Empty => Raise JSONDecodeError
                end
            end
          else scan_atom s
      end
  end
with scan_items (fuel depth : nat) (s : str)
  : result (list json * str) :=
  match fuel with
  | 0 => Raise JSONDecodeError
  | S f =>
      match scan f depth s with
      | Ok (v, r) =>
          match skip_ws r with
          | Char c r1 =>
              if is_char c "," then
                match scan_items f depth (skip_ws r1) with
                | Ok (vs, rest) => Ok (v :: vs, rest)
                | Raise e => Raise e
                end
              else if is_char c "]" then Ok ([v], r1)
              else Raise JSONDecodeError
          | Empty => Raise JSONDecodeError
          end
      | Raise e => Raise e
      end
  end
with scan_members (fuel depth : nat) (s : str)
  : result (list (str * json) * str) :=
  match fuel with
  | 0 => Raise JSONDecodeError
  | S f =>
      match s with
      | Char q r =>
          if N.eqb q dquote then
            match scan_string r with
            | Some (k, r1) =>
                match skip_ws r1 with
                | Char c r2 =>
                    if is_char c ":" then
                      match scan f depth (skip_ws r2) with
                      | Ok (v, r3) =>
                          match skip_ws r3 with
                          | Char c' r4 =>
                              if is_char c' "," then
                                match scan_members f depth (skip_ws r4) with
                                | Ok (kvs, rest) => Ok ((k, v) :: kvs, rest)
                                | Raise e => Raise e
                                end
                              else if is_char c' "}" then Ok ([(k, v)], r4)
                              else Raise JSONDecodeError
                          | Empty => Raise JSONDecodeError
                          end
                      | Raise e => Raise e
                      end
                    else Raise JSONDecodeError
                | Empty => Raise JSONDecodeError
                end
            | None => Raise JSONDecodeError
            end
          else Raise JSONDecodeError
      | Empty => Raise JSONDecodeError
      end
  end.

(** [json.loads(s)] for a string [s], in an interpreter that lets the
    decoder enter [depth] containers: one value, with nothing but
    whitespace around it. *)
Definition loads (depth : nat) (s : str) : result json :=
  match scan (S (2 * Text.length s)) depth (skip_ws s) with
  | Ok (v, rest) =>
      match skip_ws rest with
      | Empty => Ok v
      | _ => Raise JSONDecodeError
      end
  | Raise e => Raise e
  end.

(** *** Well-formed values *)

(** The head digit of a decimal numeral is not zero. *)
Definition head_nonzero (u : uint) : bool :=
  match u with
  | Nil | D0 _ => false
  | _ => true
  end.

(** What may follow a run of digits without being read into it. *)
Definition no_digit_start (rest : str) : bool :=
  match rest with
  | Empty => true
  | Char c _ => negb (is_digit c)
  end.

(** What may follow a value: nothing a number could go on with. *)
Definition ends_number (rest : str) : bool :=
  match rest with
  | Empty => true
  | Char c _ =>
      negb (is_digit c || is_char c "." || is_char c "e"
            || is_char c "E" || is_char c "+" || is_char c "-")
  end.

(** What may follow an integer part that has no fraction. *)
Definition no_dot_start (rest : str) : bool :=
  match rest with
  | Empty => true
  | Char c _ => negb (is_char c ".")
  end.

(** The same float: the same sign, mantissa and exponent. *)
Definition float_eqb (x y : spec_float) : bool :=
  match x, y with
  | S754_zero a, S754_zero b => Bool.eqb a b
  | S754_infinity a, S754_infinity b => Bool.eqb a b
  | S754_nan, S754_nan => true
  | S754_finite a m e, S754_finite b n f =>
      Bool.eqb a b && Pos.eqb m n && Z.eqb e f
  | _, _ => false
  end.

(** The text written for the float [x] reads back as [x]. *)
Definition float_ok (float_repr : spec_float -> str) (x : spec_float)
  : bool :=
  match scan_atom (float_text float_repr x) with
  | Ok (JFloat y, Empty) => float_eqb x y
  | _ => false
  end.

(** An integer of no more digits than [int] converts. *)
Definition int_ok (z : Z) : bool :=
  N.leb (N.of_nat (String.length (Py.str_of_Z (Z.abs z))))
        int_max_str_digits.

(** No key occurs twice. *)
Fixpoint uniq (l : list str) : bool :=
  match l with
  | [] => true
  | k :: r => negb (existsb (Text.eqb k) r) && uniq r
  end.

(** Every integer of [v] passes [ints], every float [floats], the keys
    of every dict [keys]. *)
Fixpoint check (ints : Z -> bool) (floats : spec_float -> bool)
         (keys : list str -> bool) (v : json) : bool :=
  match v with
  | JInt z => ints z
  | JFloat x => floats x
  | JList l => forallb (check ints floats keys) l
  | JDict d =>
      keys (map fst d)
      && forallb (fun kv => check ints floats keys (snd kv)) d
  | _ => true
  end.

(** A value as a decoder builds it: no key occurs twice in a dict. *)
Definition valid (v : json) : bool :=
  check (fun _ => true) (fun _ => true) uniq v.

(** No integer of [v] is longer than [int] converts. *)
Definition ints_ok (v : json) : bool :=
  check int_ok (fun _ => true) (fun _ => true) v.

(** The text written for each float of [v] reads back as that float. *)
Definition floats_ok (float_repr : spec_float -> str) (v : json) : bool :=
  check (fun _ => true) (float_ok float_repr) (fun _ => true) v.

(** Well-formed values: all three. *)
Definition wf (float_repr : spec_float -> str) (v : json) : bool :=
  check int_ok (float_ok float_repr) uniq v.

(** The number of nested calls the decoder makes on the text of [v]. *)
Fixpoint need (v : json) : nat :=
  match v with
  | JList l => S (fold_right (fun x n => S (Nat.max (need x) n)) 0 l)
  | JDict d => S (fold_right (fun kv n => S (Nat.max (need (snd kv)) n)) 0 d)
  | _ => 1
  end.

(** The number of containers the decoder is inside of at the deepest
    point of the text of [v]. *)
Fixpoint nesting (v : json) : nat :=
  match v with
  | JList l => S (fold_right (fun x n => Nat.max (nesting x) n) 0 l)
  | JDict d => S (fold_right (fun kv n => Nat.max (nesting (snd kv)) n) 0 d)
  | _ => 0
  end.

(** A character a value can start with. *)
Definition value_start (c : N) : bool :=
  negb (is_ws c) && negb (is_char c "]") && negb (is_char c "}")
  && negb (N.eqb c dquote) && negb (is_char c "[")
  && negb (is_char c "{").

(** What a value can start with: never whitespace, never a closing
    bracket or brace. *)
Definition head_ok (s : str) : bool :=
  match s with
  | Empty => false
  | Char c _ =>
      negb (is_ws c) && negb (is_char c "]") && negb (is_char c "}")
  end.

(** The text of a value, followed by text that cannot continue a
    number, is read back as the value, given fuel for its calls and
    depth for its nesting. *)
Definition reads_back (float_repr : spec_float -> str) (v : json) : Prop :=
  wf float_repr v = true ->
  forall lvl fuel depth rest,
    need v <= fuel -> nesting v <= depth -> ends_number rest = true ->
    scan fuel depth (encode float_repr lvl v ++ rest) = Ok (v, rest).

(** *** What [json.dump] raises *)

(** The first error among those of the items. *)
Definition first_error {A : Type} (f : A -> option exn)
  : list A -> option exn :=
  fix go (l : list A) : option exn :=
    match l with
    | [] => None
    | x :: r =>
        match f x with
        | Some e => Some e
        | None => go r
        end
    end.

(** The first error of [json.dump] on the value, in the order it writes:
    a [ValueError] for an integer longer than [str] converts, a
    [UnicodeEncodeError] for a string that UTF-8 cannot encode, a
    [RecursionError] at a container inside [depth] others. *)
Fixpoint dump_error (depth : nat) (v : json) {struct v} : option exn :=
  match v with
  | JInt z => if int_ok z then None else Some ValueError
  | JStr s => if Text.encodable s then None else Some UnicodeEncodeError
  | JList [] => None
  | JList l =>
      match depth with
      | 0 => Some RecursionError
      | S d => first_error (dump_error d) l
      end
  | JDict [] => None
  | JDict m =>
      match depth with
      | 0 => Some RecursionError
      | S d =>
          first_error
            (fun kv => if Text.encodable (fst kv) then dump_error d (snd kv)
                       else Some UnicodeEncodeError) m
      end
  | _ => None
  end.

End Json.
(** ** The script: configuration and extraction *)

Definition ALERT_URL : string := "https://ebird.org/alert/summary?sid=SN35466".

Definition USER_AGENT : string :=
  "Mozilla/5.0 (Macintosh; Intel Mac OS X 10_15_7) AppleWebKit/537.36 (KHTML, like Gecko) Chrome/120.0.0.0 Safari/537.36".

(** A sighting is a Python dict from field names to values. *)
Definition sighting : Type := dict str json.

(** [lambda x: x and pat in str(x).lower()] *)
Definition lower_has (pat : string) (x : option string) : bool :=
  match x with
  | None => false
  | Some s => Py.truthy s && Py.contains pat (Py.lower s)
  end.

(** [lambda x: x and ("Observation" in str(x) or "obs" in str(x).lower())] *)
Definition obs_class (x : option string) : bool :=
  match x with
  | None => false
  | Some s =>
      Py.truthy s
      && (Py.contains "Observation" s || Py.contains "obs" (Py.lower s))
  end.

(** [lambda x: x and pat in str(x)] *)
Definition has (pat : string) (x : option string) : bool :=
  match x with
  | None => false
  | Some s => Py.truthy s && Py.contains pat s
  end.

(** [a or b] on results of [find]: a tag is always true, [None] false. *)
Definition or_else {A : Type} (a b : option A) : option A :=
  match a with Some _ => a | None => b end.

Definition set_text (k : str) (e : option Bs4.node) (s : sighting)
  : sighting :=
  match e with
  | Some x => dict_set k (JStr (Text.wide (Bs4.get_text_strip x))) s
  | None => s
  end.

Definition species_elem (element : Bs4.node) : option Bs4.node :=
  or_else (Bs4.find (Bs4.with_class (Bs4.named "a") (lower_has "species"))
                    element)
 (or_else (Bs4.find (Bs4.with_class (Bs4.named "span") (lower_has "species"))
                    element)
 (or_else (Bs4.find (Bs4.named "strong") element)
          (Bs4.find (Bs4.named "b") element))).

Definition location_elem (element : Bs4.node) : option Bs4.node :=
  or_else (Bs4.find (Bs4.with_class Bs4.any (lower_has "location")) element)
          (Bs4.find (Bs4.with_attr_fn (Bs4.named "a") "href" (has "/hotspot/"))
                    element).

Definition date_elem (element : Bs4.node) : option Bs4.node :=
  Bs4.find (Bs4.with_class Bs4.any (lower_has "date")) element.

Definition observer_elem (element : Bs4.node) : option Bs4.node :=
  or_else (Bs4.find (Bs4.with_class Bs4.any (lower_has "observer")) element)
          (Bs4.find (Bs4.with_attr_fn (Bs4.named "a") "href" (has "/profile/"))
                    element).

Definition checklist_link (element : Bs4.node) : option Bs4.node :=
  Bs4.find (Bs4.with_attr_fn (Bs4.named "a") "href" (has "/checklist/"))
           element.

(** The last step of [extract_sighting_data]: the href of the link,
    made absolute when it starts with a slash. *)
Definition resolve_href (link : Bs4.node) : string :=
  let href := match Bs4.attr "href" link with Some h => h | None => "" end in
  if Py.startswith "/" href then "https://ebird.org" ++ href else href.

Definition extract_sighting_data (element : Bs4.node) : sighting :=
  let sighting : sighting :=
    [("species", JStr ""); ("location", JStr ""); ("date", JStr "");
     ("observer", JStr ""); ("checklist_url", JStr ""); ("count", JStr "")]%text
  in
  let sighting := set_text "species" (species_elem element) sighting in
  let sighting := set_text "location" (location_elem element) sighting in
  let sighting := set_text "date" (date_elem element) sighting in
  let sighting := set_text "observer" (observer_elem element) sighting in
  match checklist_link element with
  | Some link =>
      dict_set "checklist_url"%text (JStr (Text.wide (resolve_href link)))
               sighting
  | None => sighting
  end.

(** *** The structured-data fallback *)

(** Statements that append to the list [sightings] and may raise: the
    list as it stands is kept when an exception is raised. *)
Definition M (A : Type) : Type := list sighting -> list sighting * result A.

Definition ret {A : Type} (a : A) : M A := fun st => (st, Ok a).

Definition bind {A B : Type} (m : M A) (k : A -> M B) : M B :=
  fun st =>
    match m st with
    | (st', Ok a) => k a st'
    | (st', Raise e) => (st', Raise e)
    end.

Definition lift {A : Type} (r : result A) : M A := fun st => (st, r).

Definition append (s : sighting) : M unit := fun st => (st ++ [s], Ok tt).

(** [try: body except handled: pass] *)
Definition try_except (body : M unit) (handled : exn -> bool) : M unit :=
  fun st =>
    match body st with
    | (st', Raise e) => if handled e then (st', Ok tt) else (st', Raise e)
    | r => r
    end.

Fixpoint for_each {A : Type} (f : A -> M unit) (l : list A) : M unit :=
  match l with
  | [] => ret tt
  | x :: r => bind (f x) (fun _ => for_each f r)
  end.

Notation "x <- m ;; k" := (bind m (fun x => k))
  (at level 61, m at next level, right associativity).

(** ["name" in item] *)
Definition name_in (item : json) : result bool :=
  match item with
  | JDict d => Ok (dict_mem "name"%text d)
  | JStr s => Ok (Text.contains "name" s)
  | JList l => Ok (existsb (json_is_str "name") l)
  | JNull | JBool _ | JInt _ | JFloat _ => Raise TypeError
  end.

(** [item.get(k, default)] *)
Definition item_get (item : json) (k : str) (default : json)
  : result json :=
  match item with
  | JDict d =>
      Ok (match dict_get k d with Some v => v | None => default end)
  | _ => Raise AttributeError
  end.

Definition is_dict (v : json) : bool :=
  match v with JDict _ => true | _ => false end.

(** The dict literal appended for an item that has a name. *)
Definition ld_record (item : json) : result sighting :=
  match item_get item "name" (JStr "") with
  | Raise e => Raise e
  | Ok species =>
  match item_get item "location" JNull with
  | Raise e => Raise e
  | Ok loc =>
  match (if is_dict loc then item_get loc "name" (JStr "")
         else Ok (JStr "")) with
  | Raise e => Raise e
  | Ok location =>
  match item_get item "datePublished" (JStr "") with
  | Raise e => Raise e
  | Ok date =>
  match item_get item "url" (JStr "") with
  | Raise e => Raise e
  | Ok url =>
      Ok [("species", species); ("location", location); ("date", date);
          ("observer", JStr ""); ("checklist_url", url);
          ("count", JStr "")]%text
  end end end end end.

Definition ld_item (item : json) : M unit :=
  b <- lift (name_in item) ;;
  if (b : bool) then s <- lift (ld_record item) ;; append s else ret tt.

Definition ld_handled (e : exn) : bool :=
  match e with JSONDecodeError | AttributeError => true | _ => false end.

Section Scrape.

(** [json.loads] on a string: the value, or the exception it raises. *)
Variable json_decode : string -> result json.

(** [BeautifulSoup(html, "html.parser")]: the tree, or the exception the
    parser raises on markup it rejects. *)
Variable BeautifulSoup : string -> result Bs4.node.

(** [json.loads(x)]: a [TypeError] when [x] is [None]. *)
Definition json_loads (x : option string) : result json :=
  match x with
  | None => Raise TypeError
  | Some s => json_decode s
  end.

Definition ld_script (script : Bs4.node) : M unit :=
  try_except
    (data <- lift (json_loads (Bs4.string_of script)) ;;
     match data with
     | JList items => for_each ld_item items
     | _ => ret tt
     end)
    ld_handled.

Definition ld_scripts (soup : Bs4.node) : list Bs4.node :=
  Bs4.find_all
    (Bs4.with_attr_eq (Bs4.named "script") "type" "application/ld+json") soup.

Definition extract_sightings_generic (soup : Bs4.node)
  : result (list sighting) :=
  match for_each ld_script (ld_scripts soup) [] with
  | (sightings, Ok _) => Ok sightings
  | (_, Raise e) => Raise e
  end.

(** *** Locating the entries *)

(** [soup.find("div", {"id": "content"}) or soup.find("main") or soup],
    with the chain of tags that enclose it. *)
Definition content (soup : Bs4.node) : list Bs4.node * Bs4.node :=
  match Bs4.find_ctx (Bs4.with_attr_eq (Bs4.named "div") "id" "content")
                     [] soup with
  | Some c => c
  | None =>
      match Bs4.find_ctx (Bs4.named "main") [] soup with
      | Some c => c
      | None => ([], soup)
      end
  end.

Definition method1 (c : Bs4.node) : list Bs4.node :=
  Bs4.find_all (Bs4.with_class (Bs4.named "div") obs_class) c.

Definition method2 (c : Bs4.node) : list Bs4.node :=
  Bs4.find_all (Bs4.with_class (Bs4.named "li") (lower_has "species")) c.

Definition method3 (c : Bs4.node) : list Bs4.node :=
  Bs4.find_all (Bs4.named "tr") c.

(** The loop of method 4 over the checklist links, each with its chain
    of enclosing tags. *)
Definition add_parent (obs_rows : list Bs4.node)
           (link : list Bs4.node * Bs4.node) : list Bs4.node :=
  match Bs4.find_parent ["div"; "li"; "tr"] (fst link) with
  | Some parent =>
      if negb (Bs4.node_in parent obs_rows) then obs_rows ++ [parent]
      else obs_rows
  | None => obs_rows
  end.

Definition method4 (c : list Bs4.node * Bs4.node) : list Bs4.node :=
  fold_left add_parent
    (Bs4.find_all_ctx
       (Bs4.with_attr_fn (Bs4.named "a") "href" (has "/checklist/"))
       (fst c) (snd c))
    [].

Definition if_empty (rows later : list Bs4.node) : list Bs4.node :=
  match rows with [] => later | _ => rows end.

(** The candidate rows after the four methods. *)
Definition obs_rows (c : list Bs4.node * Bs4.node) : list Bs4.node :=
  if_empty (if_empty (if_empty (method1 (snd c)) (method2 (snd c)))
                     (method3 (snd c)))
           (method4 c).

(** The loop over [obs_rows]. *)
Definition row_sightings (rows : list Bs4.node) : list sighting :=
  flat_map (fun row =>
              let sighting := extract_sighting_data row in
              if truthy (JDict sighting)
                 && match dict_get "species"%text sighting with
                    | Some v => truthy v
                    | None => false
                    end
              then [sighting] else []) rows.

Definition parse_soup (soup : Bs4.node) : result (list sighting) :=
  let sightings := row_sightings (obs_rows (content soup)) in
  match sightings with
  | [] => extract_sightings_generic soup
  | _ => Ok sightings
  end.

Definition parse_alerts (html : string) : result (list sighting) :=
  match BeautifulSoup html with
  | Ok soup => parse_soup soup
  | Raise e => Raise e
  end.

End Scrape.

(** ** The page without a template: [generate_simple_html] *)

Module Html.

#[local] Open Scope text_scope.

Definition q : str := Char Json.dquote "".

Definition br : str := Char Json.newline "".

(** Lines of text, with a line break between them. *)
Definition lines (l : list str) : str := Text.join br l.

Definition page_head : str :=
  lines
    ["<!DOCTYPE html>";
     "<html lang=" ++ q ++ "en" ++ q ++ ">";
     "<head>";
     "    <meta charset=" ++ q ++ "UTF-8" ++ q ++ ">";
     "    <meta name=" ++ q ++ "viewport" ++ q ++ " content=" ++ q ++ "width=device-width, initial-scale=1.0" ++ q ++ ">";
     "    <title>eBird Rare Bird Alerts</title>";
     "    <style>";
     "        body { font-family: -apple-system, BlinkMacSystemFont, 'Segoe UI', Roboto, sans-serif; margin: 20px; }";
     "        table { border-collapse: collapse; width: 100%; }";
     "        th, td { border: 1px solid #ddd; padding: 8px; text-align: left; }";
     "        th { background: #4a7c59; color: white; }";
     "        tr:nth-child(even) { background: #f9f9f9; }";
     "        .updated { color: #666; font-size: 0.9em; margin-bottom: 20px; }";
     "        a { color: #4a7c59; }";
     "    </style>";
     "</head>";
     "<body>";
     "    <h1>Rare Bird Alerts</h1>";
     "    <p class=" ++ q ++ "updated" ++ q ++ ">Last updated: "].

Definition page_middle : str :=
  lines
    [" | "].

Definition page_body : str :=
  lines
    [" sightings</p>";
     "    <table>";
     "        <thead>";
     "            <tr>";
     "                <th>Species</th>";
     "                <th>Location</th>";
     "                <th>Date</th>";
     "                <th>Observer</th>";
     "                <th>Checklist</th>";
     "            </tr>";
     "        </thead>";
     "        <tbody>"].

Definition page_tail : str :=
  lines
    ["";
     "        </tbody>";
     "    </table>";
     "    <p><a href=" ++ q ++ "data.json" ++ q ++ ">Download JSON data</a></p>";
     "</body>";
     "</html>"].

Definition placeholder : str :=
  "<tr><td colspan=" ++ q ++ "5" ++ q ++ ">No sightings found</td></tr>".

(** One cell of a row, on a line of its own. *)
Definition cell (c : str) : str := "            <td>" ++ c ++ "</td>".

Definition link (href : str) : str :=
  "<a href=" ++ q ++ href ++ q ++ " target=" ++ q ++ "_blank" ++ q
    ++ ">View</a>".

End Html.

Section SimpleHtml.

#[local] Open Scope text_scope.

(** [str(v)] for a float, a list or a dict: their notation in Python,
    which is not modelled. *)
Variable repr : json -> str.

(** What a replacement field of an f-string puts for a value. *)
Definition str_of (v : json) : str :=
  match v with
  | JStr s => s
  | JInt z => Text.wide (Py.str_of_Z z)
  | JNull => "None"
  | JBool true => "True"
  | JBool false => "False"
  | _ => repr v
  end.

(** [s[k]] for a string [k]: a [KeyError] for a dict without the key, a
    [TypeError] for a value that is no dict. *)
Definition subscript (s : json) (k : str) : result json :=
  match s with
  | JDict d =>
      match dict_get k d with
      | Some v => Ok v
      | None => Raise KeyError
      end
  | _ => Raise TypeError
  end.

(** What [for s in v] runs over: a [TypeError] where [v] is not
    iterable. *)
Definition iterate (v : json) : result (list json) :=
  match v with
  | JList l => Ok l
  | JStr s => Ok (map (fun c => JStr (Char c "")) (Text.chars s))
  | JDict d => Ok (map (fun kv => JStr (fst kv)) d)
  | _ => Raise TypeError
  end.

(** The text one round of the loop adds to [rows]. *)
Definition html_row (s : json) : result str :=
  match subscript s "checklist_url" with
  | Raise e => Raise e
  | Ok u =>
      let checklist := if truthy u then Html.link (str_of u) else "-" in
      match subscript s "species" with
      | Raise e => Raise e
      | Ok species =>
      match subscript s "location" with
      | Raise e => Raise e
      | Ok location =>
      match subscript s "date" with
      | Raise e => Raise e
      | Ok date =>
      match subscript s "observer" with
      | Raise e => Raise e
      | Ok observer =>
          Ok (Html.br ++ "        <tr>"
              ++ Html.br ++ Html.cell (str_of species)
              ++ Html.br ++ Html.cell (str_of location)
              ++ Html.br ++ Html.cell (str_of date)
              ++ Html.br ++ Html.cell (str_of observer)
              ++ Html.br ++ Html.cell checklist
              ++ Html.br ++ "        </tr>")
      end end end end
  end.

(** The loop: the rows of the items, up to the first that raises. *)
Fixpoint html_rows (items : list json) : result str :=
  match items with
  | [] => Ok ""
  | s :: rest =>
      match html_row s with
      | Raise e => Raise e
      | Ok row =>
          match html_rows rest with
          | Raise e => Raise e
          | Ok rows => Ok (row ++ rows)
          end
      end
  end.

(** [generate_simple_html(data)] *)
Definition generate_simple_html (data : dict str json) : result str :=
  match subscript (JDict data) "sightings" with
  | Raise e => Raise e
  | Ok sightings =>
      match iterate sightings with
      | Raise e => Raise e
      | Ok items =>
          match html_rows items with
          | Raise e => Raise e
          | Ok rows =>
              match subscript (JDict data) "last_updated" with
              | Raise e => Raise e
              | Ok last_updated =>
              match subscript (JDict data) "count" with
              | Raise e => Raise e
              | Ok count =>
                  Ok (Html.page_head ++ str_of last_updated
                      ++ Html.page_middle ++ str_of count
                      ++ Html.page_body
                      ++ (if Text.truthy rows then rows else Html.placeholder)
                      ++ Html.page_tail)
              end end
          end
      end
  end.

End SimpleHtml.

(** ** The script: environment, network, output *)

Open Scope string_scope.

Record response : Type := {
  status_code : nat;
  url : string;
  text : string
}.

Record datetime : Type := {
  year : nat; month : nat; day : nat;
  hour : nat; minute : nat; second : nat
}.

(** The calls of the file system that can fail. *)
Inductive os_call : Type :=
| MakeDirs (path : string)
| OpenToWrite (path : string)
| WriteTo (path : string).

(** What a run reads from outside: the process environment, the answer
    of the one request (or the exception [requests] raises), the clock,
    the directory above the script's; the error, if any, the operating
    system answers a call with (for [WriteTo] on data.json: the error
    met before the encoder meets one of its own); the number of
    containers [json.dump] enters before the interpreter gives up; and
    the template, where the directory of templates exists: what
    rendering it returns or raises. *)
Record world : Type := {
  environ : dict string string;
  session_get : string -> dict string string -> dict string string -> nat
                -> result response;
  utcnow : datetime;
  base_dir : string;
  os_error : os_call -> option exn;
  dump_depth : nat;
  template : option (dict str json -> result str)
}.

(** What a run does to the outside.  [OpenFile] is the file created or
    emptied; [WriteFile] is the file closed with this content. *)
Inductive event : Type :=
| Print (line : string)
| Get (url : string) (cookies : dict string string)
| Mkdir (path : string)
| OpenFile (path : string)
| WriteFile (path : string) (content : str).

(** Statements that log events and may raise. *)
Definition IO (A : Type) : Type := list event -> list event * result A.

Definition io_ret {A : Type} (a : A) : IO A := fun log => (log, Ok a).

Definition io_bind {A B : Type} (m : IO A) (k : A -> IO B) : IO B :=
  fun log =>
    match m log with
    | (log', Ok a) => k a log'
    | (log', Raise e) => (log', Raise e)
    end.

Definition emit (e : event) : IO unit := fun log => ((log ++ [e])%list, Ok tt).

Definition print (line : string) : IO unit := emit (Print line).

Definition io_raise {A : Type} (e : exn) : IO A := fun log => (log, Raise e).

(** A value, or the exception in its place. *)
Definition io_lift {A : Type} (r : result A) : IO A := fun log => (log, r).

(** [sys.exit(status)] *)
Definition sys_exit {A : Type} (status : nat) : IO A :=
  io_raise (SystemExit status).

(** A call of the file system: the error the world answers with. *)
Definition os (w : world) (c : os_call) : IO unit :=
  match os_error w c with
  | Some e => io_raise e
  | None => io_ret tt
  end.

Notation "x <~ m ;; k" := (io_bind m (fun x => k))
  (at level 61, m at next level, right associativity).
Notation "m ;;; k" := (io_bind m (fun _ => k))
  (at level 61, right associativity).

(** The body of the loop of [get_cookies_from_env]. *)
Definition add_cookie (cookies : dict string string) (item : string)
  : dict string string :=
  let item := Py.strip item in
  if Py.has_char "=" item then
    let (key, value) := Py.split1 "=" item in
    dict_set (Py.strip key) (Py.strip value) cookies
  else cookies.

Definition parse_cookies (cookie_string : string) : dict string string :=
  fold_left add_cookie (Py.split ";" cookie_string) [].

(** [os.environ.get("EBIRD_COOKIES", "")] *)
Definition cookie_string (w : world) : string :=
  match dict_get "EBIRD_COOKIES" (environ w) with
  | Some s => s
  | None => ""
  end.

Definition get_cookies_from_env (w : world) : IO (dict string string) :=
  if negb (Py.truthy (cookie_string w)) then
    print "ERROR: EBIRD_COOKIES environment variable not set" ;;;
    sys_exit 1
  else io_ret (parse_cookies (cookie_string w)).

Definition request_headers : dict string string :=
  [("User-Agent", USER_AGENT);
   ("Accept",
    "text/html,application/xhtml+xml,application/xml;q=0.9,*/*;q=0.8");
   ("Accept-Language", "en-US,en;q=0.5")].

Definition fetch_alerts (w : world) (cookies : dict string string)
  : IO string :=
  emit (Get ALERT_URL cookies) ;;;
  match session_get w ALERT_URL cookies request_headers 30 with
  | Raise e => io_raise e
  | Ok response =>
      if negb (Nat.eqb (status_code response) 200) then
        print ("ERROR: Failed to fetch alerts. Status code: "
                 ++ Py.str_of_nat (status_code response)) ;;;
        (if Py.contains "login" (Py.lower (url response)) then
           print "ERROR: Redirected to login page. Cookies may have expired."
         else io_ret tt) ;;;
        sys_exit 1
      else io_ret (text response)
  end.

Definition pad2 (n : nat) : string :=
  if Nat.ltb n 10 then "0" ++ Py.str_of_nat n else Py.str_of_nat n.

(** [strftime("%Y-%m-%d %H:%M:%S UTC")], for a year of four digits. *)
Definition strftime (t : datetime) : string :=
  Py.str_of_nat (year t) ++ "-" ++ pad2 (month t) ++ "-" ++ pad2 (day t)
    ++ " " ++ pad2 (hour t) ++ ":" ++ pad2 (minute t) ++ ":"
    ++ pad2 (second t) ++ " UTC".

(** The dict [data] of [generate_output]. *)
Definition report (w : world) (sightings : list sighting) : dict str json :=
  [("last_updated", JStr (Text.wide (strftime (utcnow w))));
   ("alert_url", JStr (Text.wide ALERT_URL));
   ("sightings", JList (map JDict sightings));
   ("count", JInt (Z.of_nat (length sightings)))]%text.

Fixpoint repeat_string (s : string) (n : nat) : string :=
  match n with
  | 0 => ""
  | S k => s ++ repeat_string s k
  end.

Section Main.

Variable json_decode : string -> result json.
Variable BeautifulSoup : string -> result Bs4.node.
Variable float_repr : spec_float -> str.
Variable repr : json -> str.

(** [with open(path, "w", encoding="utf-8") as f: json.dump(v, f,
    indent=2, ensure_ascii=False)]: the file is opened, and closed with
    the text of [v] unless the writing raises. *)
Definition json_dump_to (w : world) (path : string) (v : json) : IO unit :=
  os w (OpenToWrite path) ;;;
  emit (OpenFile path) ;;;
  os w (WriteTo path) ;;;
  match Json.dump_error (dump_depth w) v with
  | Some e => io_raise e
  | None => emit (WriteFile path (Json.dumps float_repr v))
  end.

(** [with open(path, "w", encoding="utf-8") as f: f.write(content)] *)
Definition write_to (w : world) (path : string) (content : str) : IO unit :=
  os w (OpenToWrite path) ;;;
  emit (OpenFile path) ;;;
  if Text.encodable content then
    os w (WriteTo path) ;;;
    emit (WriteFile path content)
  else io_raise UnicodeEncodeError.

(** The text of index.html: the template rendered where the directory
    of templates exists, else [generate_simple_html]. *)
Definition html_content (w : world) (data : dict str json) : result str :=
  match template w with
  | Some render => render data
  | None => generate_simple_html repr data
  end.

Definition generate_output (w : world) (sightings : list sighting)
           (output_dir : string) : IO unit :=
  os w (MakeDirs output_dir) ;;;
  emit (Mkdir output_dir) ;;;
  let data := report w sightings in
  let json_path := output_dir ++ "/data.json" in
  json_dump_to w json_path (JDict data) ;;;
  print ("Written: " ++ json_path) ;;;
  html_content <~ io_lift (html_content w data) ;;
  let html_path := output_dir ++ "/index.html" in
  write_to w html_path html_content ;;;
  print ("Written: " ++ html_path).

Definition main (w : world) : IO unit :=
  print "eBird Alert Scraper" ;;;
  print (repeat_string "=" 40) ;;;
  print "Loading cookies from environment..." ;;;
  cookies <~ get_cookies_from_env w ;;
  print ("Loaded " ++ Py.str_of_nat (length cookies) ++ " cookies") ;;;
  print ("Fetching alerts from " ++ ALERT_URL ++ "...") ;;;
  html <~ fetch_alerts w cookies ;;
  print ("Received " ++ Py.str_of_nat (String.length html) ++ " bytes") ;;;
  print "Parsing sightings..." ;;;
  sightings <~ io_lift (parse_alerts json_decode BeautifulSoup html) ;;
  print ("Found " ++ Py.str_of_nat (length sightings) ++ " sightings") ;;;
  let output_dir := base_dir w ++ "/docs" in
  print ("Generating output to " ++ output_dir ++ "...") ;;;
  generate_output w sightings output_dir ;;;
  print "Done!".

(** A run of the program from an empty log. *)
Definition run (w : world) : list event * result unit := main w [].

End Main.

(** The exit status of the process: 0 on return, the argument of
    [sys.exit], 1 after an uncaught exception. *)
Definition exit_status (r : result unit) : nat :=
  match r with
  | Ok _ => 0
  | Raise (SystemExit n) => n
  | Raise _ => 1
  end.
(** ** Reading the specification: the notions its sentences use *)

(** The class attribute in its serialized form, one searchable string. *)
Definition class_text (n : Bs4.node) : option string :=
  option_map (Py.join " ") (Bs4.class_of n).

(** "Whose class-like attribute contains [pat]", case-insensitive. *)
Definition class_contains (pat : string) (n : Bs4.node) : bool :=
  lower_has pat (class_text n).

Definition is_named (nm : string) (n : Bs4.node) : bool :=
  match Bs4.name_of n with
  | Some x => String.eqb nm x
  | None => false
  end.

(** "A link whose target path contains [seg]". *)
Definition is_link_to (seg : string) (n : Bs4.node) : bool :=
  is_named "a" n && has seg (Bs4.attr "href" n).

(** The species element as the specification words it: a link or span
    marked as species, else the first bold or strong element appearing
    in the fragment. *)
Definition spec_species_elem (element : Bs4.node) : option Bs4.node :=
  or_else
    (List.find (fun n => (is_named "a" n || is_named "span" n)
                         && class_contains "species" n)
               (Bs4.descendants element))
    (List.find (fun n => is_named "b" n || is_named "strong" n)
               (Bs4.descendants element)).

(** The field of a sighting, [""] standing for a missing key. *)
Definition field (k : str) (s : sighting) : json :=
  match dict_get k s with Some v => v | None => JStr "" end.

Definition is_str (v : json) : bool :=
  match v with JStr _ => true | _ => false end.

Definition six_keys : list str :=
  ["species"; "location"; "date"; "observer"; "checklist_url"; "count"]%text.

(** The first list of [ls] that is not empty. *)
Fixpoint first_nonempty {A : Type} (ls : list (list A)) : list A :=
  match ls with
  | [] => []
  | [] :: r => first_nonempty r
  | l :: _ => l
  end.

(** The four guesses for the species, in the order they are tried. *)
Definition species_guesses (element : Bs4.node) : list Bs4.node :=
  let ds := Bs4.descendants element in
  (filter (fun n => is_named "a" n && class_contains "species" n) ds
   ++ filter (fun n => is_named "span" n && class_contains "species" n) ds
   ++ filter (is_named "strong") ds
   ++ filter (is_named "b") ds)%list.

(** The shape of a record of the fallback. *)
Definition ld_shape (s : sighting) : Prop :=
  dict_keys s = six_keys
  /\ dict_get "observer"%text s = Some (JStr "")
  /\ dict_get "count"%text s = Some (JStr "").

(** The record [s] holds the values of the linked-data object [item]:
    its name as species, the name of its location when the location is
    an object, its [datePublished] as date and its [url] as checklist
    URL, the empty string standing for what is absent. *)
Definition ld_fields (item : dict str json) (s : sighting) : Prop :=
  dict_get "species"%text s = dict_get "name"%text item
  /\ dict_get "location"%text s
     = Some match dict_get "location"%text item with
            | Some (JDict loc) => field "name" loc
            | _ => JStr ""
            end
  /\ dict_get "date"%text s = Some (field "datePublished" item)
  /\ dict_get "checklist_url"%text s = Some (field "url" item).

(** The record [s] comes from an object with a name, in the list that
    a linked-data block of [soup] decodes to. *)
Definition ld_origin (json_decode : string -> result json)
           (soup : Bs4.node) (s : sighting) : Prop :=
  exists script items item,
    In script (ld_scripts soup)
    /\ json_loads json_decode (Bs4.string_of script) = Ok (JList items)
    /\ In (JDict item) items
    /\ dict_mem "name"%text item = true
    /\ ld_fields item s.

(** A sighting that is a valid value: no key twice, at any depth. *)
Definition valid_sighting (s : sighting) : Prop :=
  Json.valid (JDict s) = true.

(** What is printed before the cookies are looked at. *)
Definition banner : list event :=
  [Print "eBird Alert Scraper"; Print (repeat_string "=" 40);
   Print "Loading cookies from environment..."].

(** The log up to and including the request. *)
Definition fetch_log (w : world) : list event :=
  (banner
   ++ [Print ("Loaded "
              ++ Py.str_of_nat (length (parse_cookies (cookie_string w)))
              ++ " cookies");
       Print ("Fetching alerts from " ++ ALERT_URL ++ "...");
       Get ALERT_URL (parse_cookies (cookie_string w))])%list.

(** What [main] does once the page is parsed. *)
Definition finish (float_repr : spec_float -> str) (repr : json -> str)
           (w : world) (ss : list sighting) : IO unit :=
  print ("Found " ++ Py.str_of_nat (length ss) ++ " sightings") ;;;
  print ("Generating output to " ++ (base_dir w ++ "/docs") ++ "...") ;;;
  generate_output float_repr repr w ss (base_dir w ++ "/docs") ;;;
  print "Done!".

(** Its log and its ending. *)
Definition output_of (float_repr : spec_float -> str) (repr : json -> str)
           (w : world) (ss : list sighting) : list event * result unit :=
  finish float_repr repr w ss [].

(** The log of a run that ends normally, from the count of the
    sightings on: both files written, with [page] in index.html. *)
Definition output_log (float_repr : spec_float -> str) (w : world)
           (ss : list sighting) (page : str) : list event :=
  [Print ("Found " ++ Py.str_of_nat (length ss) ++ " sightings");
   Print ("Generating output to " ++ (base_dir w ++ "/docs") ++ "...");
   Mkdir (base_dir w ++ "/docs");
   OpenFile ((base_dir w ++ "/docs") ++ "/data.json");
   WriteFile ((base_dir w ++ "/docs") ++ "/data.json")
             (Json.dumps float_repr (JDict (report w ss)));
   Print ("Written: " ++ (base_dir w ++ "/docs") ++ "/data.json");
   OpenFile ((base_dir w ++ "/docs") ++ "/index.html");
   WriteFile ((base_dir w ++ "/docs") ++ "/index.html") page;
   Print ("Written: " ++ (base_dir w ++ "/docs") ++ "/index.html");
   Print "Done!"].

Definition failure_log (r : response) : list event :=
  (Print ("ERROR: Failed to fetch alerts. Status code: "
          ++ Py.str_of_nat (status_code r))
   :: (if Py.contains "login" (Py.lower (url r))
       then [Print "ERROR: Redirected to login page. Cookies may have expired."]
       else []))%list.

(** ** Sample pages and worlds *)
Module Sample.
Import Bs4.

Definition q : string := String (ascii_of_N Json.dquote) "".

Definition txt (s : string) : node := Str NavigableString s.

Definition page (body : list node) : node := Tag "[document]" None [] body.

(** [<script type="application/ld+json">payload</script>] *)
Definition ld (payload : string) : node :=
  Tag "script" None [("type", "application/ld+json")] [Str Script payload].

(** [<script type="application/ld+json"></script>] *)
Definition ld_empty : node :=
  Tag "script" None [("type", "application/ld+json")] [].

(** The payload [[{"name": v}]] for a JSON text [v]. *)
Definition named_item (v : string) : string :=
  "[{" ++ q ++ "name" ++ q ++ ": " ++ v ++ "}]".

Definition str_lit (s : string) : string := q ++ s ++ q.

Definition record (species : json) : sighting :=
  [("species", species); ("location", JStr ""); ("date", JStr "");
   ("observer", JStr ""); ("checklist_url", JStr ""); ("count", JStr "")]%text.

(** A page whose only content is a linked-data block naming [""]. *)
Definition page_empty_name : node := page [ld (named_item (str_lit ""))].

(** A linked-data block with no payload between two good ones. *)
Definition page_empty_block : node :=
  page [ld (named_item (str_lit "Snowy Owl")); ld_empty;
        ld (named_item (str_lit "Gyrfalcon"))].

(** A block that does not decode between two good ones. *)
Definition page_bad_block : node :=
  page [ld (named_item (str_lit "Snowy Owl")); ld "{oops";
        ld (named_item (str_lit "Gyrfalcon"))].

(** [<div class="obs"></div>] and a linked-data block. *)
Definition page_obs_no_species : node :=
  page [Tag "div" (Some ["obs"]) [] [];
        ld (named_item (str_lit "Snowy Owl"))].

(** A linked-data block whose name is the escape of a lone surrogate,
    [[{"name": "\ud800"}]]. *)
Definition page_surrogate_name : node :=
  page [ld (named_item (str_lit "\ud800"))].

(** A linked-data block with every field the fallback reads. *)
Definition full_item : string :=
  "[{" ++ q ++ "name" ++ q ++ ": " ++ str_lit "Snowy Owl" ++ ", "
       ++ q ++ "location" ++ q ++ ": {" ++ q ++ "name" ++ q ++ ": "
       ++ str_lit "Pier" ++ "}, "
       ++ q ++ "datePublished" ++ q ++ ": " ++ str_lit "2024-01-02" ++ ", "
       ++ q ++ "url" ++ q ++ ": " ++ str_lit "https://ebird.org/checklist/S1"
       ++ "}]".

Definition page_full_item : node := page [ld full_item].

(** A linked-data block whose date is the number 1.5. *)
Definition page_float_date : node :=
  page [ld ("[{" ++ q ++ "name" ++ q ++ ": " ++ str_lit "Snowy Owl" ++ ", "
                 ++ q ++ "datePublished" ++ q ++ ": 1.50}]")].

(** A linked-data block whose name is the number 5. *)
Definition page_number_name : node := page [ld (named_item "5")].

(** [<div><b>X</b><strong>Y</strong></div>] *)
Definition frag_b_then_strong : node :=
  Tag "div" None []
      [Tag "b" None [] [txt "X"]; Tag "strong" None [] [txt "Y"]].

(** The scenario of the specification: one observation row. *)
Definition page_snowy_owl : node :=
  page [Tag "div" (Some ["Observation"; "row"]) []
          [Tag "a" (Some ["Heading-main"; "Species"]) [] [txt "Snowy Owl"];
           Tag "span" (Some ["location"]) [] [txt "Lakeshore Park"];
           Tag "a" None [("href", "/checklist/S999")] [txt "Checklist"]]].

Definition frag_absolute_link : node :=
  Tag "li" None []
      [Tag "a" None [("href", "https://ebird.org/checklist/S1")] [txt "S1"]].

Definition noon : datetime :=
  {| year := 2024; month := 1; day := 2;
     hour := 12; minute := 0; second := 0 |}.

(** A world with the cookie variable set to [cookie] (unset for [None])
    and the request answered by [r]. *)
Definition world_of (cookie : option string) (r : result response) : world :=
  {| environ := match cookie with
                | Some c => [("EBIRD_COOKIES", c)]
                | None => []
                end;
     session_get := fun _ _ _ _ => r;
     utcnow := noon;
     base_dir := "/srv/scraper";
     os_error := fun _ => None;
     dump_depth := 100;
     template := Some (fun _ => Ok "<html></html>"%text) |}.

(** A tree builder that answers every text with the page [p]. *)
Definition always (p : node) : string -> result node := fun _ => Ok p.

(** The decoder of this file, entering up to a hundred containers, on
    the text of a script element. *)
Definition loads (s : string) : result json :=
  Json.loads 100 (Text.wide s).

(** A float printed as nothing: for values without floats. *)
Definition no_floats : spec_float -> str := fun _ => ""%text.

(** [str] of a float, a list or a dict printed as nothing: for values
    without them. *)
Definition no_repr : json -> str := fun _ => ""%text.

Definition ok_page : response :=
  {| status_code := 200; url := ALERT_URL; text := "<html></html>" |}.

Definition login_page : response :=
  {| status_code := 200;
     url := "https://secure.birds.cornell.edu/cassso/login";
     text := "<html></html>" |}.

Definition not_found : response :=
  {| status_code := 404; url := ALERT_URL; text := "" |}.

Definition login_redirect : response :=
  {| status_code := 302;
     url := "https://secure.birds.cornell.edu/cassso/login";
     text := "" |}.

End Sample.

(** ** Further notions: the cookie header *)

(** A string without whitespace at either end. *)
Definition stripped (s : string) : bool := String.eqb (Py.strip s) s.

(** One pair of a cookie header, [name=value]. *)
Definition cookie_item (kv : string * string) : string :=
  fst kv ++ "=" ++ snd kv.

(** A header in the form the loop of [get_cookies_from_env] reads: the
    pairs separated by a semicolon and a space. *)
Definition cookie_header (d : dict string string) : string :=
  Py.join "; " (map cookie_item d).

(** A pair that a header can carry and give back: name and value
    without whitespace at the ends and without a semicolon, the name
    without an equals sign. *)
Definition cookie_ok (kv : string * string) : bool :=
  stripped (fst kv) && stripped (snd kv)
  && negb (Py.has_char "=" (fst kv))
  && negb (Py.has_char ";" (fst kv)) && negb (Py.has_char ";" (snd kv)).

(** A pair as the loop stores it. *)
Definition cookie_stored (kv : string * string) : bool :=
  stripped (fst kv) && stripped (snd kv) && negb (Py.has_char "=" (fst kv)).

(** ** Further notions: the linked-data blocks *)

(** ["name" in item], false where the test raises. *)
Definition has_name (item : json) : bool :=
  match name_in item with Ok b => b | Raise _ => false end.

(** A value that is not a list. *)
Definition not_a_list (v : json) : bool :=
  match v with JList _ => false | _ => true end.

(** ** Further notions: the log of a run *)

Definition is_get (e : event) : bool :=
  match e with Get _ _ => true | _ => false end.

(** The events that change the output directory. *)
Definition touches_disk (e : event) : bool :=
  match e with
  | Mkdir _ | OpenFile _ | WriteFile _ _ => true
  | _ => false
  end.

(** What a run does to the disk, in order, up to the opening of
    index.html. *)
Definition disk_steps (float_repr : spec_float -> str) (w : world)
           (ss : list sighting) : list event :=
  [Mkdir (base_dir w ++ "/docs");
   OpenFile ((base_dir w ++ "/docs") ++ "/data.json");
   WriteFile ((base_dir w ++ "/docs") ++ "/data.json")
             (Json.dumps float_repr (JDict (report w ss)));
   OpenFile ((base_dir w ++ "/docs") ++ "/index.html")].

(** Payloads of linked-data blocks for the examples. *)
Module Blocks.

(** The text [{"name": "v"}]. *)
Definition named_obj (v : string) : string :=
  "{" ++ Sample.q ++ "name" ++ Sample.q ++ ": " ++ Sample.str_lit v ++ "}".

Definition obj (v : str) : json := JDict [("name"%text, JStr v)].

(** A number between two objects. *)
Definition with_number : string :=
  "[" ++ named_obj "Snowy Owl" ++ ", 5, " ++ named_obj "Gyrfalcon" ++ "]".

(** A string between two objects. *)
Definition with_string : string :=
  "[" ++ named_obj "Snowy Owl" ++ ", " ++ Sample.str_lit "unnamed" ++ ", "
      ++ named_obj "Gyrfalcon" ++ "]".

(** An object without a name between two with one. *)
Definition objects : string :=
  "[" ++ named_obj "Snowy Owl" ++ ", {}, " ++ named_obj "Gyrfalcon" ++ "]".

End Blocks.

(** ** Further notions: the guesses of the record extractor *)

(** The guesses for the location, in the order they are tried: any tag
    whose class contains "location", then a link to a hotspot. *)
Definition location_guesses (element : Bs4.node) : list Bs4.node :=
  let ds := Bs4.descendants element in
  (filter (fun n => Bs4.is_tag n && class_contains "location" n) ds
   ++ filter (is_link_to "/hotspot/") ds)%list.

Definition date_guesses (element : Bs4.node) : list Bs4.node :=
  filter (fun n => Bs4.is_tag n && class_contains "date" n)
         (Bs4.descendants element).

Definition observer_guesses (element : Bs4.node) : list Bs4.node :=
  let ds := Bs4.descendants element in
  (filter (fun n => Bs4.is_tag n && class_contains "observer" n) ds
   ++ filter (is_link_to "/profile/") ds)%list.

(** The text of the first guess, [""] when there is none. *)
Definition first_text (guesses : list Bs4.node) : json :=
  JStr (Text.wide match guesses with
                  | x :: _ => Bs4.get_text_strip x
                  | [] => ""
                  end).

(** A tag that no guess of the extractor can take for a field: not a
    link, a span, a [strong] or a [b], and its class says nothing of
    location, date or observer. *)
Definition plain (n : Bs4.node) : bool :=
  negb (is_named "a" n || is_named "span" n || is_named "strong" n
        || is_named "b" n || class_contains "location" n
        || class_contains "date" n || class_contains "observer" n).

(** Wrapped rows for the examples. *)
Module Rows.
Import Bs4.

(** [<div class="obs"><a class="species">Snowy Owl</a></div>] *)
Definition owl : node :=
  Tag "div" (Some ["obs"]) []
      [Tag "a" (Some ["species"]) [] [Sample.txt "Snowy Owl"]].

(** The same row inside [<div class="obs-list">], with the line breaks
    of the markup around it. *)
Definition wrapped_owl : node :=
  Tag "div" (Some ["obs-list"]) []
      [Sample.txt " "; owl; Sample.txt " "].

End Rows.

(** ** Further notions: the rows of method 4 *)

(** A tag that [find_parent(["div", "li", "tr"])] can return. *)
Definition is_container (n : Bs4.node) : bool :=
  is_named "div" n || is_named "li" n || is_named "tr" n.

(** The record of the row names a checklist. *)
Definition has_checklist_url (row : Bs4.node) : Prop :=
  exists t,
    dict_get "checklist_url"%text (extract_sighting_data row)
    = Some (JStr (Text.wide t))
    /\ Py.contains "/checklist/" t = true.

(** The world [w] for a script that finds no directory of templates:
    the text of index.html is what [generate_simple_html] returns. *)
Definition without_template (w : world) : world :=
  {| environ := environ w;
     session_get := session_get w;
     utcnow := utcnow w;
     base_dir := base_dir w;
     os_error := os_error w;
     dump_depth := dump_depth w;
     template := None |}.
(** * Properties *)

(** ** Strings *)
Section StringFacts.

Lemma append_nil_r (s : string) : s ++ "" = s.
Proof. induction s; simpl; congruence. Qed.

Lemma append_assoc (a b c : string) : (a ++ b) ++ c = a ++ b ++ c.
Proof. induction a; simpl; congruence. Qed.

Lemma lower_app (a b : string) :
  Py.lower (a ++ b) = Py.lower a ++ Py.lower b.
Proof. induction a; simpl; congruence. Qed.

Lemma startswith_app (p a b : string) :
  Py.startswith p a = true -> Py.startswith p (a ++ b) = true.
Proof.
  revert a; induction p as [|c p IH]; intros [|d a]; simpl; auto; try discriminate.
  intros H; apply andb_true_iff in H as [-> H]; simpl; auto.
Qed.

Lemma contains_app_l (p a b : string) :
  Py.contains p a = true -> Py.contains p (a ++ b) = true.
Proof.
  induction a as [|c a IH]; simpl.
  - rewrite orb_false_r. destruct p; [destruct b; reflexivity | discriminate].
  - intros H; apply orb_true_iff in H as [H|H].
    + change (String c (a ++ b)) with (String c a ++ b).
      rewrite (startswith_app _ _ _ H); reflexivity.
    + rewrite (IH H); apply orb_true_r.
Qed.

Lemma contains_app_r (p a b : string) :
  Py.contains p b = true -> Py.contains p (a ++ b) = true.
Proof.
  intros H; induction a as [|c a IH]; simpl; auto.
  change (Py.contains p (a ++ b)) with (Py.contains p (a ++ b)) in IH.
  rewrite IH; apply orb_true_r.
Qed.

Lemma truthy_app_l (a b : string) :
  Py.truthy a = true -> Py.truthy (a ++ b) = true.
Proof. destruct a; simpl; [discriminate | auto]. Qed.

Lemma truthy_app_r (a b : string) :
  Py.truthy b = true -> Py.truthy (a ++ b) = true.
Proof. destruct a; simpl; auto. Qed.

Lemma join_cons (sep x : string) (l : list string) :
  Py.join sep (x :: l)
  = match l with [] => x | _ => x ++ sep ++ Py.join sep l end.
Proof. destruct l; reflexivity. Qed.

(** A token that a lowered search finds is found in the joined text. *)
Lemma lower_has_join (pat t : string) (toks : list string) :
  In t toks -> lower_has pat (Some t) = true ->
  lower_has pat (Some (Py.join " " toks)) = true.
Proof.
  unfold lower_has.
  induction toks as [|x l IH]; intros Hin H; [destruct Hin|].
  rewrite join_cons.
  apply andb_true_iff in H as [Ht Hc].
  destruct Hin as [->|Hin].
  - destruct l; [now rewrite Ht, Hc|].
    apply andb_true_iff; split.
    + apply truthy_app_l; exact Ht.
    + rewrite lower_app; apply contains_app_l; exact Hc.
  - specialize (IH Hin (proj2 (andb_true_iff _ _) (conj Ht Hc))).
    apply andb_true_iff in IH as [IH1 IH2].
    destruct l as [|y l]; [destruct Hin|].
    apply andb_true_iff; split.
    + apply truthy_app_r, truthy_app_r; exact IH1.
    + rewrite lower_app; apply contains_app_r.
      rewrite lower_app; apply contains_app_r; exact IH2.
Qed.

(** The edge-case policy of the entry locator: matching a lowered
    substring against the class tokens is matching it against the
    serialized attribute. *)
Lemma matches_class_lower_has (pat : string) (c : option (list string)) :
  Bs4.matches_class (lower_has pat) c
  = lower_has pat (option_map (Py.join " ") c).
Proof.
  destruct c as [toks|]; simpl; [|reflexivity].
  destruct (existsb _ toks) eqn:E; simpl; [|reflexivity].
  apply existsb_exists in E as (t & Hin & Ht).
  symmetry; eapply lower_has_join; eauto.
Qed.

End StringFacts.

(** ** Text *)
Section TextFacts.
#[local] Open Scope text_scope.
Implicit Types (a b c p s t : str).

Lemma text_app_nil_r s : s ++ "" = s.
Proof. induction s; simpl; congruence. Qed.

Lemma text_app_assoc a b c : (a ++ b) ++ c = a ++ b ++ c.
Proof. induction a; simpl; congruence. Qed.

Lemma text_eqb_refl s : Text.eqb s s = true.
Proof. induction s; simpl; [reflexivity|]. now rewrite N.eqb_refl. Qed.

Lemma text_eqb_eq a b : Text.eqb a b = true <-> a = b.
Proof.
  split; [|intros ->; apply text_eqb_refl].
  revert b; induction a as [|x a IH]; intros [|y b]; simpl;
    try discriminate; auto.
  intros H; apply andb_true_iff in H as [H1 H2].
  apply N.eqb_eq in H1. apply IH in H2. congruence.
Qed.

Lemma text_eqb_spec a b : reflect (a = b) (Text.eqb a b).
Proof.
  destruct (Text.eqb a b) eqn:E; constructor.
  - now apply text_eqb_eq.
  - intros ->. now rewrite text_eqb_refl in E.
Qed.

Lemma text_length_app a b :
  Text.length (a ++ b) = Text.length a + Text.length b.
Proof. induction a; simpl; congruence. Qed.

Lemma text_startswith_app p a b :
  Text.startswith p a = true -> Text.startswith p (a ++ b) = true.
Proof.
  revert a; induction p as [|x p IH]; intros [|y a]; simpl; auto;
    try discriminate.
  intros H; apply andb_true_iff in H as [-> H]; simpl; auto.
Qed.

Lemma text_startswith_self p b : Text.startswith p (p ++ b) = true.
Proof. induction p; simpl; [reflexivity|]. now rewrite N.eqb_refl. Qed.

Lemma text_contains_app_l p a b :
  Text.contains p a = true -> Text.contains p (a ++ b) = true.
Proof.
  induction a as [|x a IH]; simpl.
  - rewrite orb_false_r. destruct p; [destruct b; reflexivity | discriminate].
  - intros H; apply orb_true_iff in H as [H|H].
    + change (Char x (a ++ b)) with (Char x a ++ b).
      rewrite (text_startswith_app _ _ _ H); reflexivity.
    + rewrite (IH H); apply orb_true_r.
Qed.

Lemma text_contains_app_r p a b :
  Text.contains p b = true -> Text.contains p (a ++ b) = true.
Proof.
  intros H; induction a as [|x a IH]; simpl; auto.
  rewrite IH; apply orb_true_r.
Qed.

Lemma text_contains_self p : Text.contains p p = true.
Proof.
  destruct p as [|x p]; [reflexivity|].
  cbn [Text.contains].
  rewrite <- (text_app_nil_r (Char x p)) at 2.
  now rewrite text_startswith_self.
Qed.

Lemma wide_app (x y : string) :
  Text.wide (x ++ y)%string = Text.wide x ++ Text.wide y.
Proof. induction x; simpl; congruence. Qed.

Lemma wide_inj (x y : string) : Text.wide x = Text.wide y -> x = y.
Proof.
  revert y; induction x as [|c x IH]; intros [|d y]; simpl;
    try discriminate; auto.
  intros E. injection E as E1 E2.
  apply (f_equal ascii_of_N) in E1. rewrite !ascii_N_embedding in E1.
  f_equal; auto.
Qed.

Lemma narrow_wide (x : string) : Text.narrow (Text.wide x) = x.
Proof.
  induction x as [|c x IH]; simpl; [reflexivity|].
  now rewrite ascii_N_embedding, IH.
Qed.

Lemma wide_length (x : string) : Text.length (Text.wide x) = String.length x.
Proof. induction x; simpl; congruence. Qed.

Lemma wide_truthy (x : string) : Text.truthy (Text.wide x) = Py.truthy x.
Proof. destruct x; reflexivity. Qed.

Lemma wide_startswith (p x : string) :
  Text.startswith (Text.wide p) (Text.wide x) = Py.startswith p x.
Proof.
  revert x; induction p as [|c p IH]; intros [|d x]; simpl; auto.
  rewrite IH. f_equal.
  destruct (Ascii.eqb_spec c d) as [->|N].
  - apply N.eqb_refl.
  - apply N.eqb_neq. intros E. apply N.
    apply (f_equal ascii_of_N) in E. now rewrite !ascii_N_embedding in E.
Qed.

Lemma wide_contains (p x : string) :
  Text.contains (Text.wide p) (Text.wide x) = Py.contains p x.
Proof.
  induction x as [|d x IH].
  - destruct p; reflexivity.
  - cbn [Text.wide Text.contains Py.contains].
    change (Char (N_of_ascii d) (Text.wide x)) with (Text.wide (String d x)).
    now rewrite wide_startswith, IH.
Qed.

(** Text of the 8-bit range has no surrogate. *)
Lemma wide_encodable (x : string) : Text.encodable (Text.wide x) = true.
Proof.
  induction x as [|c x IH]; simpl; [reflexivity|].
  rewrite IH, andb_true_r. unfold Text.is_surrogate.
  pose proof (N_ascii_bounded c) as B.
  destruct (N.leb_spec 55296 (N_of_ascii c)); [lia|reflexivity].
Qed.

Lemma encodable_app a b :
  Text.encodable (a ++ b) = Text.encodable a && Text.encodable b.
Proof.
  induction a as [|x a IH]; simpl; [reflexivity|].
  now rewrite IH, andb_assoc.
Qed.

End TextFacts.

(** ** Dictionaries *)

#[export] Instance string_key_ok : KeyOk string.
Proof. intros a b. apply String.eqb_eq. Qed.

#[export] Instance text_key_ok : KeyOk str.
Proof. intros a b. apply text_eqb_eq. Qed.

Section DictFacts.
Context {K V : Type} `{KeyOk K}.
Implicit Types (d : dict K V) (k : K) (v : V).

Lemma key_eqb_refl k : key_eqb k k = true.
Proof. now apply key_eqb_eq. Qed.

Lemma key_eqb_spec k k' : reflect (k = k') (key_eqb k k').
Proof.
  destruct (key_eqb k k') eqn:E; constructor.
  - now apply key_eqb_eq.
  - intros ->. now rewrite key_eqb_refl in E.
Qed.

Lemma dict_get_set_same k v d : dict_get k (dict_set k v d) = Some v.
Proof.
  induction d as [|[k' v'] d IH]; simpl.
  - now rewrite key_eqb_refl.
  - destruct (key_eqb k k') eqn:E; simpl; rewrite E; auto.
Qed.

Lemma dict_get_set_other k k' v d :
  k <> k' -> dict_get k (dict_set k' v d) = dict_get k d.
Proof.
  intros Hne; induction d as [|[k2 v2] d IH]; simpl.
  - destruct (key_eqb_spec k k'); congruence.
  - destruct (key_eqb_spec k' k2); simpl.
    + subst. destruct (key_eqb_spec k k2); congruence.
    + destruct (key_eqb_spec k k2); auto.
Qed.

Lemma dict_keys_set k v d :
  dict_keys (dict_set k v d)
  = if dict_mem k d then dict_keys d else (dict_keys d ++ [k])%list.
Proof.
  unfold dict_mem, dict_keys.
  induction d as [|[k' v'] d IH]; simpl; auto.
  destruct (key_eqb k k') eqn:E; simpl; auto.
  rewrite IH. destruct (dict_get k d); reflexivity.
Qed.

Lemma dict_get_none_iff k d :
  dict_get k d = None <-> ~ In k (dict_keys d).
Proof.
  unfold dict_keys. induction d as [|[k' v'] d IH]; simpl; [tauto|].
  destruct (key_eqb_spec k k') as [->|N].
  - split; [discriminate | intros G; exfalso; apply G; now left].
  - rewrite IH. split; [intros G [E|E]; [congruence | auto] | tauto].
Qed.

Lemma dict_keys_get k d :
  In k (dict_keys d) -> exists v, dict_get k d = Some v.
Proof.
  intros Hin. destruct (dict_get k d) as [v|] eqn:E; [now exists v|].
  apply dict_get_none_iff in E. contradiction.
Qed.

Lemma dict_set_forall (P : V -> Prop) k v d :
  P v -> Forall (fun kv => P (snd kv)) d ->
  Forall (fun kv => P (snd kv)) (dict_set k v d).
Proof.
  intros Hv; induction 1 as [|[k' v'] d Hx Hd IH]; simpl.
  - constructor; auto.
  - destruct (key_eqb k k'); constructor; auto.
Qed.

End DictFacts.

(** ** Searching the tree *)
Section SearchFacts.
Import Bs4.

Lemma or_else_hd {A : Type} (l1 l2 : list A) :
  or_else (hd_error l1) (hd_error l2) = hd_error (l1 ++ l2)%list.
Proof. destruct l1; reflexivity. Qed.

Lemma find_hd_filter {A : Type} (f : A -> bool) (l : list A) :
  List.find f l = hd_error (filter f l).
Proof.
  induction l as [|x l IH]; simpl; auto. destruct (f x); auto.
Qed.

Lemma matches_named (nm : string) (n : node) :
  matches (named nm) n = is_named nm n.
Proof.
  destruct n; simpl; [|reflexivity].
  unfold is_named; simpl. now rewrite !andb_true_r.
Qed.

Lemma matches_named_class (nm pat : string) (n : node) :
  matches (with_class (named nm) (lower_has pat)) n
  = is_named nm n && class_contains pat n.
Proof.
  destruct n; simpl; [|reflexivity].
  unfold is_named, class_contains, class_text; simpl.
  now rewrite matches_class_lower_has, !andb_true_r.
Qed.

Lemma matches_any_class (pat : string) (n : node) :
  matches (with_class any (lower_has pat)) n
  = is_tag n && class_contains pat n.
Proof.
  destruct n; simpl; [|reflexivity].
  unfold class_contains, class_text; simpl.
  now rewrite matches_class_lower_has, !andb_true_r.
Qed.

Lemma matches_link (seg : string) (n : node) :
  matches (with_attr_fn (named "a") "href" (has seg)) n = is_link_to seg n.
Proof.
  destruct n; simpl; [|reflexivity].
  unfold is_link_to, is_named; simpl. now rewrite !andb_true_r.
Qed.

(** [find] is the first descendant, in document order, that satisfies
    the criterion. *)
Lemma find_first (c : criteria) (p : node -> bool) (n : node) :
  (forall x, matches c x = p x) ->
  find c n = hd_error (filter p (descendants n)).
Proof.
  intros H; unfold find, find_all. f_equal. apply filter_ext; exact H.
Qed.

(** Induction on trees, through the contents of a tag. *)
Lemma node_induction (P : node -> Prop) :
  (forall k s, P (Str k s)) ->
  (forall nm c a cs, Forall P cs -> P (Tag nm c a cs)) ->
  forall n, P n.
Proof.
  intros Hs Ht. fix IH 1. intros n.
  destruct n as [nm c a cs|k s]; [|apply Hs].
  apply Ht. induction cs as [|x cs IHcs]; constructor; [apply IH | exact IHcs].
Qed.

(** The walk with chains visits the same nodes in the same order. *)
Lemma descendants_ctx_nodes (n : node) (anc : list node) :
  map snd (descendants_ctx anc n) = descendants n.
Proof.
  revert anc; induction n as [k s|nm c a cs IH] using node_induction;
    intros anc; [reflexivity|].
  cbn [descendants descendants_ctx].
  generalize (Tag nm c a cs :: anc) as anc'. intros anc'.
  induction IH as [|x cs Hx Hcs IHcs]; [reflexivity|].
  cbn [flat_map]. rewrite List.map_app. cbn [map snd].
  now rewrite Hx, IHcs.
Qed.

(** A search with chains finds what the plain search finds. *)
Lemma find_all_ctx_nodes (c : criteria) (anc : list node) (n : node) :
  map snd (find_all_ctx c anc n) = find_all c n.
Proof.
  unfold find_all_ctx, find_all. rewrite <- (descendants_ctx_nodes n anc).
  induction (descendants_ctx anc n) as [|[a x] l IH]; [reflexivity|].
  cbn [filter map snd]. destruct (matches c x); cbn [map snd]; now rewrite IH.
Qed.

End SearchFacts.

(** ** The record extractor *)
Section Extractor.
Import Bs4.

Lemma dict_get_set_text_other (k k' : str) (e : option node) (s : sighting) :
  k <> k' -> dict_get k (set_text k' e s) = dict_get k s.
Proof.
  intros H; destruct e; simpl; auto. now apply dict_get_set_other.
Qed.

Lemma dict_get_set_text_same (k : str) (e : option node) (s : sighting) :
  dict_mem k s = true ->
  field k (set_text k e s)
  = match e with
    | Some x => JStr (Text.wide (get_text_strip x))
    | None => field k s
    end.
Proof.
  intros _; unfold field; destruct e; simpl; auto.
  now rewrite dict_get_set_same.
Qed.

Lemma species_elem_first (element : node) :
  species_elem element = hd_error (species_guesses element).
Proof.
  unfold species_elem, species_guesses.
  rewrite (find_first _ _ element (matches_named_class "a" "species")).
  rewrite (find_first _ _ element (matches_named_class "span" "species")).
  rewrite (find_first _ _ element (matches_named "strong")).
  rewrite (find_first _ _ element (matches_named "b")).
  now rewrite !or_else_hd.
Qed.

Lemma species_of_elem (element : node) :
  dict_get "species"%text (extract_sighting_data element)
  = Some (JStr (Text.wide match species_elem element with
                          | Some x => get_text_strip x
                          | None => ""
                          end)).
Proof.
  unfold extract_sighting_data.
  destruct (checklist_link element);
    [rewrite dict_get_set_other by discriminate|];
    rewrite !dict_get_set_text_other by discriminate;
    destruct (species_elem element); reflexivity.
Qed.

Lemma checklist_link_first (element : node) :
  checklist_link element
  = List.find (is_link_to "/checklist/") (descendants element).
Proof.
  unfold checklist_link.
  rewrite (find_first _ _ element (matches_link "/checklist/")).
  now rewrite find_hd_filter.
Qed.

(** Every record of the fragment path has the six keys, in the order of
    the dict literal, and a string under each. *)
Lemma extract_sighting_data_shape (element : node) :
  dict_keys (extract_sighting_data element) = six_keys
  /\ forallb (fun kv => is_str (snd kv)) (extract_sighting_data element) = true.
Proof.
  unfold extract_sighting_data.
  destruct (species_elem element), (location_elem element),
    (date_elem element), (observer_elem element), (checklist_link element);
    split; reflexivity.
Qed.

(** The loop of [parse_alerts] keeps a record only with a species that
    is a non-empty string. *)
Lemma row_sightings_have_species (rows : list node) :
  Forall (fun s => exists t,
              dict_get "species"%text s = Some (JStr (Text.wide t))
              /\ t <> "")
         (row_sightings rows).
Proof.
  unfold row_sightings.
  induction rows as [|row rows IH]; cbn [flat_map]; [constructor|].
  apply Forall_app; split; [|exact IH].
  rewrite species_of_elem.
  match goal with |- context [if ?c then _ else _] => destruct c eqn:C end;
    [|constructor].
  constructor; [|constructor].
  apply andb_true_iff in C as [_ C].
  rewrite species_of_elem.
  eexists; split; [reflexivity|].
  intros E; rewrite E in C; discriminate.
Qed.

End Extractor.

(** ** The structured-data fallback *)
Section Fallback.
Import Bs4.
Variable json_decode : string -> result json.

Lemma for_each_app {A : Type} (f : A -> M unit) (l1 l2 : list A)
      (st : list sighting) :
  for_each f (l1 ++ l2)%list st
  = match for_each f l1 st with
    | (st', Ok _) => for_each f l2 st'
    | (st', Raise e) => (st', Raise e)
    end.
Proof.
  revert st; induction l1 as [|x l1 IH]; intros st; simpl; auto.
  unfold bind. destruct (f x st) as [st' [[]|e]]; auto.
Qed.

(** What holds of the list before a loop and is kept by every round
    holds after the loop, however it ends. *)
Lemma for_each_invariant {A : Type} (P : list sighting -> Prop)
      (f : A -> M unit) (l : list A) :
  (forall x, In x l -> forall st, P st -> P (fst (f x st))) ->
  forall st, P st -> P (fst (for_each f l st)).
Proof.
  induction l as [|x l IH]; intros Hf st Hst; simpl; auto.
  unfold bind. pose proof (Hf x (or_introl eq_refl) st Hst) as Hx.
  destruct (f x st) as [st' [[]|e]]; simpl in *; auto.
Qed.

(** A block whose text does not decode leaves the list as it is and
    raises nothing. *)
Lemma ld_script_undecodable (script : node) (s : string)
      (st : list sighting) :
  string_of script = Some s -> json_decode s = Raise JSONDecodeError ->
  ld_script json_decode script st = (st, Ok tt).
Proof.
  intros Hs Hd. unfold ld_script, try_except, bind, lift, json_loads.
  now rewrite Hs, Hd.
Qed.

(** Such a block can be dropped from the run over the blocks. *)
Lemma undecodable_block_skipped (pre post : list node) (script : node)
      (s : string) (st : list sighting) :
  string_of script = Some s -> json_decode s = Raise JSONDecodeError ->
  for_each (ld_script json_decode) (pre ++ script :: post)%list st
  = for_each (ld_script json_decode) (pre ++ post)%list st.
Proof.
  intros Hs Hd. rewrite !for_each_app.
  destruct (for_each _ pre st) as [st' [[]|e]]; auto.
  simpl. unfold bind at 1. now rewrite (ld_script_undecodable _ _ _ Hs Hd).
Qed.

Lemma ld_record_shape (item : json) (s : sighting) :
  ld_record item = Ok s -> ld_shape s.
Proof.
  unfold ld_record.
  destruct (item_get item "name" _); [|discriminate].
  destruct (item_get item "location" _) as [loc|]; [|discriminate].
  destruct (if is_dict loc then _ else _); [|discriminate].
  destruct (item_get item "datePublished" _); [|discriminate].
  destruct (item_get item "url" _); [|discriminate].
  intros [= <-]. repeat split.
Qed.

Lemma ld_item_shape (item : json) (st : list sighting) :
  Forall ld_shape st -> Forall ld_shape (fst (ld_item item st)).
Proof.
  intros H. unfold ld_item, bind, lift, append, ret.
  destruct (name_in item) as [[|]|e]; simpl; auto.
  destruct (ld_record item) as [s|e] eqn:E; simpl; auto.
  apply Forall_app; split; auto.
  constructor; [eapply ld_record_shape; eauto | constructor].
Qed.

Lemma ld_script_shape (script : node) (st : list sighting) :
  Forall ld_shape st ->
  Forall ld_shape (fst (ld_script json_decode script st)).
Proof.
  intros H. unfold ld_script, try_except.
  match goal with |- context [match ?b st with _ => _ end] =>
    assert (Hb : Forall ld_shape (fst (b st))); [|destruct (b st) as [st' [[]|e]]]
  end; simpl in *; auto.
  - unfold bind, lift.
    destruct (json_loads json_decode (string_of script)) as [data|e];
      simpl; auto.
    destruct data; simpl; auto.
    apply (for_each_invariant (Forall ld_shape)); auto.
    intros; now apply ld_item_shape.
  - destruct (ld_handled e); simpl; auto.
Qed.

Lemma extract_sightings_generic_shape (soup : node) (ss : list sighting) :
  extract_sightings_generic json_decode soup = Ok ss -> Forall ld_shape ss.
Proof.
  unfold extract_sightings_generic.
  pose proof (for_each_invariant (Forall ld_shape) (ld_script json_decode)
                (ld_scripts soup)
                (fun x _ st H => ld_script_shape x st H) [] (Forall_nil _)) as H.
  destruct (for_each _ _ _) as [st [[]|e]]; [|discriminate].
  now intros [= <-].
Qed.

End Fallback.

(** ** The entry locator *)
Section Locator.
Import Bs4.
Variable json_decode : string -> result json.

Lemma obs_rows_first (c : list node * node) :
  obs_rows c
  = first_nonempty [method1 (snd c); method2 (snd c); method3 (snd c);
                    method4 c].
Proof.
  unfold obs_rows, if_empty; simpl.
  destruct (method1 (snd c)); auto.
  destruct (method2 (snd c)); auto.
  destruct (method3 (snd c)); auto.
  destruct (method4 c); auto.
Qed.

Lemma parse_soup_cases (soup : node) :
  parse_soup json_decode soup
  = match row_sightings (obs_rows (content soup)) with
    | [] => extract_sightings_generic json_decode soup
    | ss => Ok ss
    end.
Proof. unfold parse_soup. now destruct (row_sightings _). Qed.

End Locator.

(** ** A run of the program *)
Section Run.
Variable json_decode : string -> result json.
Variable BeautifulSoup : string -> result Bs4.node.
Variable float_repr : spec_float -> str.
Variable repr : json -> str.

(** The ways [generate_output] can go, with what is on the disk then. *)
Lemma output_of_cases (w : world) (ss : list sighting) :
  output_of float_repr repr w ss
  = let dir := base_dir w ++ "/docs" in
    let data := report w ss in
    let log0 :=
      [Print ("Found " ++ Py.str_of_nat (length ss) ++ " sightings");
       Print ("Generating output to " ++ dir ++ "...")] in
    match os_error w (MakeDirs dir) with
    | Some e => (log0, Raise e)
    | None =>
    let log1 := (log0 ++ [Mkdir dir])%list in
    match os_error w (OpenToWrite (dir ++ "/data.json")) with
    | Some e => (log1, Raise e)
    | None =>
    let log2 := (log1 ++ [OpenFile (dir ++ "/data.json")])%list in
    match os_error w (WriteTo (dir ++ "/data.json")) with
    | Some e => (log2, Raise e)
    | None =>
    match Json.dump_error (dump_depth w) (JDict data) with
    | Some e => (log2, Raise e)
    | None =>
    let log3 :=
      (log2 ++ [WriteFile (dir ++ "/data.json")
                          (Json.dumps float_repr (JDict data));
                Print ("Written: " ++ dir ++ "/data.json")])%list in
    match html_content repr w data with
    | Raise e => (log3, Raise e)
    | Ok page =>
    match os_error w (OpenToWrite (dir ++ "/index.html")) with
    | Some e => (log3, Raise e)
    | None =>
    let log4 := (log3 ++ [OpenFile (dir ++ "/index.html")])%list in
    if Text.encodable page then
      match os_error w (WriteTo (dir ++ "/index.html")) with
      | Some e => (log4, Raise e)
      | None => (output_log float_repr w ss page, Ok tt)
      end
    else (log4, Raise UnicodeEncodeError)
    end end end end end end.
Proof.
  unfold output_of, finish, generate_output, json_dump_to, write_to, os,
    io_bind, io_ret, io_lift, print, emit, io_raise, output_log.
  cbv zeta. cbn [List.app].
  destruct (os_error w (MakeDirs _)); [reflexivity|].
  destruct (os_error w (OpenToWrite (_ ++ "/data.json"))); [reflexivity|].
  destruct (os_error w (WriteTo (_ ++ "/data.json"))); [reflexivity|].
  destruct (Json.dump_error _ _); [reflexivity|].
  cbn [List.app].
  destruct (html_content repr w _); [|reflexivity].
  destruct (os_error w (OpenToWrite (_ ++ "/index.html"))); [reflexivity|].
  cbn [List.app].
  destruct (Text.encodable _); [|reflexivity].
  destruct (os_error w (WriteTo (_ ++ "/index.html"))); reflexivity.
Qed.

(** The output goes on from the log it is given. *)
Lemma finish_appends (w : world) (ss : list sighting) (log : list event) :
  finish float_repr repr w ss log
  = ((log ++ fst (output_of float_repr repr w ss))%list,
     snd (output_of float_repr repr w ss)).
Proof.
  unfold output_of, finish, generate_output, json_dump_to, write_to, os,
    io_bind, io_ret, io_lift, print, emit, io_raise.
  cbv zeta. cbn [List.app].
  repeat match goal with
         | |- context [match os_error w ?c with _ => _ end] =>
             destruct (os_error w c)
         | |- context [match Json.dump_error ?d ?v with _ => _ end] =>
             destruct (Json.dump_error d v)
         | |- context [match html_content ?r ?w ?d with _ => _ end] =>
             destruct (html_content r w d)
         | |- context [if Text.encodable ?p then _ else _] =>
             destruct (Text.encodable p)
         end;
    cbn [fst snd List.app]; rewrite <- ?app_assoc; reflexivity.
Qed.

(** The ways a run can go. *)
Lemma run_cases (w : world) :
  run json_decode BeautifulSoup float_repr repr w
  = if negb (Py.truthy (cookie_string w)) then
      ((banner
        ++ [Print "ERROR: EBIRD_COOKIES environment variable not set"])%list,
       Raise (SystemExit 1))
    else
      match session_get w ALERT_URL (parse_cookies (cookie_string w))
                        request_headers 30 with
      | Raise e => (fetch_log w, Raise e)
      | Ok r =>
          if negb (Nat.eqb (status_code r) 200) then
            ((fetch_log w ++ failure_log r)%list, Raise (SystemExit 1))
          else
            let parsing :=
              [Print ("Received "
                      ++ Py.str_of_nat (String.length (text r)) ++ " bytes");
               Print "Parsing sightings..."] in
            match parse_alerts json_decode BeautifulSoup (text r) with
            | Raise e => ((fetch_log w ++ parsing)%list, Raise e)
            | Ok ss =>
                ((fetch_log w ++ parsing
                    ++ fst (output_of float_repr repr w ss))%list,
                 snd (output_of float_repr repr w ss))
            end
      end.
Proof.
  unfold run, main.
  change (fun sightings : list sighting =>
            print ("Found " ++ Py.str_of_nat (length sightings)
                   ++ " sightings") ;;;
            print ("Generating output to " ++ (base_dir w ++ "/docs")
                   ++ "...") ;;;
            generate_output float_repr repr w sightings
                            (base_dir w ++ "/docs") ;;;
            print "Done!")
    with (finish float_repr repr w).
  unfold get_cookies_from_env, fetch_alerts,
    io_bind, io_ret, io_lift, print, emit, sys_exit, io_raise, fetch_log,
    failure_log, banner.
  destruct (negb (Py.truthy (cookie_string w))); [reflexivity|].
  destruct (session_get w _ _ _ _) as [r|e]; [|reflexivity].
  destruct (negb (Nat.eqb (status_code r) 200)).
  - destruct (Py.contains "login" _); reflexivity.
  - destruct (parse_alerts _ _ _) as [ss|e]; [|reflexivity].
    rewrite finish_appends. cbn [List.app]. reflexivity.
Qed.

Lemma truthy_empty (s : string) : Py.truthy s = false <-> s = "".
Proof. destruct s; simpl; split; congruence. Qed.

End Run.
(** ** The round trip of the JSON text *)
Section EscapedStrings.
Import Json.
#[local] Open Scope text_scope.

Lemma is_char_spec (c : N) (a : ascii) : reflect (c = chr a) (is_char c a).
Proof. unfold is_char. apply N.eqb_spec. Qed.

Lemma scan_plain_char (c : N) (x : str) :
  (32 <= c)%N -> c <> dquote -> c <> backslash ->
  scan_string (Char c x)
  = match scan_string x with
    | Some (t, rest) => Some (Char c t, rest)
    | None => None
    end.
Proof.
  intros H32 Hq Hb. cbn [scan_string].
  apply N.eqb_neq in Hq, Hb. rewrite Hq, Hb.
  destruct (N.ltb_spec c 32); [lia|reflexivity].
Qed.

Lemma scan_escape_char (c : N) (x : str) :
  scan_string (escape_char c ++ x)
  = match scan_string x with
    | Some (t, rest) => Some (Char c t, rest)
    | None => None
    end.
Proof.
  destruct (N.ltb_spec c 32) as [L|G].
  - assert (E : In c [0; 1; 2; 3; 4; 5; 6; 7; 8; 9; 10; 11; 12; 13; 14; 15;
                      16; 17; 18; 19; 20; 21; 22; 23; 24; 25; 26; 27; 28;
                      29; 30; 31]%N) by (cbn; lia).
    cbn in E.
    repeat (destruct E as [<-|E]; [reflexivity|]). destruct E.
  - destruct (N.eqb_spec c dquote) as [->|Hq]; [reflexivity|].
    destruct (N.eqb_spec c backslash) as [->|Hb]; [reflexivity|].
    unfold escape_char.
    apply N.eqb_neq in Hq, Hb. rewrite Hq, Hb.
    replace (N.eqb c 10) with false by (symmetry; apply N.eqb_neq; lia).
    replace (N.eqb c 13) with false by (symmetry; apply N.eqb_neq; lia).
    replace (N.eqb c 9) with false by (symmetry; apply N.eqb_neq; lia).
    replace (N.eqb c 8) with false by (symmetry; apply N.eqb_neq; lia).
    replace (N.eqb c 12) with false by (symmetry; apply N.eqb_neq; lia).
    replace (N.ltb c 32) with false by (symmetry; apply N.ltb_ge; lia).
    apply N.eqb_neq in Hq, Hb.
    now apply scan_plain_char.
Qed.

Lemma scan_escape (s rest : str) :
  scan_string (escape s ++ Char dquote rest) = Some (s, rest).
Proof.
  induction s as [|c s IH]; [reflexivity|].
  cbn [escape]. now rewrite text_app_assoc, scan_escape_char, IH.
Qed.

End EscapedStrings.

Section Lexers.
Import Json.
#[local] Open Scope text_scope.

Lemma ends_number_no_digit (rest : str) :
  ends_number rest = true -> no_digit_start rest = true.
Proof.
  destruct rest as [|c r]; simpl; auto.
  destruct (is_digit c); simpl; auto.
Qed.

Lemma span_digits_ext (s p r rest : str) :
  span_digits s = (p, r) -> no_digit_start rest = true ->
  span_digits (s ++ rest) = (p, r ++ rest).
Proof.
  revert p r; induction s as [|c s IH]; intros p r H Hr.
  - injection H as <- <-. simpl.
    destruct rest as [|c r]; simpl in *; auto.
    now destruct (is_digit c).
  - simpl in *. destruct (is_digit c).
    + destruct (span_digits s) as [ds r0] eqn:E.
      injection H as <- <-. now rewrite (IH _ _ eq_refl Hr).
    + now injection H as <- <-.
Qed.

Lemma lex_int_ext (s p r rest : str) :
  lex_int s = Some (p, r) -> no_digit_start rest = true ->
  lex_int (s ++ rest) = Some (p, r ++ rest).
Proof.
  destruct s as [|d s]; [discriminate|]. simpl.
  destruct (is_digit d); [|discriminate].
  destruct (is_char d "0").
  - now intros [= <- <-].
  - destruct (span_digits s) as [ds r0] eqn:E. intros [= <- <-] Hr.
    now rewrite (span_digits_ext _ _ _ _ E Hr).
Qed.

Lemma ends_number_no_dot (rest : str) :
  ends_number rest = true -> no_dot_start rest = true.
Proof.
  destruct rest as [|c r]; simpl; auto.
  destruct (is_char c "."); simpl; auto. now rewrite !orb_true_r.
Qed.

Lemma lex_frac_ext (s p r rest : str) :
  lex_frac s = (p, r) ->
  no_digit_start rest = true -> no_dot_start rest = true ->
  lex_frac (s ++ rest) = (p, r ++ rest).
Proof.
  intros H Hd Hr.
  destruct s as [|a [|d s]]; simpl in H.
  - injection H as <- <-. simpl.
    destruct rest as [|c [|c2 r]]; simpl in *; auto.
    destruct (is_char c "."); simpl; auto. discriminate.
  - injection H as <- <-. simpl.
    destruct rest as [|c r]; simpl in *; auto.
    destruct (is_digit c); [discriminate|]. now rewrite andb_false_r.
  - simpl. destruct (is_char a "." && is_digit d).
    + destruct (span_digits s) as [ds r0] eqn:E. injection H as <- <-.
      now rewrite (span_digits_ext _ _ _ _ E Hd).
    + now injection H as <- <-.
Qed.

Lemma lex_exp_ext (s p r rest : str) :
  lex_exp s = (p, r) -> ends_number rest = true ->
  lex_exp (s ++ rest) = (p, r ++ rest).
Proof.
  intros H Hr. pose proof (ends_number_no_digit _ Hr) as Hd.
  destruct s as [|e s]; simpl in H.
  - injection H as <- <-. simpl.
    destruct rest as [|c r]; simpl in *; auto.
    destruct (is_char c "e"); [rewrite ?orb_true_r in Hr; discriminate|].
    destruct (is_char c "E"); [rewrite ?orb_true_r in Hr; discriminate|].
    reflexivity.
  - cbn [Text.append lex_exp].
    destruct (is_char e "e" || is_char e "E"); [|now injection H as <- <-].
    destruct s as [|c s]; cbn [Text.append].
    + injection H as <- <-.
      destruct rest as [|c r]; simpl in *; auto.
      destruct (is_char c "+"); [rewrite ?orb_true_r in Hr; discriminate|].
      destruct (is_char c "-"); [rewrite ?orb_true_r in Hr; discriminate|].
      simpl. now destruct (is_digit c).
    + destruct (is_char c "+" || is_char c "-").
      * destruct s as [|d s]; cbn [Text.append].
        -- injection H as <- <-.
           destruct rest as [|c2 r]; simpl in *; auto.
           now destruct (is_digit c2).
        -- destruct (is_digit d); [|now injection H as <- <-].
           destruct (span_digits (Char d s)) as [ds r0] eqn:E.
           injection H as <- <-.
           change (Char d (s ++ rest)) with (Char d s ++ rest).
           now rewrite (span_digits_ext _ _ _ _ E Hd).
      * destruct (is_digit c); [|now injection H as <- <-].
        destruct (span_digits (Char c s)) as [ds r0] eqn:E.
        injection H as <- <-.
        change (Char c (s ++ rest)) with (Char c s ++ rest).
        now rewrite (span_digits_ext _ _ _ _ E Hd).
Qed.

End Lexers.

Section NumberScanner.
Import Json.
#[local] Open Scope text_scope.

(** What the scanner of numbers raises. *)
Lemma scan_number_raises (s : str) (e : exn) :
  scan_number s = Raise e -> e = JSONDecodeError \/ e = ValueError.
Proof.
  unfold scan_number.
  destruct (lex_sign s) as [sg s1].
  destruct (lex_int s1) as [[ip s2]|]; [|intros [= <-]; auto].
  destruct (lex_frac s2) as [fp s3], (lex_exp s3) as [ep s4].
  destruct fp; [destruct ep|]; try discriminate.
  destruct (N.ltb _ _); [intros [= <-]; auto | discriminate].
Qed.

(** A number read from [s] is read the same when text that cannot
    continue a number follows. *)
Lemma scan_number_ext (s : str) (v : json) (r rest : str) :
  scan_number s = Ok (v, r) -> ends_number rest = true ->
  scan_number (s ++ rest) = Ok (v, r ++ rest).
Proof.
  unfold scan_number.
  destruct (lex_sign s) as [sg s1] eqn:Es.
  destruct (lex_int s1) as [[ip s2]|] eqn:Ei; [|discriminate].
  destruct (lex_frac s2) as [fp s3] eqn:Ef.
  destruct (lex_exp s3) as [ep s4] eqn:Ee.
  intros Hv Hr.
  assert (Es' : lex_sign (s ++ rest) = (sg, s1 ++ rest)).
  { destruct s as [|c s]; simpl in *.
    - injection Es as <- <-. discriminate Ei.
    - destruct (is_char c "-"); now injection Es as <- <-. }
  rewrite Es', (lex_int_ext _ _ _ _ Ei (ends_number_no_digit _ Hr)),
    (lex_frac_ext _ _ _ _ Ef (ends_number_no_digit _ Hr)
       (ends_number_no_dot _ Hr)),
    (lex_exp_ext _ _ _ _ Ee Hr).
  destruct fp; [destruct ep|]; try (now injection Hv as <- <-).
  destruct (N.ltb _ _); [discriminate Hv|]. now injection Hv as <- <-.
Qed.

Lemma scan_number_none (s : str) :
  scan_number s = Raise JSONDecodeError
  <-> lex_int (snd (lex_sign s)) = None.
Proof.
  unfold scan_number. destruct (lex_sign s) as [sg s1]; simpl.
  destruct (lex_int s1) as [[ip s2]|]; [|tauto].
  destruct (lex_frac s2) as [fp s3], (lex_exp s3) as [ep s4].
  destruct fp; [destruct ep|]; try (split; discriminate).
  destruct (N.ltb _ _); split; discriminate.
Qed.

Lemma scan_number_none_ext (s rest : str) :
  scan_number s = Raise JSONDecodeError -> ends_number rest = true ->
  scan_number (s ++ rest) = Raise JSONDecodeError.
Proof.
  rewrite !scan_number_none. intros H Hr.
  pose proof (ends_number_no_digit _ Hr) as Hd.
  assert (Hrest : lex_int rest = None /\ lex_sign rest = ("", rest)).
  { destruct rest as [|c r]; simpl in *; auto.
    destruct (is_digit c); [discriminate|].
    destruct (is_char c "-"); [rewrite ?orb_true_r in Hr; discriminate|].
    auto. }
  destruct Hrest as [Hi Hs].
  destruct s as [|c s]; simpl in *.
  - now rewrite Hs.
  - destruct (is_char c "-"); simpl in *.
    + destruct s as [|d s]; simpl in *; auto.
      destruct (is_digit d); auto.
      destruct (is_char d "0"); [discriminate|].
      destruct (span_digits s); discriminate.
    + destruct (is_digit c); auto.
      destruct (is_char c "0"); [discriminate|].
      destruct (span_digits s); discriminate.
Qed.

End NumberScanner.

Section Atoms.
Import Json.
#[local] Open Scope text_scope.

Lemma strip_prefix_cons (a : N) (p : str) (c : N) (s : str) :
  strip_prefix (Char a p) (Char c s)
  = if N.eqb a c then strip_prefix p s else None.
Proof. reflexivity. Qed.

Lemma strip_prefix_app (p s r rest : str) :
  strip_prefix p s = Some r -> strip_prefix p (s ++ rest) = Some (r ++ rest).
Proof.
  revert s; induction p as [|a p IH]; intros s; simpl.
  - now intros [= <-].
  - destruct s as [|c s]; [discriminate|]. simpl.
    destruct (N.eqb a c); [apply IH | discriminate].
Qed.

Lemma strip_prefix_sound (p s r : str) :
  strip_prefix p s = Some r -> s = p ++ r.
Proof.
  revert s; induction p as [|a p IH]; intros s; simpl.
  - now intros [= <-].
  - destruct s as [|c s]; [discriminate|].
    destruct (N.eqb_spec a c); [|discriminate].
    subst. intros H. now rewrite (IH _ H).
Qed.

Lemma strip_prefix_self (p r : str) : strip_prefix p (p ++ r) = Some r.
Proof.
  induction p as [|a p IH]; simpl; auto. now rewrite N.eqb_refl.
Qed.

Lemma scan_number_head (c : N) (s : str) :
  is_digit c = false -> is_char c "-" = false ->
  scan_number (Char c s) = Raise JSONDecodeError.
Proof.
  intros D M. apply scan_number_none. simpl. rewrite M. simpl. now rewrite D.
Qed.

End Atoms.

Section AtomsExt.
Import Json.
#[local] Open Scope text_scope.

(** An atom read from [s] is read the same when text that cannot
    continue a number follows. *)
Lemma scan_atom_ext (s : str) (v : json) (r rest : str) :
  scan_atom s = Ok (v, r) -> ends_number rest = true ->
  scan_atom (s ++ rest) = Ok (v, r ++ rest).
Proof.
  intros H Hr. destruct s as [|c s]; [discriminate H|].
  cbn [Text.append]. unfold scan_atom in *. rewrite !strip_prefix_cons in *.
  destruct (N.eqb_spec 110 c) as [<-|Hn].
  { destruct (strip_prefix "ull" s) eqn:E.
    - rewrite (strip_prefix_app _ _ _ rest E). now injection H as <- <-.
    - exfalso. revert H. rewrite scan_number_head by reflexivity.
      cbn. discriminate. }
  destruct (N.eqb_spec 116 c) as [<-|Ht].
  { destruct (strip_prefix "rue" s) eqn:E.
    - rewrite (strip_prefix_app _ _ _ rest E). now injection H as <- <-.
    - exfalso. revert H. rewrite scan_number_head by reflexivity.
      cbn. discriminate. }
  destruct (N.eqb_spec 102 c) as [<-|Hf].
  { destruct (strip_prefix "alse" s) eqn:E.
    - rewrite (strip_prefix_app _ _ _ rest E). now injection H as <- <-.
    - exfalso. revert H. rewrite scan_number_head by reflexivity.
      cbn. discriminate. }
  change (Char c (s ++ rest)) with (Char c s ++ rest).
  destruct (scan_number (Char c s)) as [[v' r']|e] eqn:En.
  { injection H as <- <-. now rewrite (scan_number_ext _ _ _ _ En Hr). }
  destruct (scan_number_raises _ _ En) as [-> | ->]; [|discriminate H].
  rewrite (scan_number_none_ext _ _ En Hr).
  destruct (N.eqb_spec 78 c) as [<-|HN].
  { destruct (strip_prefix "aN" s) eqn:E; [|discriminate H].
    rewrite (strip_prefix_app _ _ _ rest E). now injection H as <- <-. }
  destruct (N.eqb_spec 73 c) as [<-|HI].
  { destruct (strip_prefix "nfinity" s) eqn:E; [|discriminate H].
    rewrite (strip_prefix_app _ _ _ rest E). now injection H as <- <-. }
  destruct (N.eqb_spec 45 c) as [<-|HM]; [|discriminate H].
  destruct (strip_prefix "Infinity" s) eqn:E; [|discriminate H].
  rewrite (strip_prefix_app _ _ _ rest E). now injection H as <- <-.
Qed.

End AtomsExt.

Section Literals.
Import Json.
#[local] Open Scope text_scope.

Lemma scan_atom_number (s : str) (x : json * str) :
  scan_number s = Ok x -> scan_atom s = Ok x.
Proof.
  intros H. destruct s as [|c s]; [discriminate H|].
  unfold scan_atom. rewrite !strip_prefix_cons.
  destruct (N.eqb_spec 110 c) as [<-|_];
    [rewrite scan_number_head in H by reflexivity; discriminate|].
  destruct (N.eqb_spec 116 c) as [<-|_];
    [rewrite scan_number_head in H by reflexivity; discriminate|].
  destruct (N.eqb_spec 102 c) as [<-|_];
    [rewrite scan_number_head in H by reflexivity; discriminate|].
  now rewrite H.
Qed.

Lemma float_eqb_eq (x y : spec_float) : float_eqb x y = true -> x = y.
Proof.
  destruct x as [a|a| |a m e], y as [b|b| |b n f]; simpl;
    try discriminate; auto.
  - intros H. apply Bool.eqb_prop in H. congruence.
  - intros H. apply Bool.eqb_prop in H. congruence.
  - intros H. apply andb_true_iff in H as [H H3].
    apply andb_true_iff in H as [H1 H2].
    apply Bool.eqb_prop in H1. apply Pos.eqb_eq in H2. apply Z.eqb_eq in H3.
    congruence.
Qed.

Lemma float_eqb_refl (x : spec_float) : float_eqb x x = true.
Proof.
  destruct x as [a|a| |a m e]; simpl; auto using Bool.eqb_reflx.
  now rewrite Bool.eqb_reflx, Pos.eqb_refl, Z.eqb_refl.
Qed.

Section Floats.
Variable float_repr : spec_float -> str.

Lemma float_ok_scan (x : spec_float) (rest : str) :
  float_ok float_repr x = true -> ends_number rest = true ->
  scan_atom (float_text float_repr x ++ rest) = Ok (JFloat x, rest).
Proof.
  unfold float_ok. intros H Hr.
  destruct (scan_atom (float_text float_repr x)) as [[v r]|] eqn:E;
    [|discriminate].
  destruct v; try discriminate. destruct r; [|discriminate].
  apply float_eqb_eq in H; subst x0.
  exact (scan_atom_ext _ _ _ _ E Hr).
Qed.

End Floats.

(** *** Integers *)

Lemma span_digits_uint (u : uint) (rest : str) :
  no_digit_start rest = true ->
  span_digits (Text.wide (NilEmpty.string_of_uint u) ++ rest)
  = (Text.wide (NilEmpty.string_of_uint u), rest).
Proof.
  intros Hr. induction u; simpl; rewrite ?IHu; auto.
  destruct rest as [|c r]; simpl in *; auto. now destruct (is_digit c).
Qed.

Lemma nzhead_fixed (u : uint) :
  nzhead u = u -> u <> Nil -> head_nonzero u = true.
Proof.
  destruct u; simpl; auto; try congruence.
  intros H _. pose proof (nb_digits_nzhead u) as L.
  rewrite H in L. simpl in L. lia.
Qed.

Lemma pos_to_uint_head (p : positive) :
  head_nonzero (Pos.to_uint p) = true.
Proof.
  pose proof (DecimalPos.Unsigned.to_of (Pos.to_uint p)) as H.
  rewrite DecimalPos.Unsigned.of_to in H. simpl in H.
  apply nzhead_fixed; [|apply DecimalPos.Unsigned.to_uint_nonnil].
  unfold unorm in H.
  destruct (nzhead (Pos.to_uint p)) eqn:E; auto.
  exfalso. now apply (DecimalPos.Unsigned.to_uint_nonzero p).
Qed.

Lemma span_digits_uint_all (u : uint) :
  span_digits (Text.wide (NilEmpty.string_of_uint u))
  = (Text.wide (NilEmpty.string_of_uint u), "").
Proof.
  rewrite <- (text_app_nil_r (Text.wide (NilEmpty.string_of_uint u))) at 1.
  now apply span_digits_uint.
Qed.

Lemma lex_int_digit (d : N) (s : str) :
  is_digit d = true -> is_char d "0" = false -> span_digits s = (s, "") ->
  lex_int (Char d s) = Some (Char d s, "").
Proof. intros D Z E. simpl. now rewrite D, Z, E. Qed.

Lemma lex_int_uint (u : uint) :
  head_nonzero u = true ->
  lex_int (Text.wide (NilEmpty.string_of_uint u))
  = Some (Text.wide (NilEmpty.string_of_uint u), "")
  /\ NilZero.string_of_uint u = NilEmpty.string_of_uint u.
Proof.
  destruct u; try discriminate; intros _; (split; [|reflexivity]);
    cbn [NilEmpty.string_of_uint Text.wide];
    apply lex_int_digit; auto using span_digits_uint_all.
Qed.

Lemma int_of_literal_str (z : Z) :
  int_of_literal (Text.wide (Py.str_of_Z z)) = z.
Proof.
  unfold int_of_literal, Py.str_of_Z. rewrite narrow_wide.
  rewrite NilZero.isi; [apply DecimalZ.of_to| |];
    destruct z; simpl; try discriminate;
    intros [= E]; now apply (DecimalPos.Unsigned.to_uint_nonnil p).
Qed.

Lemma scan_number_int (z : Z) :
  int_ok z = true ->
  scan_number (Text.wide (Py.str_of_Z z)) = Ok (JInt z, "").
Proof.
  intros Hok. pose proof (int_of_literal_str z) as Hv.
  destruct z as [|p|p]; [reflexivity| |].
  - revert Hv Hok. unfold int_ok, Py.str_of_Z.
    cbn [Z.abs Z.to_int NilZero.string_of_int].
    destruct (lex_int_uint _ (pos_to_uint_head p)) as [Hi ->]. intros Hv Hok.
    unfold scan_number.
    assert (Hs : lex_sign (Text.wide (NilEmpty.string_of_uint (Pos.to_uint p)))
                 = ("", Text.wide (NilEmpty.string_of_uint (Pos.to_uint p)))).
    { pose proof (pos_to_uint_head p) as Hh.
      destruct (Pos.to_uint p); try discriminate; reflexivity. }
    rewrite Hs, Hi. cbn [lex_frac lex_exp].
    rewrite wide_length.
    replace (N.ltb _ _) with false
      by (symmetry; apply N.ltb_ge; now apply N.leb_le).
    cbn [Text.append]. now rewrite Hv.
  - revert Hv Hok. unfold int_ok, Py.str_of_Z.
    cbn [Z.abs Z.to_int NilZero.string_of_int].
    destruct (lex_int_uint _ (pos_to_uint_head p)) as [Hi ->]. intros Hv Hok.
    unfold scan_number. cbn [String.append Text.wide lex_sign].
    change (N_of_ascii "-") with 45%N.
    change (is_char 45 "-") with true. cbv iota.
    rewrite Hi. cbn [lex_frac lex_exp].
    rewrite wide_length.
    replace (N.ltb _ _) with false
      by (symmetry; apply N.ltb_ge; now apply N.leb_le).
    f_equal. f_equal. f_equal. exact Hv.
Qed.

Lemma scan_atom_int (z : Z) (rest : str) :
  int_ok z = true -> ends_number rest = true ->
  scan_atom (Text.wide (Py.str_of_Z z) ++ rest) = Ok (JInt z, rest).
Proof.
  intros Hok Hr.
  exact (scan_atom_ext _ _ _ _
           (scan_atom_number _ _ (scan_number_int z Hok)) Hr).
Qed.

End Literals.

Section ValueFacts.
Import Json.
#[local] Open Scope text_scope.

(** Induction on values, through lists and dicts. *)
Lemma json_induction (P : json -> Prop) :
  P JNull -> (forall b, P (JBool b)) -> (forall z, P (JInt z)) ->
  (forall x, P (JFloat x)) -> (forall s, P (JStr s)) ->
  (forall l, Forall P l -> P (JList l)) ->
  (forall d, Forall (fun kv => P (snd kv)) d -> P (JDict d)) ->
  forall v, P v.
Proof.
  intros Hn Hb Hz Hf Hs Hl Hd.
  fix IH 1. intros v.
  destruct v as [| | | | |l|d];
    [exact Hn | apply Hb | apply Hz | apply Hf | apply Hs | |].
  - apply Hl. induction l as [|x l IHl]; constructor; [apply IH | exact IHl].
  - apply Hd. induction d as [|kv d IHd]; constructor; [apply IH | exact IHd].
Qed.

Lemma scan_atom_head (c : N) (s : str) (x : json * str) :
  scan_atom (Char c s) = Ok x -> value_start c = true.
Proof.
  intros H.
  assert (B : forall k, In k [32; 9; 10; 13; 93; 125; 34; 91; 123]%N ->
                        N.eqb c k = false).
  { intros k Hk. apply N.eqb_neq. intros ->. revert H. cbn in Hk.
    repeat (destruct Hk as [<-|Hk];
            [unfold scan_atom;
             rewrite !strip_prefix_cons, scan_number_head by reflexivity;
             cbn; discriminate|]).
    destruct Hk. }
  unfold value_start, is_ws, is_char, dquote.
  change (chr "]") with 93%N. change (chr "}") with 125%N.
  change (chr "[") with 91%N. change (chr "{") with 123%N.
  rewrite !B by (cbn; tauto). reflexivity.
Qed.

Lemma skip_ws_nl (lvl : nat) (s : str) : skip_ws (nl lvl ++ s) = skip_ws s.
Proof.
  unfold nl. cbn [Text.append skip_ws].
  change (is_ws newline) with true. cbv iota.
  induction lvl as [|k IH]; simpl; auto.
Qed.

Lemma skip_ws_start (c : N) (s : str) :
  is_ws c = false -> skip_ws (Char c s) = Char c s.
Proof. intros H. simpl. now rewrite H. Qed.

Lemma ends_number_nl (lvl : nat) (s : str) :
  ends_number (nl lvl ++ s) = true.
Proof. reflexivity. Qed.

End ValueFacts.

Section LoopSteps.
Import Json.
#[local] Open Scope text_scope.

Lemma value_start_spec (c : N) :
  value_start c = true ->
  is_ws c = false /\ is_char c "]" = false /\ is_char c "}" = false
  /\ N.eqb c dquote = false /\ is_char c "[" = false
  /\ is_char c "{" = false.
Proof.
  unfold value_start. rewrite !andb_true_iff, !negb_true_iff. tauto.
Qed.

Lemma scan_S (f d : nat) (c : N) (r : str) :
  value_start c = true ->
  scan (S f) d (Char c r) = scan_atom (Char c r).
Proof.
  intros H. destruct (value_start_spec _ H) as (_ & _ & _ & Hq & Hb & Ho).
  cbn [scan]. now rewrite Hq, Ho, Hb.
Qed.

Lemma scan_atom_scan (s : str) (x : json * str) (f d : nat) :
  scan_atom s = Ok x -> scan (S f) d s = Ok x.
Proof.
  intros H. destruct s as [|c r]; [discriminate H|].
  now rewrite (scan_S _ _ _ _ (scan_atom_head _ _ _ H)).
Qed.

Lemma head_ok_atom (s : str) (x : json * str) :
  scan_atom s = Ok x -> head_ok s = true.
Proof.
  intros H. destruct s as [|c r]; [discriminate H|].
  destruct (value_start_spec _ (scan_atom_head _ _ _ H))
    as (H1 & H2 & H3 & _). simpl. now rewrite H1, H2, H3.
Qed.

Lemma head_ok_app (s t : str) : head_ok s = true -> head_ok (s ++ t) = true.
Proof. destruct s; [discriminate | auto]. Qed.

Lemma head_ok_skip (s : str) : head_ok s = true -> skip_ws s = s.
Proof.
  destruct s as [|c r]; [discriminate|]. simpl.
  destruct (is_ws c); [discriminate | reflexivity].
Qed.

Lemma lines_cons {A : Type} (f : A -> str) (lvl : nat) (x : A)
      (l : list A) (y : str) :
  lines f lvl (x :: l) ++ y
  = f x ++ match l with
           | [] => y
           | _ => Char 44 (nl lvl ++ lines f lvl l ++ y)
           end.
Proof.
  destruct l as [|z l]; [reflexivity|].
  change (lines f lvl (x :: z :: l))
    with (f x ++ "," ++ nl lvl ++ lines f lvl (z :: l)).
  now rewrite !text_app_assoc.
Qed.

(** *** The steps of the two loops *)

Lemma items_comma (f d : nat) (s : str) (v : json) (r : str) :
  scan f d s = Ok (v, Char 44 r) ->
  scan_items (S f) d s
  = match scan_items f d (skip_ws r) with
    | Ok (vs, rest) => Ok (v :: vs, rest)
    | Raise e => Raise e
    end.
Proof. intros H. cbn [scan_items]. now rewrite H. Qed.

Lemma items_close (f d : nat) (s : str) (v : json) (lvl : nat)
      (rest : str) :
  scan f d s = Ok (v, nl lvl ++ Char 93 rest) ->
  scan_items (S f) d s = Ok ([v], rest).
Proof. intros H. cbn [scan_items]. now rewrite H, skip_ws_nl. Qed.

Lemma members_key (f d : nat) (k x : str) :
  scan_members (S f) d (encode_str k ++ ": " ++ x)
  = match scan f d (skip_ws x) with
    | Ok (v, r3) =>
        match skip_ws r3 with
        | Char c' r4 =>
            if is_char c' "," then
              match scan_members f d (skip_ws r4) with
              | Ok (kvs, rest) => Ok ((k, v) :: kvs, rest)
              | Raise e => Raise e
              end
            else if is_char c' "}" then Ok ([(k, v)], r4)
            else Raise JSONDecodeError
        | Empty => Raise JSONDecodeError
        end
    | Raise e => Raise e
    end.
Proof.
  unfold encode_str. cbn [Text.append scan_members].
  rewrite N.eqb_refl, text_app_assoc. cbn [Text.append].
  now rewrite scan_escape.
Qed.

(** *** Dicts without repeated keys *)

Lemma dict_set_fresh (k : str) (v : json) (d : dict str json) :
  existsb (Text.eqb k) (map fst d) = false ->
  dict_set k v d = (d ++ [(k, v)])%list.
Proof.
  induction d as [|[k' v'] d IH]; simpl; auto.
  destruct (Text.eqb k k'); simpl; [discriminate|].
  intros H. now rewrite IH.
Qed.

Lemma fold_dict_set (l acc : dict str json) :
  uniq (map fst l) = true ->
  forallb (fun k => negb (existsb (Text.eqb k) (map fst acc))) (map fst l)
  = true ->
  fold_left (fun d kv => dict_set (fst kv) (snd kv) d) l acc
  = (acc ++ l)%list.
Proof.
  revert acc; induction l as [|[k v] l IH]; intros acc Hu Hd; simpl.
  - now rewrite List.app_nil_r.
  - simpl in Hu, Hd.
    apply andb_true_iff in Hu as [Hk Hu]. apply andb_true_iff in Hd as [Hka Hd].
    apply negb_true_iff in Hk, Hka.
    rewrite (dict_set_fresh _ _ _ Hka), IH, <- List.app_assoc; auto.
    apply forallb_forall. intros k' Hin.
    rewrite forallb_forall in Hd. specialize (Hd _ Hin).
    apply negb_true_iff in Hd. apply negb_true_iff.
    rewrite List.map_app, List.existsb_app, Hd. simpl. rewrite orb_false_r.
    destruct (text_eqb_spec k' k); auto. subst k'.
    exfalso. assert (E : existsb (Text.eqb k) (map fst l) = true);
      [apply existsb_exists; exists k; split; auto using text_eqb_refl
      |congruence].
Qed.

Lemma dict_of_pairs_uniq (d : dict str json) :
  uniq (map fst d) = true -> dict_of_pairs d = d.
Proof.
  intros H. unfold dict_of_pairs. rewrite fold_dict_set; auto.
  apply forallb_forall. reflexivity.
Qed.

End LoopSteps.

Section ReadBack.
Import Json.
#[local] Open Scope text_scope.
Variable float_repr : spec_float -> str.

Lemma encode_head (lvl : nat) (v : json) :
  wf float_repr v = true -> head_ok (encode float_repr lvl v) = true.
Proof.
  destruct v as [|[|]|z|x|s|l|d]; try reflexivity; unfold wf; simpl;
    intros H.
  - exact (head_ok_atom _ _ (scan_atom_number _ _ (scan_number_int z H))).
  - unfold float_ok in H.
    change (match x with
            | S754_infinity false => "Infinity"
            | S754_infinity true => "-Infinity"
            | S754_nan => "NaN"
            | _ => float_repr x
            end) with (float_text float_repr x).
    destruct (scan_atom (float_text float_repr x)) as [y|] eqn:E;
      [|discriminate].
    exact (head_ok_atom _ _ E).
  - destruct l; reflexivity.
  - destruct d; reflexivity.
Qed.

Lemma scan_open_list (f d lvl : nat) (y : str) :
  head_ok y = true ->
  scan (S f) (S d) (Char 91 (nl lvl ++ y))
  = match scan_items f d y with
    | Ok (items, rest) => Ok (JList items, rest)
    | Raise e => Raise e
    end.
Proof.
  intros H. cbn [scan].
  change (N.eqb 91 dquote) with false.
  change (is_char 91 "{") with false.
  change (is_char 91 "[") with true. cbv iota.
  rewrite skip_ws_nl, (head_ok_skip _ H).
  destruct y as [|c r]; [discriminate H|]. simpl in H.
  destruct (is_char c "]"); [|reflexivity].
  now rewrite andb_false_r in H.
Qed.

Lemma scan_open_dict (f d lvl : nat) (y : str) :
  head_ok y = true ->
  scan (S f) (S d) (Char 123 (nl lvl ++ y))
  = match scan_members f d y with
    | Ok (pairs, rest) => Ok (JDict (dict_of_pairs pairs), rest)
    | Raise e => Raise e
    end.
Proof.
  intros H. cbn [scan].
  change (N.eqb 123 dquote) with false.
  change (is_char 123 "{") with true. cbv iota.
  rewrite skip_ws_nl, (head_ok_skip _ H).
  destruct y as [|c r]; [discriminate H|]. simpl in H.
  destruct (is_char c "}"); [|reflexivity].
  now rewrite andb_false_r in H.
Qed.

Lemma scan_items_encode (lvl : nat) (l : list json) :
  l <> [] -> Forall (reads_back float_repr) l ->
  forallb (wf float_repr) l = true ->
  forall fuel depth rest,
    fold_right (fun x n => S (Nat.max (need x) n)) 0 l <= fuel ->
    fold_right (fun x n => Nat.max (nesting x) n) 0 l <= depth ->
    scan_items fuel depth
               (lines (encode float_repr (S lvl)) (S lvl) l
                ++ nl lvl ++ Char 93 rest)
    = Ok (l, rest).
Proof.
  induction l as [|x l IH]; [congruence|].
  intros _ HF Hw fuel depth rest Hfuel Hdepth.
  inversion HF as [|? ? Hx HF']; subst.
  cbn [forallb] in Hw. apply andb_true_iff in Hw as [Hwx Hw].
  cbn [fold_right] in Hfuel, Hdepth. destruct fuel as [|f]; [lia|].
  rewrite lines_cons. destruct l as [|y l].
  - apply items_close with (lvl := lvl).
    apply Hx; auto; try lia; apply ends_number_nl.
  - rewrite (items_comma f depth _ x
               (nl (S lvl) ++ lines (encode float_repr (S lvl)) (S lvl)
                                    (y :: l)
                           ++ nl lvl ++ Char 93 rest));
      [|apply Hx; auto; try lia; reflexivity].
    rewrite skip_ws_nl, head_ok_skip.
    + rewrite IH; auto; try congruence; lia.
    + rewrite lines_cons. apply head_ok_app, encode_head.
      cbn [forallb] in Hw. now apply andb_true_iff in Hw as [Hwy _].
Qed.

Lemma scan_members_encode (lvl : nat) (d : dict str json) :
  d <> [] -> Forall (fun kv => reads_back float_repr (snd kv)) d ->
  forallb (fun kv => wf float_repr (snd kv)) d = true ->
  forall fuel depth rest,
    fold_right (fun kv n => S (Nat.max (need (snd kv)) n)) 0 d <= fuel ->
    fold_right (fun kv n => Nat.max (nesting (snd kv)) n) 0 d <= depth ->
    scan_members fuel depth
      (lines (fun kv => encode_str (fst kv) ++ ": "
                         ++ encode float_repr (S lvl) (snd kv)) (S lvl) d
       ++ nl lvl ++ Char 125 rest)
    = Ok (d, rest).
Proof.
  induction d as [|[k x] d IH]; [congruence|].
  intros _ HF Hw fuel depth rest Hfuel Hdepth.
  inversion HF as [|? ? Hx HF']; subst. cbn [snd] in Hx.
  cbn [forallb snd] in Hw. apply andb_true_iff in Hw as [Hwx Hw].
  cbn [fold_right snd] in Hfuel, Hdepth. destruct fuel as [|f]; [lia|].
  rewrite lines_cons. cbn [fst snd]. rewrite !text_app_assoc.
  rewrite members_key, head_ok_skip by (apply head_ok_app, encode_head; auto).
  destruct d as [|[k' y] d].
  - rewrite Hx; auto; try lia; try apply ends_number_nl.
    now rewrite skip_ws_nl.
  - rewrite Hx; auto; try lia; try reflexivity.
    rewrite skip_ws_start by reflexivity.
    change (is_char 44 ",") with true. cbv iota.
    rewrite skip_ws_nl, head_ok_skip.
    + rewrite IH; auto; try congruence; lia.
    + rewrite lines_cons. reflexivity.
Qed.

Lemma scan_encode (v : json) : reads_back float_repr v.
Proof.
  induction v as [|b|z|x|s|l IH|d IH] using json_induction;
    intros Hw lvl fuel depth rest Hfuel Hdepth Hr;
    (destruct fuel as [|f]; [simpl in Hfuel; lia|]).
  - apply scan_atom_scan.
    exact (scan_atom_ext "null" _ _ _ eq_refl Hr).
  - apply scan_atom_scan. destruct b.
    + exact (scan_atom_ext "true" _ _ _ eq_refl Hr).
    + exact (scan_atom_ext "false" _ _ _ eq_refl Hr).
  - apply scan_atom_scan. now apply scan_atom_int.
  - apply scan_atom_scan. now apply float_ok_scan.
  - cbn [encode]. unfold encode_str. cbn [Text.append scan].
    rewrite N.eqb_refl, text_app_assoc. cbn [Text.append].
    now rewrite scan_escape.
  - destruct l as [|x l].
    { cbn [nesting fold_right] in Hdepth.
      destruct depth as [|d]; [lia|]. reflexivity. }
    change (encode float_repr lvl (JList (x :: l)))
      with ("[" ++ nl (S lvl)
                ++ lines (encode float_repr (S lvl)) (S lvl) (x :: l)
                ++ nl lvl ++ "]").
    rewrite !text_app_assoc. cbn [Text.append].
    cbn [nesting] in Hdepth. destruct depth as [|d]; [lia|].
    rewrite scan_open_list.
    + rewrite scan_items_encode; auto; try congruence.
      * cbn [need] in Hfuel. lia.
      * lia.
    + rewrite lines_cons. apply head_ok_app, encode_head.
      unfold wf in Hw. cbn [check forallb] in Hw.
      now apply andb_true_iff in Hw as [Hwx _].
  - destruct d as [|kv d].
    { cbn [nesting fold_right] in Hdepth.
      destruct depth as [|d]; [lia|]. reflexivity. }
    change (encode float_repr lvl (JDict (kv :: d)))
      with ("{" ++ nl (S lvl)
                ++ lines (fun kv => encode_str (fst kv) ++ ": "
                                    ++ encode float_repr (S lvl) (snd kv))
                         (S lvl) (kv :: d)
                ++ nl lvl ++ "}").
    set (g := fun kv : str * json =>
                encode_str (fst kv) ++ ": "
                ++ encode float_repr (S lvl) (snd kv)).
    rewrite !text_app_assoc. cbn [Text.append]. subst g.
    unfold wf in Hw. cbn [check] in Hw.
    apply andb_true_iff in Hw as [Hu Hw].
    cbn [nesting] in Hdepth. destruct depth as [|dp]; [lia|].
    rewrite scan_open_dict.
    + rewrite scan_members_encode; auto; try congruence.
      * now rewrite dict_of_pairs_uniq.
      * cbn [need] in Hfuel. lia.
      * lia.
    + rewrite lines_cons. reflexivity.
Qed.

End ReadBack.

Section RoundTrip.
Import Json.
#[local] Open Scope text_scope.
Variable float_repr : spec_float -> str.

Lemma head_ok_length (s : str) : head_ok s = true -> 1 <= Text.length s.
Proof. destruct s; [discriminate | simpl; lia]. Qed.

Lemma lines_need {A : Type} (f : A -> str) (m : A -> nat) (lvl : nat)
      (l : list A) :
  Forall (fun x => m x <= Text.length (f x)) l ->
  fold_right (fun x n => S (Nat.max (m x) n)) 0 l
  <= Text.length (lines f lvl l) + 1.
Proof.
  induction 1 as [|x l Hx Hl IH]; [simpl; lia|].
  cbn [fold_right]. destruct l as [|y l].
  - simpl. lia.
  - change (lines f lvl (x :: y :: l))
      with (f x ++ "," ++ nl lvl ++ lines f lvl (y :: l)).
    rewrite !text_length_app. unfold nl. cbn [Text.length]. lia.
Qed.

Lemma need_le_length (v : json) :
  wf float_repr v = true ->
  forall lvl, need v <= Text.length (encode float_repr lvl v).
Proof.
  induction v as [|b|z|x|s|l IH|d IH] using json_induction; intros Hw lvl;
    try (apply head_ok_length, encode_head; exact Hw).
  - destruct l as [|x l]; [simpl; lia|].
    change (encode float_repr lvl (JList (x :: l)))
      with ("[" ++ nl (S lvl)
                ++ lines (encode float_repr (S lvl)) (S lvl) (x :: l)
                ++ nl lvl ++ "]").
    cbn [need]. rewrite !text_length_app. unfold nl. cbn [Text.length].
    pose proof (lines_need (encode float_repr (S lvl)) need (S lvl) (x :: l))
      as L.
    unfold wf in Hw. cbn [check] in Hw.
    rewrite forallb_forall in Hw. rewrite Forall_forall in IH.
    assert (HF : Forall (fun x => need x
                                  <= Text.length (encode float_repr (S lvl) x))
                        (x :: l)).
    { apply Forall_forall. intros y Hy. apply IH; auto. apply Hw; auto. }
    specialize (L HF). lia.
  - destruct d as [|kv d]; [simpl; lia|].
    change (encode float_repr lvl (JDict (kv :: d)))
      with ("{" ++ nl (S lvl)
                ++ lines (fun kv => encode_str (fst kv) ++ ": "
                                    ++ encode float_repr (S lvl) (snd kv))
                         (S lvl) (kv :: d)
                ++ nl lvl ++ "}").
    cbn [need]. rewrite !text_length_app. unfold nl. cbn [Text.length].
    pose proof (lines_need
                  (fun kv => encode_str (fst kv) ++ ": "
                             ++ encode float_repr (S lvl) (snd kv))
                  (fun kv => need (snd kv)) (S lvl) (kv :: d)) as L.
    unfold wf in Hw. cbn [check] in Hw.
    apply andb_true_iff in Hw as [_ Hw].
    rewrite forallb_forall in Hw. rewrite Forall_forall in IH.
    assert (HF : Forall (fun kv : str * json =>
                           need (snd kv)
                           <= Text.length
                                (encode_str (fst kv) ++ ": "
                                 ++ encode float_repr (S lvl) (snd kv)))
                        (kv :: d)).
    { apply Forall_forall. intros y Hy. rewrite !text_length_app.
      specialize (IH y Hy (Hw y Hy) (S lvl)). lia. }
    specialize (L HF). lia.
Qed.

(** The round trip of a well-formed value, for a reader that can enter
    as many containers as the value nests. *)
Lemma loads_dumps (v : json) (depth : nat) :
  wf float_repr v = true -> nesting v <= depth ->
  loads depth (dumps float_repr v) = Ok v.
Proof.
  intros Hw Hd. unfold loads, dumps.
  rewrite (head_ok_skip _ (encode_head float_repr 0 v Hw)).
  rewrite <- (text_app_nil_r (encode float_repr 0 v)) at 2.
  rewrite (scan_encode float_repr v Hw 0 _ depth "");
    [reflexivity| |exact Hd|reflexivity].
  pose proof (need_le_length v Hw 0). lia.
Qed.

End RoundTrip.

Section ValidValues.
Import Json.
#[local] Open Scope text_scope.

Lemma check_all (ints : Z -> bool) (floats : spec_float -> bool)
      (keys : list str -> bool) (i2 : Z -> bool) (f2 : spec_float -> bool)
      (k2 : list str -> bool) (v : json) :
  (forall z, ints z = true -> i2 z = true) ->
  (forall x, floats x = true -> f2 x = true) ->
  (forall l, keys l = true -> k2 l = true) ->
  check ints floats keys v = true -> check i2 f2 k2 v = true.
Proof.
  intros Hi Hf Hk.
  induction v as [|b|z|x|s|l IH|d IH] using json_induction; cbn [check];
    auto.
  - rewrite !forallb_forall. rewrite Forall_forall in IH. auto.
  - intros H. apply andb_true_iff in H as [H1 H2].
    rewrite (Hk _ H1). cbn [andb]. revert H2.
    rewrite !forallb_forall. rewrite Forall_forall in IH. auto.
Qed.

(** A well-formed value is one that is valid, with integers that
    convert and floats that read back. *)
Lemma wf_split (float_repr : spec_float -> str) (v : json) :
  wf float_repr v = true
  <-> valid v = true /\ ints_ok v = true /\ floats_ok float_repr v = true.
Proof.
  unfold wf, valid, ints_ok, floats_ok. split.
  - intros H. repeat split; revert H; apply check_all; auto.
  - intros (H1 & H2 & H3).
    induction v as [|b|z|x|s|l IH|d IH] using json_induction;
      cbn [check] in *; auto.
    + rewrite forallb_forall in *. rewrite Forall_forall in IH. auto.
    + apply andb_true_iff in H1 as [H1 H1'].
      apply andb_true_iff in H2 as [_ H2].
      apply andb_true_iff in H3 as [_ H3].
      rewrite H1. cbn [andb].
      rewrite forallb_forall in *. rewrite Forall_forall in IH. auto.
Qed.

Lemma first_error_none {A : Type} (f : A -> option exn) (l : list A) :
  first_error f l = None <-> Forall (fun x => f x = None) l.
Proof.
  induction l as [|x l IH]; cbn [first_error].
  - split; [constructor | reflexivity].
  - destruct (f x) eqn:E; split.
    + discriminate.
    + intros H. inversion H; congruence.
    + intros H. constructor; [exact E | now apply IH].
    + intros H. inversion H. now apply IH.
Qed.

(** What [json.dump] writes without an error has no integer too long
    to convert. *)
Lemma dump_error_ints (v : json) :
  forall depth, dump_error depth v = None -> ints_ok v = true.
Proof.
  unfold ints_ok.
  induction v as [|b|z|x|s|l IH|d IH] using json_induction;
    intros depth H; cbn [check]; auto.
  - cbn [dump_error] in H. destruct (int_ok z); [auto | discriminate].
  - apply forallb_forall. intros y Hy.
    rewrite Forall_forall in IH.
    destruct l as [|x0 l0]; [destruct Hy|].
    cbn [dump_error] in H. destruct depth as [|dp]; [discriminate|].
    apply first_error_none in H. rewrite Forall_forall in H.
    exact (IH y Hy dp (H y Hy)).
  - apply forallb_forall. intros y Hy.
    rewrite Forall_forall in IH.
    destruct d as [|kv0 d0]; [destruct Hy|].
    cbn [dump_error] in H. destruct depth as [|dp]; [discriminate|].
    apply first_error_none in H. rewrite Forall_forall in H.
    specialize (H y Hy). cbn beta in H.
    destruct (Text.encodable (fst y)); [|discriminate].
    exact (IH y Hy dp H).
Qed.

(** *** What the decoder builds is valid *)

Lemma scan_atom_valid (s : str) (v : json) (r : str) :
  scan_atom s = Ok (v, r) -> valid v = true.
Proof.
  unfold scan_atom.
  destruct (strip_prefix "null" s); [now intros [= <- <-]|].
  destruct (strip_prefix "true" s); [now intros [= <- <-]|].
  destruct (strip_prefix "false" s); [now intros [= <- <-]|].
  destruct (scan_number s) as [[v' r']|e] eqn:En.
  - intros [= <- <-]. revert En. unfold scan_number.
    destruct (lex_sign s) as [sg s1].
    destruct (lex_int s1) as [[ip s2]|]; [|discriminate].
    destruct (lex_frac s2) as [fp s3], (lex_exp s3) as [ep s4].
    destruct fp; [destruct ep|]; try (now intros [= <- <-]).
    destruct (N.ltb _ _); [discriminate | now intros [= <- <-]].
  - destruct (scan_number_raises _ _ En) as [-> | ->]; [|discriminate].
    destruct (strip_prefix "NaN" s); [now intros [= <- <-]|].
    destruct (strip_prefix "Infinity" s); [now intros [= <- <-]|].
    destruct (strip_prefix "-Infinity" s); [now intros [= <- <-]|].
    discriminate.
Qed.

Lemma uniq_dict_set (k : str) (v : json) (d : dict str json) :
  uniq (map fst d) = true -> uniq (map fst (dict_set k v d)) = true.
Proof.
  induction d as [|[k' v'] d IH]; simpl; auto.
  intros H. apply andb_true_iff in H as [Hk Hu].
  destruct (text_eqb_spec k k'); simpl.
  - now rewrite Hk, Hu.
  - rewrite (IH Hu), andb_true_r.
    fold (dict_keys (dict_set k v d)). rewrite dict_keys_set.
    fold (dict_keys d) in Hk.
    destruct (dict_mem k d); auto.
    rewrite List.existsb_app. apply negb_true_iff in Hk. rewrite Hk. simpl.
    destruct (text_eqb_spec k' k); [congruence | reflexivity].
Qed.

Lemma forallb_dict_set (P : json -> bool) (k : str) (v : json)
      (d : dict str json) :
  P v = true -> forallb (fun kv => P (snd kv)) d = true ->
  forallb (fun kv => P (snd kv)) (dict_set k v d) = true.
Proof.
  intros Hv. induction d as [|[k' v'] d IH]; simpl.
  - now rewrite Hv.
  - intros H. apply andb_true_iff in H as [H1 H2].
    destruct (Text.eqb k k'); simpl.
    + now rewrite Hv, H2.
    + now rewrite H1, IH.
Qed.

Lemma dict_of_pairs_valid (pairs : list (str * json)) :
  forallb (fun kv => valid (snd kv)) pairs = true ->
  valid (JDict (dict_of_pairs pairs)) = true.
Proof.
  unfold dict_of_pairs, valid at 2. cbn [check].
  fold valid.
  assert (G : forall acc,
             uniq (map fst acc) = true ->
             forallb (fun kv => valid (snd kv)) acc = true ->
             forallb (fun kv => valid (snd kv)) pairs = true ->
             let d := fold_left (fun d kv => dict_set (fst kv) (snd kv) d)
                                pairs acc in
             uniq (map fst d) = true
             /\ forallb (fun kv => valid (snd kv)) d = true).
  { induction pairs as [|[k v] l IH]; intros acc Hu Hf Hp; cbn [fold_left].
    - now split.
    - cbn [forallb snd] in Hp. apply andb_true_iff in Hp as [Hv Hp].
      apply IH; auto using uniq_dict_set, forallb_dict_set. }
  intros Hp. destruct (G [] eq_refl eq_refl Hp) as [G1 G2].
  rewrite G1. exact G2.
Qed.

Lemma scan_valid (fuel : nat) :
  (forall d s v r, scan fuel d s = Ok (v, r) -> valid v = true)
  /\ (forall d s vs r, scan_items fuel d s = Ok (vs, r) ->
                       forallb valid vs = true)
  /\ (forall d s kvs r, scan_members fuel d s = Ok (kvs, r) ->
                        forallb (fun kv => valid (snd kv)) kvs = true).
Proof.
  induction fuel as [|f (IHv & IHi & IHm)];
    [repeat split; intros; discriminate|].
  repeat split.
  - intros d s v r. cbn [scan]. destruct s as [|c s]; [discriminate|].
    destruct (N.eqb c dquote).
    { destruct (scan_string s) as [[t rest]|]; [|discriminate].
      now intros [= <- <-]. }
    destruct (is_char c "{").
    { destruct d as [|d]; [discriminate|].
      destruct (skip_ws s) as [|c1 r1]; [discriminate|].
      destruct (is_char c1 "}"); [now intros [= <- <-]|].
      destruct (scan_members f d (Char c1 r1)) as [[pairs rest]|] eqn:E;
        [|discriminate].
      intros [= <- <-]. apply dict_of_pairs_valid. eapply IHm; eauto. }
    destruct (is_char c "[").
    { destruct d as [|d]; [discriminate|].
      destruct (skip_ws s) as [|c1 r1]; [discriminate|].
      destruct (is_char c1 "]"); [now intros [= <- <-]|].
      destruct (scan_items f d (Char c1 r1)) as [[items rest]|] eqn:E;
        [|discriminate].
      intros [= <- <-]. unfold valid. cbn [check]. eapply IHi; eauto. }
    apply scan_atom_valid.
  - intros d s vs r. cbn [scan_items].
    destruct (scan f d s) as [[v r0]|] eqn:E; [|discriminate].
    destruct (skip_ws r0) as [|c r1]; [discriminate|].
    destruct (is_char c ",").
    { destruct (scan_items f d (skip_ws r1)) as [[vs' rest]|] eqn:E2;
        [|discriminate].
      intros [= <- <-]. cbn [forallb].
      now rewrite (IHv _ _ _ _ E), (IHi _ _ _ _ E2). }
    destruct (is_char c "]"); [|discriminate].
    intros [= <- <-]. cbn [forallb]. now rewrite (IHv _ _ _ _ E).
  - intros d s kvs r. cbn [scan_members].
    destruct s as [|q s]; [discriminate|].
    destruct (N.eqb q dquote); [|discriminate].
    destruct (scan_string s) as [[k r1]|]; [|discriminate].
    destruct (skip_ws r1) as [|c r2]; [discriminate|].
    destruct (is_char c ":"); [|discriminate].
    destruct (scan f d (skip_ws r2)) as [[v r3]|] eqn:E; [|discriminate].
    destruct (skip_ws r3) as [|c' r4]; [discriminate|].
    destruct (is_char c' ",").
    { destruct (scan_members f d (skip_ws r4)) as [[kvs' rest]|] eqn:E2;
        [|discriminate].
      intros [= <- <-]. cbn [forallb snd].
      now rewrite (IHv _ _ _ _ E), (IHm _ _ _ _ E2). }
    destruct (is_char c' "}"); [|discriminate].
    intros [= <- <-]. cbn [forallb snd]. now rewrite (IHv _ _ _ _ E).
Qed.

Lemma loads_valid (depth : nat) (s : str) (v : json) :
  loads depth s = Ok v -> valid v = true.
Proof.
  unfold loads.
  destruct (scan _ _ _) as [[v' rest]|] eqn:E; [|discriminate].
  destruct (skip_ws rest); [|discriminate].
  intros [= <-]. exact (proj1 (scan_valid _) _ _ _ _ E).
Qed.

End ValidValues.

Section ValidSightings.
Import Bs4 Json.
#[local] Open Scope text_scope.

Lemma valid_dict_get (d : dict str json) (k : str) (v : json) :
  valid (JDict d) = true -> dict_get k d = Some v -> valid v = true.
Proof.
  unfold valid at 1. cbn [check]. fold valid.
  intros H. apply andb_true_iff in H as [_ H].
  induction d as [|[k' v'] d IH]; simpl; [discriminate|].
  simpl in H. apply andb_true_iff in H as [H1 H2].
  destruct (Text.eqb k k'); [now intros [= <-] | auto].
Qed.

Lemma item_get_valid (item : json) (k : str) (default v : json) :
  valid item = true -> valid default = true ->
  item_get item k default = Ok v -> valid v = true.
Proof.
  intros Hi Hd. destruct item; try discriminate. simpl.
  destruct (dict_get k d) eqn:E; intros [= <-]; auto.
  eapply valid_dict_get; eauto.
Qed.

Lemma ld_record_valid (item : json) (s : sighting) :
  valid item = true -> ld_record item = Ok s -> valid_sighting s.
Proof.
  intros Hi. unfold ld_record, valid_sighting.
  destruct (item_get item "name" _) as [sp|] eqn:E1; [|discriminate].
  destruct (item_get item "location" _) as [loc|] eqn:E2; [|discriminate].
  destruct (if is_dict loc then _ else _) as [lo|] eqn:E3; [|discriminate].
  destruct (item_get item "datePublished" _) as [da|] eqn:E4; [|discriminate].
  destruct (item_get item "url" _) as [u|] eqn:E5; [|discriminate].
  intros [= <-].
  assert (Hloc : valid loc = true)
    by exact (item_get_valid item "location" JNull loc Hi eq_refl E2).
  assert (Hlo : valid lo = true).
  { destruct (is_dict loc);
      [exact (item_get_valid loc "name" (JStr "") lo Hloc eq_refl E3)
      |now injection E3 as <-]. }
  pose proof (item_get_valid item "name" (JStr "") sp Hi eq_refl E1) as H1.
  pose proof (item_get_valid item "datePublished" (JStr "") da Hi eq_refl E4)
    as H4.
  pose proof (item_get_valid item "url" (JStr "") u Hi eq_refl E5) as H5.
  unfold valid in *. cbn [check map fst uniq forallb snd].
  rewrite H1, Hlo, H4, H5. reflexivity.
Qed.

Lemma ld_item_valid (item : json) (st : list sighting) :
  valid item = true -> Forall valid_sighting st ->
  Forall valid_sighting (fst (ld_item item st)).
Proof.
  intros Hi H. unfold ld_item, bind, lift, append, ret.
  destruct (name_in item) as [[|]|e]; simpl; auto.
  destruct (ld_record item) as [s|e] eqn:E; simpl; auto.
  apply Forall_app; split; auto.
  constructor; [eapply ld_record_valid; eauto | constructor].
Qed.

Section Decoder.
Variable json_decode : string -> result json.
Hypothesis decode_valid :
  forall s v, json_decode s = Ok v -> valid v = true.

Lemma ld_script_valid (script : node) (st : list sighting) :
  Forall valid_sighting st ->
  Forall valid_sighting (fst (ld_script json_decode script st)).
Proof.
  intros H. unfold ld_script, try_except.
  match goal with |- context [match ?b st with _ => _ end] =>
    assert (Hb : Forall valid_sighting (fst (b st)));
      [|destruct (b st) as [st' [[]|e]]]
  end; simpl in *; auto.
  - unfold bind, lift, json_loads.
    destruct (string_of script) as [s|]; simpl; auto.
    destruct (json_decode s) as [data|] eqn:E; simpl; auto.
    pose proof (decode_valid _ _ E) as Hd.
    destruct data; simpl; auto.
    apply (for_each_invariant (Forall valid_sighting)); auto.
    intros x Hx st0 Hst0. apply ld_item_valid; auto.
    unfold valid in Hd. cbn [check] in Hd.
    rewrite forallb_forall in Hd. apply Hd; auto.
  - destruct (ld_handled e); simpl; auto.
Qed.

Lemma extract_sightings_generic_valid (soup : node) (ss : list sighting) :
  extract_sightings_generic json_decode soup = Ok ss ->
  Forall valid_sighting ss.
Proof.
  unfold extract_sightings_generic.
  pose proof (for_each_invariant (Forall valid_sighting)
                (ld_script json_decode) (ld_scripts soup)
                (fun x _ st H => ld_script_valid x st H) [] (Forall_nil _))
    as H.
  destruct (for_each _ _ _) as [st [[]|e]]; [|discriminate].
  now intros [= <-].
Qed.

Lemma is_str_valid (v : json) : is_str v = true -> valid v = true.
Proof. destruct v; simpl; intros; try discriminate; reflexivity. Qed.

Lemma extract_sighting_data_valid (element : node) :
  valid_sighting (extract_sighting_data element).
Proof.
  destruct (extract_sighting_data_shape element) as [Hk Hs].
  unfold valid_sighting, valid. cbn [check].
  fold (dict_keys (extract_sighting_data element)).
  rewrite Hk. simpl.
  apply forallb_forall. intros kv Hin. apply is_str_valid.
  rewrite forallb_forall in Hs. auto.
Qed.

Lemma row_sightings_valid (rows : list node) :
  Forall valid_sighting (row_sightings rows).
Proof.
  unfold row_sightings. induction rows as [|row rows IH]; cbn [flat_map];
    [constructor|].
  apply Forall_app; split; [|exact IH].
  match goal with |- context [if ?c then _ else _] => destruct c end;
    [|constructor].
  constructor; [apply extract_sighting_data_valid | constructor].
Qed.

Lemma parse_soup_valid (soup : node) (ss : list sighting) :
  parse_soup json_decode soup = Ok ss -> Forall valid_sighting ss.
Proof.
  rewrite parse_soup_cases.
  pose proof (row_sightings_valid (obs_rows (content soup))) as H.
  destruct (row_sightings _); [apply extract_sightings_generic_valid|].
  now intros [= <-].
Qed.

End Decoder.

Lemma report_valid (w : world) (ss : list sighting) :
  Forall valid_sighting ss -> valid (JDict (report w ss)) = true.
Proof.
  intros H. unfold report, valid. cbn [check map fst uniq forallb snd].
  rewrite !andb_true_r. simpl.
  apply forallb_forall. intros v Hin.
  apply in_map_iff in Hin as (s & <- & Hs).
  rewrite Forall_forall in H. exact (H s Hs).
Qed.

End ValidSightings.

(** *** The fuel of the decoder is never used up *)
Section Fuel.
Import Json.
#[local] Open Scope text_scope.

Lemma skip_ws_length (s : str) : Text.length (skip_ws s) <= Text.length s.
Proof.
  induction s as [|c s IH]; simpl; [lia|].
  destruct (is_ws c); simpl; lia.
Qed.

Lemma span_digits_length (s p r : str) :
  span_digits s = (p, r) -> Text.length r <= Text.length s.
Proof.
  revert p r; induction s as [|c s IH]; intros p r; simpl.
  - intros [= <- <-]. simpl. lia.
  - destruct (is_digit c).
    + destruct (span_digits s) as [ds r0] eqn:E. intros [= <- <-].
      specialize (IH _ _ eq_refl). lia.
    + intros [= <- <-]. simpl. lia.
Qed.

Lemma scan_string_length (n : nat) :
  forall s t rest,
    Text.length s <= n -> scan_string s = Some (t, rest) ->
    Text.length rest < Text.length s.
Proof.
  induction n as [|n IH]; intros s t rest Hn H.
  - destruct s; [discriminate H | simpl in Hn; lia].
  - destruct s as [|c r]; [discriminate H|].
    cbn [scan_string] in H. cbn [Text.length] in *.
    repeat match type of H with
           | Some _ = Some _ => injection H as <- <-
           | None = Some _ => discriminate H
           | context [match scan_string ?x with _ => _ end] =>
               let E := fresh "E" in
               destruct (scan_string x) as [[? ?]|] eqn:E;
               [apply IH in E; [|cbn [Text.length] in *; lia]|]
           | context [if ?b then _ else _] => destruct b
           | context [match ?x with _ => _ end] => destruct x
           end;
      cbn [Text.length] in *; lia.
Qed.

Lemma lex_int_length (s p r : str) :
  lex_int s = Some (p, r) -> Text.length r < Text.length s.
Proof.
  destruct s as [|d s]; [discriminate|]. simpl.
  destruct (is_digit d); [|discriminate].
  destruct (is_char d "0").
  - intros [= <- <-]. lia.
  - destruct (span_digits s) as [ds r0] eqn:E. intros [= <- <-].
    apply span_digits_length in E. lia.
Qed.

Lemma lex_frac_length (s p r : str) :
  lex_frac s = (p, r) -> Text.length r <= Text.length s.
Proof.
  destruct s as [|a [|d s]]; simpl; try (intros [= <- <-]; simpl; lia).
  destruct (is_char a "." && is_digit d).
  - destruct (span_digits s) as [ds r0] eqn:E. intros [= <- <-].
    apply span_digits_length in E. lia.
  - intros [= <- <-]. simpl. lia.
Qed.

Lemma lex_exp_length (s p r : str) :
  lex_exp s = (p, r) -> Text.length r <= Text.length s.
Proof.
  destruct s as [|e s]; cbn [lex_exp]; [intros [= <- <-]; simpl; lia|].
  destruct (is_char e "e" || is_char e "E");
    [|intros [= <- <-]; simpl; lia].
  destruct s as [|c s]; [intros [= <- <-]; simpl; lia|].
  destruct (is_char c "+" || is_char c "-").
  - destruct s as [|d s]; [intros [= <- <-]; simpl; lia|].
    destruct (is_digit d); [|intros [= <- <-]; simpl; lia].
    destruct (span_digits (Char d s)) as [ds r0] eqn:E. intros [= <- <-].
    apply span_digits_length in E. simpl in *. lia.
  - destruct (is_digit c); [|intros [= <- <-]; simpl; lia].
    destruct (span_digits (Char c s)) as [ds r0] eqn:E. intros [= <- <-].
    apply span_digits_length in E. simpl in *. lia.
Qed.

Lemma scan_number_length (s : str) (v : json) (r : str) :
  scan_number s = Ok (v, r) -> Text.length r < Text.length s.
Proof.
  unfold scan_number.
  destruct (lex_sign s) as [sg s1] eqn:Es.
  destruct (lex_int s1) as [[ip s2]|] eqn:Ei; [|discriminate].
  destruct (lex_frac s2) as [fp s3] eqn:Ef.
  destruct (lex_exp s3) as [ep s4] eqn:Ee.
  apply lex_int_length in Ei. apply lex_frac_length in Ef.
  apply lex_exp_length in Ee.
  assert (Hs : Text.length s1 <= Text.length s).
  { destruct s as [|c s]; simpl in Es; [injection Es as <- <-; simpl; lia|].
    destruct (is_char c "-"); injection Es as <- <-; simpl; lia. }
  destruct fp; [destruct ep|]; try (intros [= <- <-]; lia).
  destruct (N.ltb _ _); [discriminate | intros [= <- <-]; lia].
Qed.

Lemma strip_prefix_length (p s r : str) :
  strip_prefix p s = Some r ->
  Text.length s = Text.length p + Text.length r.
Proof.
  intros H. apply strip_prefix_sound in H. subst s.
  apply text_length_app.
Qed.

Lemma scan_atom_length (s : str) (v : json) (r : str) :
  scan_atom s = Ok (v, r) -> Text.length r < Text.length s.
Proof.
  unfold scan_atom.
  destruct (strip_prefix "null" s) eqn:E1;
    [apply strip_prefix_length in E1; intros [= <- <-]; simpl in E1; lia|].
  destruct (strip_prefix "true" s) eqn:E2;
    [apply strip_prefix_length in E2; intros [= <- <-]; simpl in E2; lia|].
  destruct (strip_prefix "false" s) eqn:E3;
    [apply strip_prefix_length in E3; intros [= <- <-]; simpl in E3; lia|].
  destruct (scan_number s) as [[v' r']|e] eqn:En.
  - intros [= <- <-]. now apply scan_number_length in En.
  - destruct (scan_number_raises _ _ En) as [-> | ->]; [|discriminate].
    destruct (strip_prefix "NaN" s) eqn:E4;
      [apply strip_prefix_length in E4; intros [= <- <-]; simpl in E4; lia|].
    destruct (strip_prefix "Infinity" s) eqn:E5;
      [apply strip_prefix_length in E5; intros [= <- <-]; simpl in E5; lia|].
    destruct (strip_prefix "-Infinity" s) eqn:E6;
      [apply strip_prefix_length in E6; intros [= <- <-]; simpl in E6; lia|].
    discriminate.
Qed.

(** What is left after a value is shorter than the text it was read
    from. *)
Lemma scan_length (fuel : nat) :
  (forall d s v r, scan fuel d s = Ok (v, r) ->
                   Text.length r < Text.length s)
  /\ (forall d s vs r, scan_items fuel d s = Ok (vs, r) ->
                       Text.length r < Text.length s)
  /\ (forall d s kvs r, scan_members fuel d s = Ok (kvs, r) ->
                        Text.length r < Text.length s).
Proof.
  induction fuel as [|f (IHv & IHi & IHm)];
    [repeat split; intros; discriminate|].
  repeat split.
  - intros d s v r. cbn [scan]. destruct s as [|c s]; [discriminate|].
    destruct (N.eqb c dquote).
    { destruct (scan_string s) as [[t rest]|] eqn:E; [|discriminate].
      intros [= <- <-]. apply (scan_string_length _ _ _ _ (le_n _)) in E.
      simpl. lia. }
    pose proof (skip_ws_length s) as Hs.
    destruct (is_char c "{").
    { destruct d as [|d]; [discriminate|].
      destruct (skip_ws s) as [|c1 r1] eqn:Ek; [discriminate|].
      destruct (is_char c1 "}");
        [intros [= <- <-]; simpl in *; lia|].
      destruct (scan_members f d (Char c1 r1)) as [[pairs rest]|] eqn:E;
        [|discriminate].
      intros [= <- <-]. apply IHm in E. simpl in *. lia. }
    destruct (is_char c "[").
    { destruct d as [|d]; [discriminate|].
      destruct (skip_ws s) as [|c1 r1] eqn:Ek; [discriminate|].
      destruct (is_char c1 "]");
        [intros [= <- <-]; simpl in *; lia|].
      destruct (scan_items f d (Char c1 r1)) as [[items rest]|] eqn:E;
        [|discriminate].
      intros [= <- <-]. apply IHi in E. simpl in *. lia. }
    apply scan_atom_length.
  - intros d s vs r. cbn [scan_items].
    destruct (scan f d s) as [[v r0]|] eqn:E; [|discriminate].
    apply IHv in E.
    pose proof (skip_ws_length r0) as H0.
    destruct (skip_ws r0) as [|c r1]; [discriminate|].
    destruct (is_char c ",").
    { pose proof (skip_ws_length r1) as H1.
      destruct (scan_items f d (skip_ws r1)) as [[vs' rest]|] eqn:E2;
        [|discriminate].
      intros [= <- <-]. apply IHi in E2. simpl in *. lia. }
    destruct (is_char c "]"); [|discriminate].
    intros [= <- <-]. simpl in *. lia.
  - intros d s kvs r. cbn [scan_members].
    destruct s as [|q s]; [discriminate|].
    destruct (N.eqb q dquote); [|discriminate].
    destruct (scan_string s) as [[k r1]|] eqn:Ek; [|discriminate].
    apply (scan_string_length _ _ _ _ (le_n _)) in Ek.
    pose proof (skip_ws_length r1) as H1.
    destruct (skip_ws r1) as [|c r2]; [discriminate|].
    destruct (is_char c ":"); [|discriminate].
    pose proof (skip_ws_length r2) as H2.
    destruct (scan f d (skip_ws r2)) as [[v r3]|] eqn:E; [|discriminate].
    apply IHv in E.
    pose proof (skip_ws_length r3) as H3.
    destruct (skip_ws r3) as [|c' r4]; [discriminate|].
    destruct (is_char c' ",").
    { pose proof (skip_ws_length r4) as H4.
      destruct (scan_members f d (skip_ws r4)) as [[kvs' rest]|] eqn:E2;
        [|discriminate].
      intros [= <- <-]. apply IHm in E2. simpl in *. lia. }
    destruct (is_char c' "}"); [|discriminate].
    intros [= <- <-]. simpl in *. lia.
Qed.

(** With fuel for two calls a character, more fuel changes nothing. *)
Lemma scan_fuel (f1 : nat) :
  forall f2,
    (forall d s, 2 * Text.length s < f1 -> 2 * Text.length s < f2 ->
                 scan f1 d s = scan f2 d s)
    /\ (forall d s, 2 * Text.length s + 1 < f1 ->
                    2 * Text.length s + 1 < f2 ->
                    scan_items f1 d s = scan_items f2 d s)
    /\ (forall d s, 2 * Text.length s + 1 < f1 ->
                    2 * Text.length s + 1 < f2 ->
                    scan_members f1 d s = scan_members f2 d s).
Proof.
  induction f1 as [|f1 IH]; intros f2; [repeat split; intros; lia|].
  destruct f2 as [|f2]; [repeat split; intros; lia|].
  destruct (IH f2) as (IHv & IHi & IHm).
  repeat split.
  - intros d s H1 H2. cbn [scan]. destruct s as [|c s]; [reflexivity|].
    cbn [Text.length] in H1, H2.
    pose proof (skip_ws_length s) as Hs.
    destruct (N.eqb c dquote); [reflexivity|].
    destruct (is_char c "{").
    { destruct d as [|d]; [reflexivity|].
      destruct (skip_ws s) as [|c1 r1] eqn:Ek; [reflexivity|].
      destruct (is_char c1 "}"); [reflexivity|].
      rewrite (IHm d (Char c1 r1)) by lia. reflexivity. }
    destruct (is_char c "[").
    { destruct d as [|d]; [reflexivity|].
      destruct (skip_ws s) as [|c1 r1] eqn:Ek; [reflexivity|].
      destruct (is_char c1 "]"); [reflexivity|].
      rewrite (IHi d (Char c1 r1)) by lia. reflexivity. }
    reflexivity.
  - intros d s H1 H2. cbn [scan_items].
    rewrite (IHv d s) by lia.
    destruct (scan f2 d s) as [[v r0]|] eqn:E; [|reflexivity].
    apply (proj1 (scan_length f2)) in E.
    pose proof (skip_ws_length r0) as H0.
    destruct (skip_ws r0) as [|c r1]; [reflexivity|].
    destruct (is_char c ","); [|reflexivity].
    pose proof (skip_ws_length r1) as Hr1. cbn [Text.length] in H0.
    rewrite (IHi d (skip_ws r1)) by lia. reflexivity.
  - intros d s H1 H2. cbn [scan_members].
    destruct s as [|q s]; [reflexivity|]. cbn [Text.length] in H1, H2.
    destruct (N.eqb q dquote); [|reflexivity].
    destruct (scan_string s) as [[k r1]|] eqn:Ek; [|reflexivity].
    apply (scan_string_length _ _ _ _ (le_n _)) in Ek.
    pose proof (skip_ws_length r1) as Hr1.
    destruct (skip_ws r1) as [|c r2]; [reflexivity|].
    destruct (is_char c ":"); [|reflexivity]. cbn [Text.length] in Hr1.
    pose proof (skip_ws_length r2) as Hr2.
    rewrite (IHv d (skip_ws r2)) by lia.
    destruct (scan f2 d (skip_ws r2)) as [[v r3]|] eqn:E; [|reflexivity].
    apply (proj1 (scan_length f2)) in E.
    pose proof (skip_ws_length r3) as Hr3.
    destruct (skip_ws r3) as [|c' r4]; [reflexivity|].
    destruct (is_char c' ","); [|reflexivity]. cbn [Text.length] in Hr3.
    pose proof (skip_ws_length r4) as Hr4.
    rewrite (IHm d (skip_ws r4)) by lia. reflexivity.
Qed.

(** The fuel [loads] gives is enough for every text: the decoder reads
    the same with any larger amount. *)
Lemma loads_fuel (depth fuel : nat) (s : str) :
  2 * Text.length s < fuel ->
  scan fuel depth (skip_ws s)
  = scan (S (2 * Text.length s)) depth (skip_ws s).
Proof.
  intros H. pose proof (skip_ws_length s) as L.
  apply (proj1 (scan_fuel fuel (S (2 * Text.length s)))); lia.
Qed.

End Fuel.

(** ** Where the records of the fallback come from *)
Section FallbackOrigin.
Import Bs4.
Variable json_decode : string -> result json.

Lemma ld_record_fields (item : json) (s : sighting) :
  ld_record item = Ok s ->
  exists d, item = JDict d
            /\ dict_get "species"%text s = Some (field "name" d)
            /\ dict_get "location"%text s
               = Some match dict_get "location"%text d with
                      | Some (JDict loc) => field "name" loc
                      | _ => JStr ""
                      end
            /\ dict_get "date"%text s = Some (field "datePublished" d)
            /\ dict_get "checklist_url"%text s = Some (field "url" d).
Proof.
  destruct item as [| | | | | |d]; try discriminate.
  intros H. exists d. split; [reflexivity|]. revert H.
  unfold ld_record, item_get, field.
  destruct (dict_get "location"%text d) as [[| | | | | |loc]|];
    cbn [is_dict]; intros [= <-]; repeat split.
Qed.

Lemma ld_item_origin (soup script : node) (items : list json) (item : json)
      (st : list sighting) :
  In script (ld_scripts soup) ->
  json_loads json_decode (string_of script) = Ok (JList items) ->
  In item items ->
  Forall (fun s => ld_shape s /\ ld_origin json_decode soup s) st ->
  Forall (fun s => ld_shape s /\ ld_origin json_decode soup s)
         (fst (ld_item item st)).
Proof.
  intros Hs Hl Hi H. unfold ld_item, bind, lift, append, ret.
  destruct (name_in item) as [[|]|e] eqn:N; simpl; auto.
  destruct (ld_record item) as [s|e] eqn:E; simpl; auto.
  apply Forall_app; split; auto. constructor; [|constructor].
  split; [eapply ld_record_shape; eauto|].
  destruct (ld_record_fields _ _ E) as (d & -> & F1 & F2 & F3 & F4).
  cbn [name_in] in N. injection N as N.
  exists script, items, d. repeat split; auto.
  rewrite F1. unfold field. unfold dict_mem in N.
  now destruct (dict_get "name"%text d).
Qed.

Lemma ld_script_origin (soup script : node) (st : list sighting) :
  In script (ld_scripts soup) ->
  Forall (fun s => ld_shape s /\ ld_origin json_decode soup s) st ->
  Forall (fun s => ld_shape s /\ ld_origin json_decode soup s)
         (fst (ld_script json_decode script st)).
Proof.
  intros Hs H. unfold ld_script, try_except.
  match goal with |- context [match ?b st with _ => _ end] =>
    assert (Hb : Forall (fun s => ld_shape s /\ ld_origin json_decode soup s)
                        (fst (b st)));
      [|destruct (b st) as [st' [[]|e]]]
  end; simpl in *; auto.
  - unfold bind, lift.
    destruct (json_loads json_decode (string_of script)) as [data|e] eqn:E;
      simpl; auto.
    destruct data; simpl; auto.
    apply (for_each_invariant
             (Forall (fun s => ld_shape s /\ ld_origin json_decode soup s)));
      auto.
    intros x Hx st0 Hst0. now apply (ld_item_origin soup script l).
  - destruct (ld_handled e); simpl; auto.
Qed.

Lemma extract_sightings_generic_origin (soup : node) (ss : list sighting) :
  extract_sightings_generic json_decode soup = Ok ss ->
  Forall (fun s => ld_shape s /\ ld_origin json_decode soup s) ss.
Proof.
  unfold extract_sightings_generic.
  pose proof (for_each_invariant
                (Forall (fun s => ld_shape s
                                  /\ ld_origin json_decode soup s))
                (ld_script json_decode) (ld_scripts soup)
                (fun x Hx st H => ld_script_origin soup x st Hx H)
                [] (Forall_nil _)) as H.
  destruct (for_each _ _ _) as [st [[]|e]]; [|discriminate].
  now intros [= <-].
Qed.

End FallbackOrigin.

(** ** The endings of a run *)
Section RunFacts.
Variable json_decode : string -> result json.
Variable BeautifulSoup : string -> result Bs4.node.
Variable float_repr : spec_float -> str.
Variable repr : json -> str.

Lemma append_inv (a x y : string) : a ++ x = a ++ y -> x = y.
Proof. induction a as [|c a IH]; simpl; [auto|]. intros [= E]. auto. Qed.

(** The output makes no request. *)
Lemma output_no_get (w : world) (ss : list sighting) :
  forallb (fun e => negb (is_get e)) (fst (output_of float_repr repr w ss))
  = true.
Proof.
  rewrite output_of_cases. cbv zeta. unfold output_log.
  repeat match goal with
         | |- context [match os_error w ?c with _ => _ end] =>
             destruct (os_error w c)
         | |- context [match Json.dump_error ?d ?v with _ => _ end] =>
             destruct (Json.dump_error d v)
         | |- context [match html_content ?r ?w ?d with _ => _ end] =>
             destruct (html_content r w d)
         | |- context [if Text.encodable ?p then _ else _] =>
             destruct (Text.encodable p)
         end; reflexivity.
Qed.

(** A run that ends normally has fetched a page with status 200, parsed
    it, and written both files. *)
Lemma run_ok (w : world) :
  snd (run json_decode BeautifulSoup float_repr repr w) = Ok tt ->
  exists r ss page,
    cookie_string w <> ""
    /\ session_get w ALERT_URL (parse_cookies (cookie_string w))
                   request_headers 30 = Ok r
    /\ status_code r = 200
    /\ parse_alerts json_decode BeautifulSoup (text r) = Ok ss
    /\ Json.dump_error (dump_depth w) (JDict (report w ss)) = None
    /\ html_content repr w (report w ss) = Ok page
    /\ Text.encodable page = true
    /\ fst (run json_decode BeautifulSoup float_repr repr w)
       = (fetch_log w
          ++ [Print ("Received "
                     ++ Py.str_of_nat (String.length (text r)) ++ " bytes");
              Print "Parsing sightings..."]
          ++ output_log float_repr w ss page)%list.
Proof.
  rewrite run_cases.
  destruct (Py.truthy (cookie_string w)) eqn:T; cbn [negb];
    [|discriminate].
  destruct (session_get w _ _ _ _) as [r|e] eqn:Hr; [|discriminate].
  destruct (Nat.eqb (status_code r) 200) eqn:Hs; cbn [negb];
    [|discriminate].
  cbv zeta.
  destruct (parse_alerts _ _ _) as [ss|e] eqn:Hp; [|discriminate].
  rewrite output_of_cases. cbv zeta. cbn [fst snd].
  destruct (os_error w (MakeDirs _)); [discriminate|].
  destruct (os_error w (OpenToWrite (_ ++ "/data.json"))); [discriminate|].
  destruct (os_error w (WriteTo (_ ++ "/data.json"))); [discriminate|].
  destruct (Json.dump_error _ _) eqn:Hd; [discriminate|].
  destruct (html_content repr w _) as [page|] eqn:Hh; [|discriminate].
  destruct (os_error w (OpenToWrite (_ ++ "/index.html"))); [discriminate|].
  destruct (Text.encodable page) eqn:He; [|discriminate].
  destruct (os_error w (WriteTo (_ ++ "/index.html"))); [discriminate|].
  intros _. exists r, ss, page. cbn [fst].
  repeat split; auto.
  - intros E. rewrite E in T. discriminate.
  - now apply Nat.eqb_eq.
Qed.

End RunFacts.

(** ** The claims *)
Section Claims.
Import Bs4.

Implicit Types (json_decode : string -> result json)
         (BeautifulSoup : string -> result node)
         (float_repr : spec_float -> str) (repr : json -> str).

(** C1. The claim wants every sighting of the output to have a non-empty
    species, the fallback included.  The loop over the rows filters on
    the species; the fallback only asks for the key [name].  On the page
    whose one linked-data block is a list of one object, with the empty
    string under [name], the output is one record with an empty
    species. *)
Theorem fallback_keeps_empty_species :
  row_sightings (obs_rows (content Sample.page_empty_name)) = []
  /\ parse_soup Sample.loads Sample.page_empty_name
     = Ok [Sample.record (JStr "")].
Proof. split; vm_compute; reflexivity. Qed.

(** C2, the claim as stated fails: a [div] of class [obs] is a
    candidate of the first method, it yields no species, and the
    fallback over the linked-data blocks runs and supplies the output. *)
Lemma fallback_runs_after_candidates :
  method1 (snd (content Sample.page_obs_no_species)) <> []
  /\ parse_soup Sample.loads Sample.page_obs_no_species
     = Ok [Sample.record (JStr "Snowy Owl")].
Proof. split; vm_compute; [discriminate | reflexivity]. Qed.

(** C2, as amended.  When the first method (class matching
    "observation"/"obs") finds a candidate, the candidate rows are its
    rows and no other method adds any; the output is the sightings of
    those rows when one of them has a species, and the result of the
    fallback over the linked-data blocks when none has.  In general the
    rows are those of the first method, in order, that finds any. *)
Theorem cascade_first_match json_decode (soup : node)
        (H : method1 (snd (content soup)) <> []) :
  obs_rows (content soup) = method1 (snd (content soup))
  /\ parse_soup json_decode soup
     = match row_sightings (method1 (snd (content soup))) with
       | [] => extract_sightings_generic json_decode soup
       | ss => Ok ss
       end
  /\ forall c, obs_rows c
               = first_nonempty [method1 (snd c); method2 (snd c);
                                 method3 (snd c); method4 c].
Proof.
  assert (E : obs_rows (content soup) = method1 (snd (content soup))).
  { rewrite obs_rows_first. simpl.
    destruct (method1 (snd (content soup))); congruence. }
  split; [exact E|]. split; [|exact obs_rows_first].
  now rewrite parse_soup_cases, E.
Qed.

Lemma cascade_first_match_witness :
  method1 (snd (content Sample.page_snowy_owl)) <> []
  /\ obs_rows (content Sample.page_snowy_owl)
     = method1 (snd (content Sample.page_snowy_owl)).
Proof.
  assert (H : method1 (snd (content Sample.page_snowy_owl)) <> [])
    by (vm_compute; discriminate).
  split; [exact H|].
  exact (proj1 (cascade_first_match Sample.loads Sample.page_snowy_owl H)).
Defined.

(** C3, the claim as stated fails: with [EBIRD_COOKIES=abc] the string
    yields no pair, no diagnostic is printed, the request is made with
    an empty cookie mapping and the run ends with status 0. *)
Lemma fetch_with_no_cookies :
  let w := Sample.world_of (Some "abc") (Ok Sample.ok_page) in
  let r := run Sample.loads (Sample.always (Sample.page []))
               Sample.no_floats Sample.no_repr w in
  parse_cookies (cookie_string w) = []
  /\ In (Get ALERT_URL []) (fst r)
  /\ ~ In (Print "ERROR: EBIRD_COOKIES environment variable not set") (fst r)
  /\ exit_status (snd r) = 0.
Proof.
  cbv zeta. repeat split; try (vm_compute; tauto).
  intros H; vm_compute in H.
  repeat (destruct H as [H|H]; [discriminate H|]); exact H.
Qed.

(** C3, as amended.  When [EBIRD_COOKIES] is unset or empty the program
    prints the missing-credential diagnostic and exits with status 1,
    and the log of the run holds no request.  A request is made only
    when the variable is not empty, to the alert URL, with the pairs
    parsed from it, be there any or none. *)
Theorem credential_gate json_decode BeautifulSoup float_repr repr
        (w : world) :
  (cookie_string w = "" ->
   run json_decode BeautifulSoup float_repr repr w
   = ((banner ++ [Print "ERROR: EBIRD_COOKIES environment variable not set"])%list,
      Raise (SystemExit 1)))
  /\ (forall u c,
         In (Get u c) (fst (run json_decode BeautifulSoup float_repr repr w)) ->
         cookie_string w <> "" /\ u = ALERT_URL
         /\ c = parse_cookies (cookie_string w)).
Proof.
  rewrite run_cases. split.
  - intros ->. reflexivity.
  - intros u c H.
    assert (G : forall l, In (Get u c) (fetch_log w ++ l) ->
                          forallb (fun e => negb (is_get e)) l = true ->
                          u = ALERT_URL
                          /\ c = parse_cookies (cookie_string w)).
    { intros l Hin Hl. apply in_app_or in Hin as [Hin|Hin].
      - unfold fetch_log, banner in Hin. cbn [app In] in Hin.
        repeat (destruct Hin as [Hin|Hin]; [try discriminate Hin|]);
          [|destruct Hin].
        now injection Hin as <- <-.
      - rewrite forallb_forall in Hl. specialize (Hl _ Hin).
        discriminate Hl. }
    destruct (Py.truthy (cookie_string w)) eqn:T; cbn [negb] in H.
    + split; [intros E; rewrite E in T; discriminate|].
      destruct (session_get w _ _ _ _) as [r|e].
      * destruct (negb (Nat.eqb (status_code r) 200)).
        -- cbn [fst] in H. apply (G _ H). unfold failure_log.
           now destruct (Py.contains "login" _).
        -- cbv zeta in H. destruct (parse_alerts _ _ _) as [ss|e].
           ++ cbn [fst] in H. apply (G _ H). cbn [app forallb is_get negb].
              apply output_no_get.
           ++ cbn [fst] in H. apply (G _ H). reflexivity.
      * cbn [fst] in H. rewrite <- (List.app_nil_r (fetch_log w)) in H.
        apply (G _ H). reflexivity.
    + unfold banner in H. cbn [fst app In] in H.
      repeat (destruct H as [H|H]; [discriminate H|]). destruct H.
Qed.

Lemma credential_gate_witness :
  let w := Sample.world_of None (Ok Sample.ok_page) in
  cookie_string w = ""
  /\ exit_status (snd (run Sample.loads (Sample.always (Sample.page []))
                           Sample.no_floats Sample.no_repr w)) = 1.
Proof.
  cbv zeta. split; [reflexivity|].
  rewrite (proj1 (credential_gate Sample.loads
                    (Sample.always (Sample.page []))
                    Sample.no_floats Sample.no_repr
                    (Sample.world_of None (Ok Sample.ok_page))) eq_refl).
  reflexivity.
Defined.

(** C4.  The claim wants a fetch that was redirected to a login page
    reported with the diagnostic that the cookies may have expired, and
    the run ended with a failure status.  The script has that diagnostic,
    but looks at the URL of the answer only when its status is not 200.
    A redirect that was followed ends on the login page with status
    200: there the script prints no diagnostic, takes the login page for
    the alerts, writes its output and ends with status 0.  With the
    same URL and status 302 it prints the diagnostic and ends with
    status 1. *)
Theorem login_page_accepted :
  let run_on r :=
    run Sample.loads (Sample.always (Sample.page []))
        Sample.no_floats Sample.no_repr
        (Sample.world_of (Some "a=b") (Ok r)) in
  let expired :=
    Print "ERROR: Redirected to login page. Cookies may have expired." in
  url Sample.login_page = url Sample.login_redirect
  /\ Py.contains "login" (Py.lower (url Sample.login_page)) = true
  /\ status_code Sample.login_page = 200
  /\ ~ In expired (fst (run_on Sample.login_page))
  /\ (exists content,
         In (WriteFile "/srv/scraper/docs/data.json" content)
            (fst (run_on Sample.login_page)))
  /\ exit_status (snd (run_on Sample.login_page)) = 0
  /\ status_code Sample.login_redirect = 302
  /\ In expired (fst (run_on Sample.login_redirect))
  /\ exit_status (snd (run_on Sample.login_redirect)) = 1.
Proof.
  cbv zeta. repeat split; try (vm_compute; reflexivity).
  - intros H; vm_compute in H.
    repeat (destruct H as [H|H]; [discriminate H|]); exact H.
  - eexists. vm_compute. do 12 right. left. reflexivity.
  - vm_compute. tauto.
Qed.

(** C5, the claim as stated fails: in [<div><b>X</b><strong>Y</strong></div>]
    the first bold or strong element is the [b], with text X, and the
    species extracted is Y. *)
Lemma first_bold_not_taken :
  option_map get_text_strip (spec_species_elem Sample.frag_b_then_strong)
  = Some "X"
  /\ dict_get "species"%text (extract_sighting_data Sample.frag_b_then_strong)
     = Some (JStr "Y").
Proof. split; vm_compute; reflexivity. Qed.

(** C5, as amended.  The species is the text of the first guess that
    matches, and the guesses stop there: the first link whose class
    contains "species" (case-insensitive); else the first span whose
    class does; else the first [strong] element; else the first [b]
    element; where "first" is in document order among the descendants of
    the fragment.  The text is the stripped non-empty strings of the
    element put together.  When no guess matches the species is the
    empty string. *)
Theorem species_first_guess (element : node) :
  dict_get "species"%text (extract_sighting_data element)
  = Some (JStr (Text.wide match species_guesses element with
                          | x :: _ => get_text_strip x
                          | [] => ""
                          end)).
Proof.
  rewrite species_of_elem, species_elem_first.
  now destruct (species_guesses element).
Qed.

(** C6.  The checklist URL of a fragment is read from its first link
    whose href contains "/checklist/": the href with "https://ebird.org"
    put before it when it starts with a slash, the href unchanged when
    it does not; it is the empty string when the fragment has no such
    link. *)
Theorem checklist_url_resolved (element : node) :
  dict_get "checklist_url"%text (extract_sighting_data element)
  = Some (JStr
            (Text.wide
               match List.find (is_link_to "/checklist/")
                               (descendants element)
               with
               | Some link =>
                   match attr "href" link with
                   | Some href =>
                       if Py.startswith "/" href
                       then "https://ebird.org" ++ href
                       else href
                   | None => ""
                   end
               | None => ""
               end)).
Proof.
  rewrite <- checklist_link_first. unfold extract_sighting_data.
  destruct (checklist_link element) as [link|].
  - rewrite dict_get_set_same. unfold resolve_href.
    destruct (attr "href" link); reflexivity.
  - now rewrite !dict_get_set_text_other by discriminate.
Qed.




(** C8.  The claim wants a linked-data block whose payload is not
    well-formed to be skipped.  A block whose text does not decode is
    skipped ([undecodable_block_skipped], and the second page below);
    a block with no payload at all has [string] equal to [None], on
    which [json.loads] raises a [TypeError] that the handler does not
    list: the fallback aborts and the records of the blocks around it
    are lost. *)
Theorem empty_block_aborts :
  string_of Sample.ld_empty = None
  /\ parse_soup Sample.loads Sample.page_empty_block = Raise TypeError
  /\ parse_soup Sample.loads Sample.page_bad_block
     = Ok [Sample.record (JStr "Snowy Owl"); Sample.record (JStr "Gyrfalcon")].
Proof. repeat split; vm_compute; reflexivity. Qed.

(** C9, the claim as stated fails: the linked-data item [{"name": 5}]
    gives a record whose species is the number 5, not a string. *)
Lemma fallback_species_not_a_string :
  parse_soup Sample.loads Sample.page_number_name
  = Ok [Sample.record (JInt 5)]
  /\ is_str (field "species" (Sample.record (JInt 5))) = false.
Proof. split; vm_compute; reflexivity. Qed.

(** C9, as amended.  Every record of either path is a mapping with
    exactly the six keys species, location, date, observer,
    checklist_url and count.  A record extracted from a fragment maps
    each of them to a string.  A record of the fallback has observer and
    count equal to the empty string, and comes from an object with a
    name in the list a linked-data block decodes to: its species is the
    name of the object, its location the name of the location of the
    object when that is an object itself, its date the [datePublished]
    and its checklist URL the [url] of the object, each of whatever
    type the object holds, and the empty string for what is absent. *)
Theorem record_shape json_decode :
  (forall element,
      dict_keys (extract_sighting_data element) = six_keys
      /\ forallb (fun kv => is_str (snd kv)) (extract_sighting_data element)
         = true)
  /\ (forall soup ss,
         extract_sightings_generic json_decode soup = Ok ss ->
         Forall (fun s =>
                   dict_keys s = six_keys
                   /\ dict_get "observer"%text s = Some (JStr "")
                   /\ dict_get "count"%text s = Some (JStr "")
                   /\ exists script items item,
                       In script (ld_scripts soup)
                       /\ json_loads json_decode (string_of script)
                          = Ok (JList items)
                       /\ In (JDict item) items
                       /\ dict_get "species"%text s
                          = dict_get "name"%text item
                       /\ dict_get "species"%text s <> None
                       /\ dict_get "location"%text s
                          = Some match dict_get "location"%text item with
                                 | Some (JDict loc) =>
                                     match dict_get "name"%text loc with
                                     | Some v => v
                                     | None => JStr ""
                                     end
                                 | _ => JStr ""
                                 end
                       /\ dict_get "date"%text s
                          = Some match dict_get "datePublished"%text item
                                 with
                                 | Some v => v
                                 | None => JStr ""
                                 end
                       /\ dict_get "checklist_url"%text s
                          = Some match dict_get "url"%text item with
                                 | Some v => v
                                 | None => JStr ""
                                 end) ss).
Proof.
  split.
  - exact extract_sighting_data_shape.
  - intros soup ss H.
    pose proof (extract_sightings_generic_origin json_decode soup ss H) as F.
    eapply Forall_impl; [|exact F].
    intros s ((K & O & C) & script & items & item & Hs & Hl & Hi & Hm
                        & F1 & F2 & F3 & F4).
    repeat split; auto.
    exists script, items, item. repeat split; auto.
    rewrite F1. unfold dict_mem in Hm.
    destruct (dict_get "name"%text item); [discriminate | discriminate Hm].
Qed.

Lemma record_shape_witness :
  extract_sightings_generic Sample.loads Sample.page_full_item
  = Ok [[("species", JStr "Snowy Owl"); ("location", JStr "Pier");
         ("date", JStr "2024-01-02"); ("observer", JStr "");
         ("checklist_url", JStr "https://ebird.org/checklist/S1");
         ("count", JStr "")]%text]
  /\ exists item,
      Sample.loads Sample.full_item = Ok (JList [JDict item])
      /\ dict_get "name"%text item = Some (JStr "Snowy Owl")
      /\ dict_get "location"%text item
         = Some (JDict [("name"%text, JStr "Pier")])
      /\ dict_get "datePublished"%text item = Some (JStr "2024-01-02")
      /\ dict_get "url"%text item
         = Some (JStr "https://ebird.org/checklist/S1").
Proof.
  assert (H : extract_sightings_generic Sample.loads Sample.page_full_item
              = Ok [[("species", JStr "Snowy Owl"); ("location", JStr "Pier");
                     ("date", JStr "2024-01-02"); ("observer", JStr "");
                     ("checklist_url",
                      JStr "https://ebird.org/checklist/S1");
                     ("count", JStr "")]%text])
    by (vm_compute; reflexivity).
  split; [exact H|].
  pose proof (proj2 (record_shape Sample.loads) _ _ H) as F.
  apply Forall_inv in F.
  destruct F as (_ & _ & _ & script & items & item & Hs & Hl & Hi & _).
  eexists. split; [vm_compute; reflexivity|].
  repeat split; vm_compute; reflexivity.
Defined.

End Claims.

(** * Further properties of the script *)

(** ** Stripping and splitting *)
Section StripFacts.

Lemma has_char_app (c : ascii) (a b : string) :
  Py.has_char c (a ++ b) = Py.has_char c a || Py.has_char c b.
Proof. induction a as [|x a IH]; simpl; auto. now rewrite IH, orb_assoc. Qed.

Lemma lstrip_suffix (s : string) : exists p, s = p ++ Py.lstrip s.
Proof.
  induction s as [|c s [p IH]]; [now exists ""|]. simpl.
  destruct (Py.isspace c); [|now exists ""].
  exists (String c p). simpl. now rewrite <- IH.
Qed.

Lemma rstrip_prefix (s : string) : exists q, s = Py.rstrip s ++ q.
Proof.
  induction s as [|c s [q IH]]; [now exists ""|]. simpl.
  destruct (Py.rstrip s) as [|d r] eqn:E.
  - destruct (Py.isspace c).
    + now exists (String c s).
    + exists s. reflexivity.
  - exists q. simpl. simpl in IH. now rewrite <- IH.
Qed.

Lemma has_char_strip (c : ascii) (s : string) :
  Py.has_char c s = false -> Py.has_char c (Py.strip s) = false.
Proof.
  intros H. unfold Py.strip.
  destruct (lstrip_suffix s) as [p Hp].
  destruct (rstrip_prefix (Py.lstrip s)) as [q Hq].
  rewrite Hp, Hq, !has_char_app in H.
  apply orb_false_iff in H as [_ H]. now apply orb_false_iff in H as [H _].
Qed.

Lemma lstrip_length (s : string) :
  String.length (Py.lstrip s) <= String.length s.
Proof.
  induction s as [|c s IH]; simpl; auto.
  destruct (Py.isspace c); simpl; lia.
Qed.

(** What [lstrip] leaves starts with no whitespace. *)
Lemma lstrip_head (s : string) :
  match Py.lstrip s with
  | EmptyString => True
  | String c _ => Py.isspace c = false
  end.
Proof.
  induction s as [|c s IH]; simpl; auto.
  destruct (Py.isspace c) eqn:E; auto.
Qed.

Lemma lstrip_fixed (c : ascii) (r : string) :
  Py.isspace c = false -> Py.lstrip (String c r) = String c r.
Proof. intros H. simpl. now rewrite H. Qed.

Lemma lstrip_fixed_head (c : ascii) (r : string) :
  Py.lstrip (String c r) = String c r -> Py.isspace c = false.
Proof.
  simpl. destruct (Py.isspace c); auto. intros H.
  pose proof (lstrip_length r) as L. rewrite H in L. simpl in L. lia.
Qed.

Lemma rstrip_head (c : ascii) (r : string) :
  Py.isspace c = false -> exists r', Py.rstrip (String c r) = String c r'.
Proof.
  intros H. simpl. destruct (Py.rstrip r); [rewrite H|]; eauto.
Qed.

Lemma rstrip_idem (s : string) : Py.rstrip (Py.rstrip s) = Py.rstrip s.
Proof.
  induction s as [|c s IH]; simpl; auto.
  destruct (Py.rstrip s) as [|d t] eqn:E.
  - destruct (Py.isspace c) eqn:C; simpl; auto. now rewrite C.
  - change (Py.rstrip (String c (String d t)))
      with (match Py.rstrip (String d t) with
            | EmptyString =>
                if Py.isspace c then EmptyString else String c EmptyString
            | r' => String c r'
            end).
    now rewrite IH.
Qed.

Lemma rstrip_app (a b : string) :
  Py.rstrip b <> "" -> Py.rstrip (a ++ b) = a ++ Py.rstrip b.
Proof.
  intros H. induction a as [|c a IH]; simpl; auto.
  rewrite IH. destruct a; simpl; [|reflexivity].
  destruct (Py.rstrip b); [contradiction | reflexivity].
Qed.

Lemma lstrip_strip (s : string) : Py.lstrip (Py.strip s) = Py.strip s.
Proof.
  unfold Py.strip. pose proof (lstrip_head s) as H.
  destruct (Py.lstrip s) as [|c r]; [reflexivity|].
  destruct (rstrip_head c r H) as [r' ->]. now apply lstrip_fixed.
Qed.

Lemma strip_idem (s : string) : Py.strip (Py.strip s) = Py.strip s.
Proof.
  unfold Py.strip at 1. rewrite lstrip_strip. apply rstrip_idem.
Qed.

Lemma stripped_spec (s : string) : stripped s = true <-> Py.strip s = s.
Proof. apply String.eqb_eq. Qed.

Lemma stripped_strip (s : string) : stripped (Py.strip s) = true.
Proof. apply stripped_spec, strip_idem. Qed.

Lemma stripped_inv (s : string) :
  stripped s = true -> Py.lstrip s = s /\ Py.rstrip s = s.
Proof.
  intros H. apply stripped_spec in H.
  pose proof (lstrip_strip s) as L. rewrite H in L. split; [exact L|].
  unfold Py.strip in H. rewrite L in H. exact H.
Qed.

Lemma stripped_intro (s : string) :
  Py.lstrip s = s -> Py.rstrip s = s -> stripped s = true.
Proof.
  intros L R. apply stripped_spec. unfold Py.strip. now rewrite L, R.
Qed.

(** Two stripped strings, the first not empty, put together. *)
Lemma stripped_app (a b : string) :
  a <> "" -> stripped a = true -> stripped b = true -> stripped (a ++ b) = true.
Proof.
  intros Ha Sa Sb.
  destruct (stripped_inv a Sa) as [La Ra], (stripped_inv b Sb) as [Lb Rb].
  destruct a as [|c a]; [contradiction|].
  apply stripped_intro.
  - apply lstrip_fixed. eapply lstrip_fixed_head. exact La.
  - destruct b as [|d b]; [now rewrite append_nil_r|].
    rewrite rstrip_app; rewrite Rb; [reflexivity | discriminate].
Qed.

Lemma split_nonempty (sep : ascii) (s : string) : Py.split sep s <> [].
Proof.
  induction s as [|c s IH]; simpl; [discriminate|].
  destruct (Ascii.eqb c sep); [discriminate|].
  destruct (Py.split sep s); [contradiction | discriminate].
Qed.

(** No piece of a split holds a character the string does not hold. *)
Lemma split_has_char (sep c : ascii) (s : string) :
  Py.has_char c s = false ->
  Forall (fun p => Py.has_char c p = false) (Py.split sep s).
Proof.
  induction s as [|x s IH]; simpl; intros H.
  - repeat constructor.
  - apply orb_false_iff in H as [Hx H]. specialize (IH H).
    destruct (Ascii.eqb x sep); [constructor; auto|].
    destruct (Py.split sep s) as [|p ps]; inversion IH; subst;
      constructor; simpl; auto; now rewrite Hx.
Qed.

Lemma split_no_sep (sep : ascii) (s : string) :
  Py.has_char sep s = false -> Py.split sep s = [s].
Proof.
  induction s as [|x s IH]; simpl; auto. intros H.
  apply orb_false_iff in H as [Hx H]. now rewrite Hx, (IH H).
Qed.

Lemma split_app (sep : ascii) (a b : string) :
  Py.split sep (a ++ String sep b) = (Py.split sep a ++ Py.split sep b)%list.
Proof.
  induction a as [|x a IH]; simpl.
  - now rewrite Ascii.eqb_refl.
  - destruct (Ascii.eqb x sep); [now rewrite IH|].
    rewrite IH. pose proof (split_nonempty sep a) as N.
    destruct (Py.split sep a); [contradiction | reflexivity].
Qed.

Lemma split_snoc (sep : ascii) (s item : string) :
  Py.has_char sep item = false ->
  Py.split sep (s ++ String sep item) = (Py.split sep s ++ [item])%list.
Proof. intros H. now rewrite split_app, (split_no_sep _ _ H). Qed.

Lemma split1_fst (sep : ascii) (s : string) :
  Py.has_char sep (fst (Py.split1 sep s)) = false.
Proof.
  induction s as [|c s IH]; simpl; auto.
  destruct (Ascii.eqb c sep) eqn:E; simpl; auto.
  destruct (Py.split1 sep s); simpl in *. now rewrite E.
Qed.

Lemma split1_app (sep : ascii) (a b : string) :
  Py.has_char sep a = false -> Py.split1 sep (a ++ String sep b) = (a, b).
Proof.
  induction a as [|c a IH]; simpl; intros H.
  - now rewrite Ascii.eqb_refl.
  - apply orb_false_iff in H as [Hc H]. now rewrite Hc, (IH H).
Qed.

End StripFacts.
(** ** The cookie loop *)
Section CookieFacts.

Lemma dict_get_none_keys {V : Type} (k : string) (d : dict string V) :
  dict_get k d = None <-> ~ In k (dict_keys d).
Proof.
  induction d as [|[k' v] d IH]; simpl; [tauto|].
  destruct (String.eqb_spec k k') as [->|N].
  - split; [discriminate | tauto].
  - rewrite IH. intuition congruence.
Qed.

Lemma dict_set_fresh_snoc {V : Type} (k : string) (v : V) (d : dict string V) :
  ~ In k (dict_keys d) -> dict_set k v d = (d ++ [(k, v)])%list.
Proof.
  induction d as [|[k' v'] d IH]; simpl; auto. intros H.
  destruct (String.eqb_spec k k') as [->|N]; [tauto|].
  rewrite IH; tauto.
Qed.

Lemma dict_set_nodup {V : Type} (k : string) (v : V) (d : dict string V) :
  NoDup (dict_keys d) -> NoDup (dict_keys (dict_set k v d)).
Proof.
  intros H. rewrite dict_keys_set. unfold dict_mem.
  destruct (dict_get k d) eqn:E; auto.
  apply dict_get_none_keys in E.
  apply NoDup_app; [exact H | repeat constructor; simpl; tauto |].
  intros x Hx [<-|[]]. contradiction.
Qed.

Lemma dict_set_pairs {V : Type} (P : string * V -> Prop) (k : string) (v : V)
      (d : dict string V) :
  P (k, v) -> Forall P d -> Forall P (dict_set k v d).
Proof.
  intros Hv; induction 1 as [|[k' v'] d Hx Hd IH]; simpl.
  - constructor; auto.
  - destruct (String.eqb_spec k k') as [<-|N]; constructor; auto.
Qed.

Lemma add_cookie_no_equals (cookies : dict string string) (item : string) :
  Py.has_char "=" item = false -> add_cookie cookies item = cookies.
Proof.
  intros H. unfold add_cookie. now rewrite (has_char_strip _ _ H).
Qed.

Lemma cookie_item_stripped (kv : string * string) :
  stripped (fst kv) = true -> stripped (snd kv) = true ->
  Py.strip (cookie_item kv) = cookie_item kv.
Proof.
  destruct kv as [k v]. unfold cookie_item. cbn [fst snd]. intros Sk Sv.
  apply stripped_spec.
  assert (E : stripped ("=" ++ v) = true)
    by (apply stripped_app; [discriminate | reflexivity | exact Sv]).
  destruct k as [|c k]; [exact E|].
  apply stripped_app; [discriminate | exact Sk | exact E].
Qed.

(** What the body of the loop does with a pair in plain form, with or
    without the space that follows a semicolon. *)
Lemma add_cookie_item (cookies : dict string string) (kv : string * string) :
  cookie_ok kv = true ->
  add_cookie cookies (cookie_item kv) = dict_set (fst kv) (snd kv) cookies
  /\ add_cookie cookies (" " ++ cookie_item kv)
     = dict_set (fst kv) (snd kv) cookies.
Proof.
  intros H. unfold cookie_ok in H.
  repeat (apply andb_true_iff in H as [H ?]).
  assert (E : forall item, Py.strip item = cookie_item kv ->
                add_cookie cookies item = dict_set (fst kv) (snd kv) cookies).
  { intros item Hi. unfold add_cookie. cbv zeta. rewrite Hi.
    unfold cookie_item. rewrite has_char_app.
    cbn [Py.has_char Ascii.eqb Bool.eqb String.append orb].
    rewrite orb_true_r.
    rewrite split1_app by (now apply negb_true_iff).
    apply stripped_spec in H, H3. now rewrite H, H3. }
  split; apply E.
  - now apply cookie_item_stripped.
  - change (Py.strip (" " ++ cookie_item kv)) with (Py.strip (cookie_item kv)).
    now apply cookie_item_stripped.
Qed.

Lemma cookie_item_no_semicolon (kv : string * string) :
  cookie_ok kv = true -> Py.has_char ";" (cookie_item kv) = false.
Proof.
  intros H. unfold cookie_ok in H.
  repeat (apply andb_true_iff in H as [H ?]).
  unfold cookie_item. rewrite !has_char_app.
  apply negb_true_iff in H0, H1. rewrite H0, H1. reflexivity.
Qed.

Lemma parse_cookies_snoc (cookie_string item : string) :
  Py.has_char ";" item = false ->
  parse_cookies (cookie_string ++ String ";" item)
  = add_cookie (parse_cookies cookie_string) item.
Proof.
  intros H. unfold parse_cookies.
  now rewrite (split_snoc _ _ _ H), fold_left_app.
Qed.

(** X1.  A cookie string that holds no equals sign gives the empty
    mapping: every item without one is passed over. *)
Theorem cookies_without_equals (cookie_string : string)
        (H : Py.has_char "=" cookie_string = false) :
  parse_cookies cookie_string = [].
Proof.
  unfold parse_cookies.
  pose proof (split_has_char ";" "=" _ H) as F.
  generalize (@nil (string * string)) as acc.
  induction F as [|p ps Hp _ IH]; intros acc; simpl; auto.
  now rewrite (add_cookie_no_equals _ _ Hp).
Qed.

Lemma cookies_without_equals_witness :
  Py.has_char "=" "session; token ;" = false
  /\ parse_cookies "session; token ;" = [].
Proof.
  split; [reflexivity|].
  apply cookies_without_equals. reflexivity.
Defined.

Lemma add_cookie_keys (cookies : dict string string) (item : string) :
  exists more,
    dict_keys (add_cookie cookies item) = (dict_keys cookies ++ more)%list.
Proof.
  unfold add_cookie.
  destruct (Py.has_char "=" (Py.strip item));
    [|exists []; now rewrite List.app_nil_r].
  destruct (Py.split1 "=" (Py.strip item)) as [key value].
  rewrite dict_keys_set.
  destruct (dict_mem (Py.strip key) cookies);
    [exists []; now rewrite List.app_nil_r | eauto].
Qed.

Lemma fold_add_cookie_keys (items : list string) (cookies : dict string string) :
  exists more,
    dict_keys (fold_left add_cookie items cookies)
    = (dict_keys cookies ++ more)%list.
Proof.
  revert cookies. induction items as [|item items IH]; intros cookies.
  - exists []. now rewrite List.app_nil_r.
  - cbn [fold_left]. destruct (IH (add_cookie cookies item)) as [m1 ->].
    destruct (add_cookie_keys cookies item) as [m2 ->].
    exists (m2 ++ m1)%list. now rewrite List.app_assoc.
Qed.

(** X2.  The loop is a fold over the items: two cookie strings joined
    by a semicolon are read as the first, and then the items of the
    second one by one.  The names read from the first keep their places;
    the names new in the second come after them. *)
Theorem cookies_concatenated (first second : string) :
  parse_cookies (first ++ ";" ++ second)
  = fold_left add_cookie (Py.split ";" second) (parse_cookies first)
  /\ exists more,
      dict_keys (parse_cookies (first ++ ";" ++ second))
      = (dict_keys (parse_cookies first) ++ more)%list.
Proof.
  assert (E : parse_cookies (first ++ ";" ++ second)
              = fold_left add_cookie (Py.split ";" second)
                          (parse_cookies first)).
  { unfold parse_cookies.
    change (first ++ ";" ++ second) with (first ++ String ";" second).
    now rewrite split_app, fold_left_app. }
  split; [exact E|].
  rewrite E. apply fold_add_cookie_keys.
Qed.

Lemma add_cookie_stored (cookies : dict string string) (item : string) :
  Forall (fun kv => cookie_stored kv = true) cookies ->
  Forall (fun kv => cookie_stored kv = true) (add_cookie cookies item).
Proof.
  intros H. unfold add_cookie.
  destruct (Py.has_char "=" (Py.strip item)); [|exact H].
  pose proof (split1_fst "=" (Py.strip item)) as K.
  destruct (Py.split1 "=" (Py.strip item)) as [key value]. cbn [fst] in K.
  apply dict_set_pairs; [|exact H].
  unfold cookie_stored. cbn [fst snd].
  now rewrite !stripped_strip, (has_char_strip _ _ K).
Qed.

Lemma add_cookie_nodup (cookies : dict string string) (item : string) :
  NoDup (dict_keys cookies) -> NoDup (dict_keys (add_cookie cookies item)).
Proof.
  intros H. unfold add_cookie.
  destruct (Py.has_char "=" (Py.strip item)); [|exact H].
  destruct (Py.split1 "=" (Py.strip item)) as [key value].
  now apply dict_set_nodup.
Qed.

(** X3.  Whatever the cookie string, the mapping read from it holds no
    name twice, every name and every value is free of whitespace at both
    ends, and no name holds an equals sign. *)
Theorem cookies_stored_clean (cookie_string : string) :
  NoDup (dict_keys (parse_cookies cookie_string))
  /\ Forall (fun kv => cookie_stored kv = true) (parse_cookies cookie_string).
Proof.
  unfold parse_cookies.
  assert (G : forall items acc,
             NoDup (dict_keys acc) ->
             Forall (fun kv => cookie_stored kv = true) acc ->
             NoDup (dict_keys (fold_left add_cookie items acc))
             /\ Forall (fun kv => cookie_stored kv = true)
                       (fold_left add_cookie items acc)).
  { induction items as [|item items IH]; intros acc N F; simpl; auto.
    apply IH; [now apply add_cookie_nodup | now apply add_cookie_stored]. }
  apply G; constructor.
Qed.

(** X4.  A pair that comes later in the cookie string wins over an
    earlier pair of the same name, and leaves every other name with the
    value it had. *)
Theorem cookies_last_pair_wins (cookie_string : string)
        (kv : string * string) (H : cookie_ok kv = true) :
  let cookies := parse_cookies (cookie_string ++ "; " ++ cookie_item kv) in
  dict_get (fst kv) cookies = Some (snd kv)
  /\ forall k, k <> fst kv ->
               dict_get k cookies = dict_get k (parse_cookies cookie_string).
Proof.
  cbv zeta.
  change (cookie_string ++ "; " ++ cookie_item kv)
    with (cookie_string ++ String ";" (" " ++ cookie_item kv)).
  rewrite parse_cookies_snoc.
  - rewrite (proj2 (add_cookie_item _ kv H)). split.
    + apply dict_get_set_same.
    + intros k N. now apply dict_get_set_other.
  - cbn [String.append Py.has_char]. now rewrite cookie_item_no_semicolon.
Qed.

Lemma cookies_last_pair_wins_witness :
  cookie_ok ("sid", "new") = true
  /\ dict_get "sid"
       (parse_cookies ("sid=old; lang=en" ++ "; " ++ cookie_item ("sid", "new")))
     = Some "new".
Proof.
  split; [reflexivity|].
  destruct (cookies_last_pair_wins "sid=old; lang=en" ("sid", "new") eq_refl)
    as [H _].
  exact H.
Defined.

Lemma join_snoc (sep x : string) (l : list string) :
  Py.join sep (l ++ [x])%list
  = match l with [] => x | _ => Py.join sep l ++ sep ++ x end.
Proof.
  induction l as [|y l IH]; [reflexivity|].
  change ((y :: l) ++ [x])%list with (y :: (l ++ [x]))%list.
  rewrite join_cons, IH. destruct l as [|z l]; [reflexivity|].
  cbn [app]. rewrite join_cons with (l := z :: l).
  now rewrite !append_assoc.
Qed.

(** X5.  Reading is the inverse of writing: a mapping whose names are
    distinct and whose names and values are plain (no whitespace at the
    ends, no semicolon, no equals sign in a name), written as a cookie
    header, is read back as the same mapping, in the same order. *)
Theorem cookies_round_trip (d : dict string string)
        (Hk : NoDup (dict_keys d))
        (Hd : Forall (fun kv => cookie_ok kv = true) d) :
  parse_cookies (cookie_header d) = d.
Proof.
  induction d as [|kv d IH] using rev_ind; [reflexivity|].
  apply Forall_app in Hd as [Hd Hkv].
  inversion Hkv as [|? ? Hok _]; subst.
  unfold dict_keys in Hk. rewrite List.map_app in Hk. cbn [map] in Hk.
  apply NoDup_remove in Hk as [Hk Hn]. rewrite List.app_nil_r in Hk, Hn.
  specialize (IH Hk Hd).
  unfold cookie_header. rewrite List.map_app. cbn [map]. rewrite join_snoc.
  destruct d as [|kv' d].
  - cbn [map]. unfold parse_cookies.
    rewrite split_no_sep by (now apply cookie_item_no_semicolon).
    cbn [fold_left]. rewrite (proj1 (add_cookie_item _ kv Hok)).
    now destruct kv.
  - cbn [map].
    change (Py.join "; " (cookie_item kv' :: map cookie_item d))
      with (cookie_header (kv' :: d)).
    change ("; " ++ cookie_item kv) with (String ";" (" " ++ cookie_item kv)).
    rewrite parse_cookies_snoc.
    + rewrite IH, (proj2 (add_cookie_item _ kv Hok)).
      rewrite dict_set_fresh_snoc by exact Hn. now destruct kv.
    + cbn [String.append Py.has_char]. now rewrite cookie_item_no_semicolon.
Qed.

Lemma cookies_round_trip_witness :
  NoDup (dict_keys [("sid", "a=b"); ("", "x"); ("lang", "")])
  /\ Forall (fun kv => cookie_ok kv = true)
            [("sid", "a=b"); ("", "x"); ("lang", "")]
  /\ cookie_header [("sid", "a=b"); ("", "x"); ("lang", "")]
     = "sid=a=b; =x; lang="
  /\ parse_cookies "sid=a=b; =x; lang="
     = [("sid", "a=b"); ("", "x"); ("lang", "")].
Proof.
  assert (Hk : NoDup (dict_keys [("sid", "a=b"); ("", "x"); ("lang", "")])).
  { repeat constructor; simpl; intuition discriminate. }
  assert (Hd : Forall (fun kv => cookie_ok kv = true)
                      [("sid", "a=b"); ("", "x"); ("lang", "")])
    by (repeat constructor).
  split; [exact Hk|]. split; [exact Hd|]. split; [reflexivity|].
  exact (cookies_round_trip [("sid", "a=b"); ("", "x"); ("lang", "")] Hk Hd).
Defined.

End CookieFacts.

(** ** The linked-data blocks *)
Section BlockFacts.
Import Bs4.
Variable json_decode : string -> result json.

(** An exception that leaves a loop was raised by one of its rounds. *)
Lemma for_each_raises {A : Type} (P : exn -> Prop) (f : A -> M unit)
      (l : list A) :
  (forall x st st' e, In x l -> f x st = (st', Raise e) -> P e) ->
  forall st st' e, for_each f l st = (st', Raise e) -> P e.
Proof.
  induction l as [|a l IH]; intros Hf st st' e; simpl.
  - unfold ret. discriminate.
  - unfold bind. destruct (f a st) as [st1 [[]|e1]] eqn:E.
    + apply IH. intros x s s' e' Hx. apply Hf. now right.
    + intros [= <- <-]. eapply Hf; [left; reflexivity | exact E].
Qed.

(** A round that always raises makes the loop raise, be it in that
    round or in an earlier one. *)
Lemma for_each_reaches {A : Type} (f : A -> M unit) (l : list A) (x : A) :
  In x l ->
  (forall st, exists e, snd (f x st) = Raise e) ->
  forall st, exists e, snd (for_each f l st) = Raise e.
Proof.
  intros Hin Hx. induction l as [|a l IH]; [destruct Hin|].
  intros st. simpl. unfold bind.
  destruct (f a st) as [st1 [[]|e]] eqn:E; simpl in *.
  - destruct Hin as [->|Hin]; [|now apply IH].
    destruct (Hx st) as [e He]. rewrite E in He. discriminate He.
  - now exists e.
Qed.

Lemma ld_record_dict (d : dict str json) :
  exists s, ld_record (JDict d) = Ok s.
Proof.
  unfold ld_record. cbn [item_get].
  destruct (dict_get "location"%text d) as [[]|]; cbn [is_dict item_get];
    eauto.
Qed.

Lemma ld_item_dict (d : dict str json) (st : list sighting) :
  exists s, ld_record (JDict d) = Ok s
            /\ ld_item (JDict d) st
               = ((st ++ if dict_mem "name"%text d then [s] else [])%list,
                  Ok tt).
Proof.
  destruct (ld_record_dict d) as [s Hs]. exists s. split; [exact Hs|].
  unfold ld_item, bind, lift, append, ret. cbn [name_in]. rewrite Hs.
  destruct (dict_mem "name"%text d);
    [reflexivity | now rewrite List.app_nil_r].
Qed.

Lemma ld_item_raises (item : json) (st st' : list sighting) (e : exn) :
  ld_item item st = (st', Raise e) -> e = TypeError \/ e = AttributeError.
Proof.
  destruct item as [| | | |s|l|d];
    try (unfold ld_item, bind, lift; cbn [name_in]; intros [= <- <-]; now left).
  - unfold ld_item, bind, lift, append, ret. cbn [name_in ld_record item_get].
    destruct (Text.contains "name" s); intros [= <- <-]. now right.
  - unfold ld_item, bind, lift, append, ret. cbn [name_in ld_record item_get].
    destruct (existsb _ l); intros [= <- <-]. now right.
  - destruct (ld_item_dict d st) as (s & _ & ->). discriminate.
Qed.

(** What the handler of a block lets through: the [TypeError] of a
    missing payload or of an item that is no container, and whatever
    the decoder raised on the text of the block that is neither a
    [JSONDecodeError] nor an [AttributeError]. *)
Lemma ld_script_cause (script : node) (st st' : list sighting) (e : exn) :
  ld_script json_decode script st = (st', Raise e) ->
  e = TypeError
  \/ exists s, string_of script = Some s /\ json_decode s = Raise e
               /\ ld_handled e = false.
Proof.
  unfold ld_script, try_except.
  match goal with |- context [match ?b st with _ => _ end] =>
    destruct (b st) as [st1 [[]|e1]] eqn:E
  end; [discriminate|].
  destruct (ld_handled e1) eqn:Hh; [discriminate|].
  intros [= <- <-].
  unfold bind, lift, json_loads in E.
  destruct (string_of script) as [s|]; [|injection E as <- <-; now left].
  destruct (json_decode s) as [data|e2] eqn:D.
  - left. destruct data; try (unfold ret in E; discriminate E).
    apply (for_each_raises (fun e => e = TypeError \/ e = AttributeError))
      in E.
    + destruct E as [->| ->]; [reflexivity | discriminate Hh].
    + intros x s0 s1 e0 _ H. now apply ld_item_raises in H.
  - injection E as <- <-. right. now exists s.
Qed.

Lemma extract_sightings_generic_cause (soup : node) (e : exn) :
  extract_sightings_generic json_decode soup = Raise e ->
  e = TypeError
  \/ exists script s,
      In script (ld_scripts soup) /\ string_of script = Some s
      /\ json_decode s = Raise e /\ ld_handled e = false.
Proof.
  unfold extract_sightings_generic.
  destruct (for_each _ _ _) as [st [[]|e1]] eqn:E; [discriminate|].
  intros [= <-].
  apply (for_each_raises
           (fun e => e = TypeError
                     \/ exists script s,
                         In script (ld_scripts soup)
                         /\ string_of script = Some s
                         /\ json_decode s = Raise e /\ ld_handled e = false))
    in E; [exact E|].
  intros x s0 s1 e0 Hx H.
  apply ld_script_cause in H as [->|(s & Hs & Hd & Hh)]; [now left|].
  right. now exists x, s.
Qed.

Lemma parse_soup_cause (soup : node) (e : exn) :
  parse_soup json_decode soup = Raise e ->
  row_sightings (obs_rows (content soup)) = []
  /\ (e = TypeError
      \/ exists script s,
          In script (ld_scripts soup) /\ string_of script = Some s
          /\ json_decode s = Raise e /\ ld_handled e = false).
Proof.
  rewrite parse_soup_cases.
  destruct (row_sightings _); [|discriminate].
  intros H. split; [reflexivity|].
  now apply extract_sightings_generic_cause.
Qed.

(** A block that raises whatever the list holds makes the fallback
    raise. *)
Lemma raising_block_aborts (soup script : node) :
  In script (ld_scripts soup) ->
  (forall st, exists e, snd (ld_script json_decode script st) = Raise e) ->
  exists e, extract_sightings_generic json_decode soup = Raise e.
Proof.
  intros Hin Hx. unfold extract_sightings_generic.
  destruct (for_each_reaches (ld_script json_decode) (ld_scripts soup)
              script Hin Hx []) as [e H].
  destruct (for_each _ _ _) as [st [[]|e']]; simpl in H;
    [discriminate H | now exists e'].
Qed.

(** The loop over a list of objects: nothing is raised, and the objects
    that have a name give one record each, in order. *)
Lemma for_each_dicts (items : list json) (st : list sighting) :
  Forall (fun i => is_dict i = true) items ->
  exists recs,
    for_each ld_item items st = ((st ++ recs)%list, Ok tt)
    /\ Forall2 (fun i r => ld_record i = Ok r) (filter has_name items) recs.
Proof.
  intros H. revert st. induction H as [|item items Hi _ IH]; intros st.
  - exists []. simpl. unfold ret. now rewrite List.app_nil_r.
  - destruct item as [| | | | | |d]; try discriminate Hi.
    destruct (ld_item_dict d st) as (s & Hs & E).
    destruct (IH (st ++ if dict_mem "name"%text d then [s] else [])%list)
      as (recs & E' & F).
    exists ((if dict_mem "name"%text d then [s] else []) ++ recs)%list. split.
    + simpl. unfold bind. rewrite E, E'. now rewrite List.app_assoc.
    + cbn [filter]. unfold has_name at 1. cbn [name_in].
      destruct (dict_mem "name"%text d); [constructor; auto | exact F].
Qed.

Lemma ld_script_list (script : node) (s : string) (items : list json)
      (st : list sighting) :
  string_of script = Some s -> json_decode s = Ok (JList items) ->
  ld_script json_decode script st
  = match for_each ld_item items st with
    | (st', Raise e) => if ld_handled e then (st', Ok tt) else (st', Raise e)
    | r => r
    end.
Proof.
  intros Hs Hd. unfold ld_script, try_except, bind, lift, json_loads.
  now rewrite Hs, Hd.
Qed.

End BlockFacts.

Section BlockTheorems.
Import Bs4.
Implicit Types (json_decode : string -> result json)
         (BeautifulSoup : string -> result node).



(** X7.  When no row yields a sighting, one linked-data block without
    a single string for its payload, wherever it stands among the
    blocks, makes the whole extraction end in an exception, and the
    records of every other block are lost.  The exception is the
    [TypeError] of that block, unless an earlier block ended the
    extraction before: with a [TypeError] of its own, or with what the
    decoder raised on its text. *)
Theorem block_without_payload_aborts json_decode (soup script : node)
        (Hrows : row_sightings (obs_rows (content soup)) = [])
        (Hin : In script (ld_scripts soup))
        (Hs : string_of script = None) :
  exists e,
    parse_soup json_decode soup = Raise e
    /\ (e = TypeError
        \/ exists script' s,
            In script' (ld_scripts soup) /\ string_of script' = Some s
            /\ json_decode s = Raise e /\ ld_handled e = false).
Proof.
  assert (G : exists e, parse_soup json_decode soup = Raise e).
  { rewrite parse_soup_cases, Hrows.
    apply (raising_block_aborts json_decode soup script Hin).
    intros st. exists TypeError.
    unfold ld_script, try_except, bind, lift, json_loads.
    now rewrite Hs. }
  destruct G as [e G]. exists e. split; [exact G|].
  exact (proj2 (parse_soup_cause json_decode soup e G)).
Qed.

Lemma block_without_payload_aborts_witness :
  row_sightings (obs_rows (content Sample.page_empty_block)) = []
  /\ In Sample.ld_empty (ld_scripts Sample.page_empty_block)
  /\ string_of Sample.ld_empty = None
  /\ exists e, parse_soup Sample.loads Sample.page_empty_block = Raise e.
Proof.
  assert (H1 : row_sightings (obs_rows (content Sample.page_empty_block)) = [])
    by (vm_compute; reflexivity).
  assert (H2 : In Sample.ld_empty (ld_scripts Sample.page_empty_block))
    by (vm_compute; tauto).
  split; [exact H1|]. split; [exact H2|]. split; [reflexivity|].
  destruct (block_without_payload_aborts Sample.loads Sample.page_empty_block
              Sample.ld_empty H1 H2 eq_refl) as (e & He & _).
  now exists e.
Defined.

(** X8.  A number, a boolean or [null] among the items of a block,
    after items that are objects, has the same effect: the membership
    test on it raises a [TypeError], and the extraction ends in an
    exception, that one unless an earlier block ended it before. *)
Theorem scalar_item_aborts json_decode (soup script : node) (s : string)
        (pre post : list json) (x : json)
        (Hrows : row_sightings (obs_rows (content soup)) = [])
        (Hin : In script (ld_scripts soup))
        (Hs : string_of script = Some s)
        (Hd : json_decode s = Ok (JList (pre ++ x :: post)))
        (Hpre : Forall (fun i => is_dict i = true) pre)
        (Hx : name_in x = Raise TypeError) :
  exists e,
    parse_soup json_decode soup = Raise e
    /\ (e = TypeError
        \/ exists script' s',
            In script' (ld_scripts soup) /\ string_of script' = Some s'
            /\ json_decode s' = Raise e /\ ld_handled e = false).
Proof.
  assert (G : exists e, parse_soup json_decode soup = Raise e).
  { rewrite parse_soup_cases, Hrows.
    apply (raising_block_aborts json_decode soup script Hin).
    intros st. exists TypeError.
    rewrite (ld_script_list json_decode script s _ st Hs Hd).
    rewrite for_each_app.
    destruct (for_each_dicts pre st Hpre) as (recs & -> & _).
    simpl. unfold bind at 1. unfold ld_item at 1, bind, lift. rewrite Hx.
    reflexivity. }
  destruct G as [e G]. exists e. split; [exact G|].
  exact (proj2 (parse_soup_cause json_decode soup e G)).
Qed.

Lemma scalar_item_aborts_witness :
  let soup := Sample.page [Sample.ld Blocks.with_number] in
  row_sightings (obs_rows (content soup)) = []
  /\ In (Sample.ld Blocks.with_number) (ld_scripts soup)
  /\ Sample.loads Blocks.with_number
     = Ok (JList ([Blocks.obj "Snowy Owl"] ++ JInt 5
                    :: [Blocks.obj "Gyrfalcon"]))
  /\ exists e, parse_soup Sample.loads soup = Raise e.
Proof.
  cbv zeta.
  assert (H1 : row_sightings
                 (obs_rows (content (Sample.page [Sample.ld Blocks.with_number])))
               = []) by (vm_compute; reflexivity).
  assert (H2 : In (Sample.ld Blocks.with_number)
                  (ld_scripts (Sample.page [Sample.ld Blocks.with_number])))
    by (vm_compute; tauto).
  assert (H3 : Sample.loads Blocks.with_number
               = Ok (JList ([Blocks.obj "Snowy Owl"] ++ JInt 5
                              :: [Blocks.obj "Gyrfalcon"])))
    by (vm_compute; reflexivity).
  assert (F : Forall (fun i => is_dict i = true) [Blocks.obj "Snowy Owl"])
    by (repeat constructor).
  split; [exact H1|]. split; [exact H2|]. split; [exact H3|].
  destruct (scalar_item_aborts Sample.loads
              (Sample.page [Sample.ld Blocks.with_number])
              (Sample.ld Blocks.with_number) Blocks.with_number
              [Blocks.obj "Snowy Owl"] [Blocks.obj "Gyrfalcon"] (JInt 5)
              H1 H2 eq_refl H3 F eq_refl) as (e & He & _).
  now exists e.
Defined.

(** X9.  A string among the items that holds the text "name" ends the
    block without a trace: the attribute error of its missing [get] is
    caught, the items before it have given their records, the items
    after it are never looked at. *)
Theorem string_item_ends_block json_decode (script : node) (s : string)
        (t : str) (pre post : list json) (st : list sighting)
        (Hs : string_of script = Some s)
        (Hd : json_decode s = Ok (JList (pre ++ JStr t :: post)))
        (Hpre : Forall (fun i => is_dict i = true) pre)
        (Ht : Text.contains "name" t = true) :
  ld_script json_decode script st = for_each ld_item pre st.
Proof.
  rewrite (ld_script_list json_decode script s _ st Hs Hd), for_each_app.
  destruct (for_each_dicts pre st Hpre) as (recs & -> & _).
  simpl. unfold bind at 1. unfold ld_item at 1, bind, lift, append.
  cbn [name_in ld_record item_get]. rewrite Ht. reflexivity.
Qed.

Lemma string_item_ends_block_witness :
  Sample.loads Blocks.with_string
  = Ok (JList ([Blocks.obj "Snowy Owl"] ++ JStr "unnamed"
                 :: [Blocks.obj "Gyrfalcon"]))
  /\ Text.contains "name" "unnamed" = true
  /\ ld_script Sample.loads (Sample.ld Blocks.with_string) []
     = for_each ld_item [Blocks.obj "Snowy Owl"] []
  /\ for_each ld_item [Blocks.obj "Snowy Owl"] []
     = ([Sample.record (JStr "Snowy Owl")], Ok tt).
Proof.
  assert (H : Sample.loads Blocks.with_string
              = Ok (JList ([Blocks.obj "Snowy Owl"] ++ JStr "unnamed"
                             :: [Blocks.obj "Gyrfalcon"])))
    by (vm_compute; reflexivity).
  assert (F : Forall (fun i => is_dict i = true) [Blocks.obj "Snowy Owl"])
    by (repeat constructor).
  split; [exact H|]. split; [reflexivity|]. split; [|reflexivity].
  exact (string_item_ends_block Sample.loads (Sample.ld Blocks.with_string)
           Blocks.with_string "unnamed" [Blocks.obj "Snowy Owl"]
           [Blocks.obj "Gyrfalcon"] [] eq_refl H F eq_refl).
Defined.

(** X10.  A block that is a list of objects raises nothing and gives
    one record for each object that has the key [name], in the order of
    the list, after the records already found; the objects without the
    key are passed over. *)
Theorem block_of_objects json_decode (script : node) (s : string)
        (items : list json) (st : list sighting)
        (Hs : string_of script = Some s)
        (Hd : json_decode s = Ok (JList items))
        (Hitems : Forall (fun i => is_dict i = true) items) :
  exists recs,
    ld_script json_decode script st = ((st ++ recs)%list, Ok tt)
    /\ Forall2 (fun i r => ld_record i = Ok r) (filter has_name items) recs.
Proof.
  rewrite (ld_script_list json_decode script s _ st Hs Hd).
  destruct (for_each_dicts items st Hitems) as (recs & -> & F).
  now exists recs.
Qed.

Lemma block_of_objects_witness :
  Sample.loads Blocks.objects
  = Ok (JList [Blocks.obj "Snowy Owl"; JDict []; Blocks.obj "Gyrfalcon"])
  /\ filter has_name [Blocks.obj "Snowy Owl"; JDict []; Blocks.obj "Gyrfalcon"]
     = [Blocks.obj "Snowy Owl"; Blocks.obj "Gyrfalcon"]
  /\ exists recs,
      ld_script Sample.loads (Sample.ld Blocks.objects) []
      = (([] ++ recs)%list, Ok tt)
      /\ Forall2 (fun i r => ld_record i = Ok r)
                 (filter has_name
                    [Blocks.obj "Snowy Owl"; JDict []; Blocks.obj "Gyrfalcon"])
                 recs.
Proof.
  assert (H : Sample.loads Blocks.objects
              = Ok (JList [Blocks.obj "Snowy Owl"; JDict [];
                           Blocks.obj "Gyrfalcon"]))
    by (vm_compute; reflexivity).
  assert (F : Forall (fun i => is_dict i = true)
                     [Blocks.obj "Snowy Owl"; JDict []; Blocks.obj "Gyrfalcon"])
    by (repeat constructor).
  split; [exact H|]. split; [reflexivity|].
  exact (block_of_objects Sample.loads (Sample.ld Blocks.objects)
           Blocks.objects
           [Blocks.obj "Snowy Owl"; JDict []; Blocks.obj "Gyrfalcon"] []
           eq_refl H F).
Defined.

(** X11.  A block that decodes to anything but a list (a single object,
    the common form of linked data, among them) contributes nothing and
    can be dropped from the page. *)
Theorem block_not_a_list_ignored json_decode (pre post : list node)
        (script : node) (s : string) (v : json) (st : list sighting)
        (Hs : string_of script = Some s)
        (Hd : json_decode s = Ok v)
        (Hv : not_a_list v = true) :
  for_each (ld_script json_decode) (pre ++ script :: post)%list st
  = for_each (ld_script json_decode) (pre ++ post)%list st.
Proof.
  assert (E : forall st', ld_script json_decode script st' = (st', Ok tt)).
  { intros st'. unfold ld_script, try_except, bind, lift, json_loads.
    rewrite Hs, Hd. now destruct v. }
  rewrite !for_each_app.
  destruct (for_each _ pre st) as [st' [[]|e]]; auto.
  simpl. unfold bind at 1. now rewrite E.
Qed.

Lemma block_not_a_list_ignored_witness :
  Sample.loads (Blocks.named_obj "Snowy Owl") = Ok (Blocks.obj "Snowy Owl")
  /\ for_each (ld_script Sample.loads)
       ([] ++ Sample.ld (Blocks.named_obj "Snowy Owl")
           :: [Sample.ld Blocks.objects])%list []
     = for_each (ld_script Sample.loads)
                ([] ++ [Sample.ld Blocks.objects])%list [].
Proof.
  assert (H : Sample.loads (Blocks.named_obj "Snowy Owl")
              = Ok (Blocks.obj "Snowy Owl")) by (vm_compute; reflexivity).
  split; [exact H|].
  exact (block_not_a_list_ignored Sample.loads []
           [Sample.ld Blocks.objects]
           (Sample.ld (Blocks.named_obj "Snowy Owl"))
           (Blocks.named_obj "Snowy Owl") (Blocks.obj "Snowy Owl") []
           eq_refl H eq_refl).
Defined.

End BlockTheorems.

(** ** A run as a whole *)
Section RunTheorems.
Import Bs4.
Implicit Types (json_decode : string -> result json)
         (BeautifulSoup : string -> result node)
         (float_repr : spec_float -> str) (repr : json -> str).

(** X12.  The output directory is touched only by a run that has
    fetched a page with status 200 and parsed it: a run that ends
    before leaves the disk as it was.  What such a run does to the disk
    it does in a fixed order: it creates the directory, opens data.json,
    writes the report to it, opens index.html, writes the page to it.  A
    run that ends normally has done all five; a run that ends in an
    exception has done the first few of the first four, so that it may
    leave data.json or index.html opened and not written. *)
Theorem output_only_on_success json_decode BeautifulSoup float_repr repr
        (w : world) :
  let log := fst (run json_decode BeautifulSoup float_repr repr w) in
  match snd (run json_decode BeautifulSoup float_repr repr w) with
  | Ok _ =>
      exists r ss page,
        session_get w ALERT_URL (parse_cookies (cookie_string w))
                    request_headers 30 = Ok r
        /\ status_code r = 200
        /\ parse_alerts json_decode BeautifulSoup (text r) = Ok ss
        /\ html_content repr w (report w ss) = Ok page
        /\ filter touches_disk log
           = (disk_steps float_repr w ss
              ++ [WriteFile ((base_dir w ++ "/docs") ++ "/index.html")
                            page])%list
  | Raise _ =>
      filter touches_disk log = []
      \/ exists r ss n,
          session_get w ALERT_URL (parse_cookies (cookie_string w))
                      request_headers 30 = Ok r
          /\ status_code r = 200
          /\ parse_alerts json_decode BeautifulSoup (text r) = Ok ss
          /\ filter touches_disk log = firstn n (disk_steps float_repr w ss)
  end.
Proof.
  cbv zeta. rewrite run_cases.
  destruct (negb (Py.truthy (cookie_string w))); [now left|].
  destruct (session_get w _ _ _ _) as [r|e] eqn:Hr; [|now left].
  destruct (Nat.eqb (status_code r) 200) eqn:Hs; cbn [negb].
  2:{ left. cbn [fst]. unfold failure_log.
      destruct (Py.contains "login" _); reflexivity. }
  apply Nat.eqb_eq in Hs. cbv zeta.
  destruct (parse_alerts json_decode BeautifulSoup (text r)) as [ss|e] eqn:E;
    [|now left].
  rewrite output_of_cases. cbv zeta. unfold output_log, disk_steps.
  destruct (os_error w (MakeDirs _)); [now left|].
  destruct (os_error w (OpenToWrite (_ ++ "/data.json")));
    [right; exists r, ss, 1; repeat split; try assumption; try reflexivity|].
  destruct (os_error w (WriteTo (_ ++ "/data.json")));
    [right; exists r, ss, 2; repeat split; try assumption; try reflexivity|].
  destruct (Json.dump_error _ _);
    [right; exists r, ss, 2; repeat split; try assumption; try reflexivity|].
  destruct (html_content repr w _) as [page|] eqn:Hh;
    [|right; exists r, ss, 3; repeat split; try assumption; try reflexivity].
  destruct (os_error w (OpenToWrite (_ ++ "/index.html")));
    [right; exists r, ss, 3; repeat split; try assumption; try reflexivity|].
  destruct (Text.encodable page);
    [|right; exists r, ss, 4; repeat split; try assumption; try reflexivity].
  destruct (os_error w (WriteTo (_ ++ "/index.html")));
    [right; exists r, ss, 4; repeat split; try assumption; try reflexivity|].
  exists r, ss, page. repeat split; try assumption; try reflexivity.
Qed.

(** X13.  A run makes one request when the cookie variable is not
    empty and none when it is: there is no second attempt, whatever the
    answer, and the request goes to the alert URL with the cookies read
    from the variable. *)
Theorem one_request_per_run json_decode BeautifulSoup float_repr repr
        (w : world) :
  filter is_get (fst (run json_decode BeautifulSoup float_repr repr w))
  = if Py.truthy (cookie_string w)
    then [Get ALERT_URL (parse_cookies (cookie_string w))]
    else [].
Proof.
  assert (G : forall l, forallb (fun e => negb (is_get e)) l = true ->
                        filter is_get l = []).
  { induction l as [|x l IH]; [reflexivity|]. cbn [forallb filter].
    intros H. apply andb_true_iff in H as [H1 H2].
    apply negb_true_iff in H1. rewrite H1. auto. }
  rewrite run_cases.
  destruct (Py.truthy (cookie_string w)); [|reflexivity]. cbn [negb].
  destruct (session_get w _ _ _ _) as [r|e]; [|reflexivity].
  destruct (negb (Nat.eqb (status_code r) 200)).
  - unfold failure_log. destruct (Py.contains "login" _); reflexivity.
  - cbv zeta. destruct (parse_alerts _ _ _) as [ss|e]; [|reflexivity].
    cbn [fst]. rewrite !List.filter_app.
    rewrite (G _ (output_no_get float_repr repr w ss)). reflexivity.
Qed.

(** X26.  When the answer of the request has a status other than 200,
    the program prints the status code and exits with status 1 after
    that one request; when moreover the URL of the answer contains
    "login" (in any case of letters), the line that the cookies may
    have expired is printed before it exits.  An answer of status 200
    is returned as the page text whatever its URL. *)
Theorem fetch_failure_is_fatal json_decode BeautifulSoup float_repr repr
        (w : world) (r : response)
        (Hc : cookie_string w <> "")
        (Hr : session_get w ALERT_URL (parse_cookies (cookie_string w))
                          request_headers 30 = Ok r) :
  (status_code r <> 200 ->
   run json_decode BeautifulSoup float_repr repr w
   = ((fetch_log w
       ++ Print ("ERROR: Failed to fetch alerts. Status code: "
                 ++ Py.str_of_nat (status_code r))
       :: (if Py.contains "login" (Py.lower (url r))
           then [Print "ERROR: Redirected to login page. Cookies may have expired."]
           else []))%list,
      Raise (SystemExit 1)))
  /\ (status_code r = 200 ->
      forall log,
        fetch_alerts w (parse_cookies (cookie_string w)) log
        = ((log ++ [Get ALERT_URL (parse_cookies (cookie_string w))])%list,
           Ok (text r))).
Proof.
  split.
  - intros Hs. rewrite run_cases, Hr.
    destruct (Py.truthy (cookie_string w)) eqn:T;
      [|apply truthy_empty in T; contradiction].
    apply Nat.eqb_neq in Hs. rewrite Hs. reflexivity.
  - intros Hs log.
    unfold fetch_alerts, io_bind, emit, io_ret. rewrite Hr, Hs. reflexivity.
Qed.

Lemma fetch_failure_witness :
  let w := Sample.world_of (Some "a=b") (Ok Sample.login_redirect) in
  let r := run Sample.loads (Sample.always (Sample.page []))
               Sample.no_floats Sample.no_repr w in
  cookie_string w <> ""
  /\ status_code Sample.login_redirect <> 200
  /\ exit_status (snd r) = 1
  /\ In (Print "ERROR: Redirected to login page. Cookies may have expired.")
        (fst r).
Proof.
  cbv zeta.
  assert (Hc : cookie_string
                 (Sample.world_of (Some "a=b") (Ok Sample.login_redirect))
               <> "") by (vm_compute; discriminate).
  assert (Hs : status_code Sample.login_redirect <> 200)
    by (vm_compute; discriminate).
  split; [exact Hc|]. split; [exact Hs|].
  rewrite (proj1 (fetch_failure_is_fatal Sample.loads
                    (Sample.always (Sample.page []))
                    Sample.no_floats Sample.no_repr _ _ Hc eq_refl) Hs).
  split; [reflexivity|].
  cbn [fst]. apply in_or_app. right. right. vm_compute. left; reflexivity.
Defined.

End RunTheorems.

(** ** The record extractor: the other fields, nesting *)
Section ExtractorFacts.
Import Bs4.

Lemma location_elem_first (element : node) :
  location_elem element = hd_error (location_guesses element).
Proof.
  unfold location_elem, location_guesses.
  rewrite (find_first _ _ element (matches_any_class "location")).
  rewrite (find_first _ _ element (matches_link "/hotspot/")).
  now rewrite or_else_hd.
Qed.

Lemma observer_elem_first (element : node) :
  observer_elem element = hd_error (observer_guesses element).
Proof.
  unfold observer_elem, observer_guesses.
  rewrite (find_first _ _ element (matches_any_class "observer")).
  rewrite (find_first _ _ element (matches_link "/profile/")).
  now rewrite or_else_hd.
Qed.

Lemma date_elem_first (element : node) :
  date_elem element = hd_error (date_guesses element).
Proof.
  unfold date_elem, date_guesses.
  now rewrite (find_first _ _ element (matches_any_class "date")).
Qed.

Lemma first_text_hd (l : list node) :
  first_text l
  = JStr (Text.wide match hd_error l with
                    | Some x => get_text_strip x
                    | None => ""
                    end).
Proof. now destruct l. Qed.

(** The four text fields as the elements found give them. *)
Lemma text_fields (element : node) :
  let text_of e := Some (JStr (Text.wide match e with
                                         | Some x => get_text_strip x
                                         | None => ""
                                         end)) in
  dict_get "species"%text (extract_sighting_data element)
  = text_of (species_elem element)
  /\ dict_get "location"%text (extract_sighting_data element)
     = text_of (location_elem element)
  /\ dict_get "date"%text (extract_sighting_data element)
     = text_of (date_elem element)
  /\ dict_get "observer"%text (extract_sighting_data element)
     = text_of (observer_elem element)
  /\ dict_get "count"%text (extract_sighting_data element) = Some (JStr "").
Proof.
  cbv zeta. unfold extract_sighting_data.
  destruct (species_elem element), (location_elem element),
    (date_elem element), (observer_elem element), (checklist_link element);
    repeat split; reflexivity.
Qed.

(** X15.  The fields beside the species.  The location is the text of
    the first tag whose class contains "location", else of the first
    link to a hotspot; the observer the text of the first tag whose
    class contains "observer", else of the first link to a profile; the
    date the text of the first tag whose class contains "date"; each
    the empty string when nothing is found.  The count is never filled
    in: it is the empty string for every fragment. *)
Theorem other_fields_first_guess (element : node) :
  dict_get "location"%text (extract_sighting_data element)
  = Some (first_text (location_guesses element))
  /\ dict_get "date"%text (extract_sighting_data element)
     = Some (first_text (date_guesses element))
  /\ dict_get "observer"%text (extract_sighting_data element)
     = Some (first_text (observer_guesses element))
  /\ dict_get "count"%text (extract_sighting_data element) = Some (JStr "").
Proof.
  destruct (text_fields element) as (_ & Hl & Hd & Ho & Hc).
  rewrite !first_text_hd, <- location_elem_first, <- date_elem_first,
    <- observer_elem_first.
  auto.
Qed.

Lemma strip_truthy_nonempty (s : string) :
  Py.truthy s = true -> s <> "".
Proof. destruct s; [discriminate | discriminate]. Qed.

Lemma stripped_strings_clean (n : node) :
  Forall (fun t => stripped t = true /\ t <> "") (stripped_strings n).
Proof.
  destruct n as [nm c a cs|k s]; [|constructor].
  unfold stripped_strings.
  induction (descendants (Tag nm c a cs)) as [|d ds IH]; [constructor|].
  cbn [flat_map]. apply Forall_app; split; [|exact IH].
  destruct d as [|k s]; [constructor|].
  destruct (interesting nm k); [|constructor].
  destruct (Py.truthy (Py.strip s)) eqn:T; [|constructor].
  constructor; [|constructor].
  split; [apply stripped_strip | now apply strip_truthy_nonempty].
Qed.

Lemma concat_stripped (l : list string) :
  Forall (fun t => stripped t = true /\ t <> "") l ->
  stripped (String.concat "" l) = true.
Proof.
  induction 1 as [|x l [Hs Hn] _ IH]; [reflexivity|].
  cbn [String.concat]. destruct l as [|y l]; [exact Hs|].
  change ("" ++ String.concat "" (y :: l)) with (String.concat "" (y :: l)).
  now apply stripped_app.
Qed.

Lemma get_text_strip_stripped (n : node) : stripped (get_text_strip n) = true.
Proof. apply concat_stripped, stripped_strings_clean. Qed.

(** X16.  The species, location, date and observer of a record taken
    from a fragment never start or end with whitespace, whatever the
    markup around the text. *)
Theorem text_fields_stripped (element : node) :
  Forall (fun k => exists t,
              dict_get k (extract_sighting_data element)
              = Some (JStr (Text.wide t))
              /\ stripped t = true)
         ["species"; "location"; "date"; "observer"]%text.
Proof.
  destruct (text_fields element) as (Hs & Hl & Hd & Ho & _).
  assert (G : forall e : option node,
             stripped match e with
                      | Some x => get_text_strip x
                      | None => ""
                      end = true)
    by (intros [x|]; [apply get_text_strip_stripped | reflexivity]).
  repeat constructor; eexists; (split; [eassumption | apply G]).
Qed.

(** Strings are never found and hold nothing: a search below a tag sees
    the tags among its contents and what is below them. *)
Lemma filter_matches_tags (c : criteria) (cs : list node) :
  filter (matches c) (flat_map (fun x => x :: descendants x) cs)
  = filter (matches c)
           (flat_map (fun x => x :: descendants x) (filter is_tag cs)).
Proof.
  induction cs as [|x cs IH]; [reflexivity|].
  destruct x as [nm cl a k|k s].
  - cbn [filter is_tag flat_map]. now rewrite !filter_app, IH.
  - cbn [filter is_tag flat_map descendants app matches]. exact IH.
Qed.

Lemma find_only_child (c : criteria) (nm : string)
      (cl : option (list string)) (a : dict string string) (cs : list node)
      (inner : node) :
  filter is_tag cs = [inner] -> matches c inner = false ->
  find c (Tag nm cl a cs) = find c inner.
Proof.
  intros Hcs Hm. unfold find, find_all. cbn [descendants].
  rewrite filter_matches_tags, Hcs. cbn [flat_map].
  rewrite List.app_nil_r. cbn [filter]. now rewrite Hm.
Qed.

(** X17.  A tag whose only child tag is a row that no guess of the
    extractor can take for a field (the row is not a link, a span, a
    [strong] or a [b], and its class says nothing of location, date or
    observer) gives the very record of that row, whatever the tag
    itself is: the guesses look below the tag and find below the row
    what they find from the row.  When both are candidates (a [div] of
    class "obs-list" around a [div] of class "obs", say) the sighting is
    put out twice. *)
Theorem wrapper_repeats_record (nm : string) (c : option (list string))
        (a : dict string string) (cs : list node) (inner : node)
        (Hcs : filter is_tag cs = [inner])
        (Hp : plain inner = true) :
  extract_sighting_data (Tag nm c a cs) = extract_sighting_data inner
  /\ row_sightings [Tag nm c a cs; inner]
     = (row_sightings [inner] ++ row_sightings [inner])%list.
Proof.
  assert (E : extract_sighting_data (Tag nm c a cs)
              = extract_sighting_data inner).
  { unfold plain in Hp. apply negb_true_iff in Hp.
    repeat (apply orb_false_iff in Hp as [Hp ?]).
    assert (F : forall crit, matches crit inner = false ->
                  find crit (Tag nm c a cs) = find crit inner)
      by (intros crit; now apply find_only_child).
    unfold extract_sighting_data, species_elem, location_elem, date_elem,
      observer_elem, checklist_link.
    rewrite !F; try reflexivity;
      rewrite ?matches_named_class, ?matches_named, ?matches_any_class,
        ?matches_link; unfold is_link_to;
      repeat match goal with H : _ = false |- _ => rewrite H end;
      rewrite ?andb_false_r; reflexivity. }
  split; [exact E|].
  unfold row_sightings. cbn [flat_map]. rewrite E, !List.app_nil_r.
  reflexivity.
Qed.

Lemma wrapper_repeats_record_witness :
  filter is_tag [Sample.txt " "; Rows.owl; Sample.txt " "] = [Rows.owl]
  /\ plain Rows.owl = true
  /\ method1 Rows.wrapped_owl = [Rows.owl]
  /\ method1 (Sample.page [Rows.wrapped_owl]) = [Rows.wrapped_owl; Rows.owl]
  /\ row_sightings [Rows.wrapped_owl; Rows.owl]
     = (row_sightings [Rows.owl] ++ row_sightings [Rows.owl])%list
  /\ length (row_sightings [Rows.owl]) = 1.
Proof.
  split; [reflexivity|]. split; [reflexivity|].
  split; [vm_compute; reflexivity|]. split; [vm_compute; reflexivity|].
  split; [|vm_compute; reflexivity].
  destruct (wrapper_repeats_record "div" (Some ["obs-list"]) []
              [Sample.txt " "; Rows.owl; Sample.txt " "] Rows.owl
              eq_refl eq_refl) as [_ H].
  exact H.
Defined.

End ExtractorFacts.

(** ** The entry locator: what the class tests come to *)
Section LocatorFacts.
Import Bs4.

Lemma eqb_lower_char (a b : ascii) :
  Ascii.eqb a b = true -> Ascii.eqb (Py.lower_char a) (Py.lower_char b) = true.
Proof. intros H. apply Ascii.eqb_eq in H. subst. apply Ascii.eqb_refl. Qed.

Lemma startswith_lower (p s : string) :
  Py.startswith p s = true -> Py.startswith (Py.lower p) (Py.lower s) = true.
Proof.
  revert s; induction p as [|a p IH]; intros [|b s]; simpl; auto.
  intros H. apply andb_true_iff in H as [H1 H2].
  now rewrite (eqb_lower_char _ _ H1), (IH _ H2).
Qed.

Lemma contains_lower (p s : string) :
  Py.contains p s = true -> Py.contains (Py.lower p) (Py.lower s) = true.
Proof.
  induction s as [|c s IH]; simpl.
  - rewrite !orb_false_r. intros H.
    apply (startswith_lower p "" H).
  - intros H. apply orb_true_iff in H as [H|H].
    + apply startswith_lower in H. simpl in H. now rewrite H.
    + rewrite (IH H). apply orb_true_r.
Qed.

Lemma startswith_prefix (p q s : string) :
  Py.startswith (p ++ q) s = true -> Py.startswith p s = true.
Proof.
  revert s; induction p as [|a p IH]; intros s; simpl; auto.
  destruct s as [|b s]; [discriminate|].
  intros H. apply andb_true_iff in H as [H1 H2].
  now rewrite H1, (IH _ H2).
Qed.

Lemma contains_prefix (p q s : string) :
  Py.contains (p ++ q) s = true -> Py.contains p s = true.
Proof.
  induction s as [|c s IH]; simpl.
  - rewrite !orb_false_r. apply startswith_prefix.
  - intros H. apply orb_true_iff in H as [H|H].
    + now rewrite (startswith_prefix _ _ _ H).
    + rewrite (IH H). apply orb_true_r.
Qed.

(** The test for "Observation" adds nothing to the test for "obs" in
    the lowered class. *)
Lemma obs_class_lower_has (x : option string) :
  obs_class x = lower_has "obs" x.
Proof.
  destruct x as [s|]; [|reflexivity]. unfold obs_class, lower_has.
  destruct (Py.truthy s); [|reflexivity]. cbn [andb].
  destruct (Py.contains "Observation" s) eqn:E; [|reflexivity].
  apply contains_lower in E.
  change (Py.lower "Observation") with ("obs" ++ "ervation") in E.
  apply contains_prefix in E. now rewrite E.
Qed.

Lemma matches_class_ext (f g : option string -> bool)
      (c : option (list string)) :
  (forall x, f x = g x) -> matches_class f c = matches_class g c.
Proof.
  intros H. destruct c as [toks|]; simpl; [|apply H].
  rewrite H. f_equal.
  induction toks as [|t toks IH]; simpl; [reflexivity | now rewrite H, IH].
Qed.

(** X18.  What the first three methods select, in document order.
    Method 1: every [div] whose class attribute, lowered, contains
    "obs"; the separate test for "Observation" is covered by it.
    Method 2: every [li] whose class attribute, lowered, contains
    "species".  Method 3: every [tr].  Testing the class token by token
    or as one string makes no difference. *)
Theorem methods_select (c : node) :
  method1 c
  = filter (fun n => is_named "div" n && class_contains "obs" n)
           (descendants c)
  /\ method2 c
     = filter (fun n => is_named "li" n && class_contains "species" n)
              (descendants c)
  /\ method3 c = filter (is_named "tr") (descendants c).
Proof.
  unfold method1, method2, method3, find_all. repeat split.
  - apply filter_ext. intros n. rewrite <- matches_named_class.
    destruct n as [nm cl a k|]; [|reflexivity]. cbn [matches].
    unfold with_class, named. cbn [by_name by_class by_attr_fn by_attr_eq].
    now rewrite (matches_class_ext _ _ cl obs_class_lower_has).
  - apply filter_ext. intros n. apply matches_named_class.
  - apply filter_ext. intros n. apply matches_named.
Qed.

End LocatorFacts.
(** ** The entry locator: the rows of method 4 *)
Section Method4Facts.
Import Bs4.

Lemma in_descendants_tag (x : node) (nm : string) (c : option (list string))
      (a : dict string string) (cs : list node) :
  In x (descendants (Tag nm c a cs))
  <-> exists k, In k cs /\ (x = k \/ In x (descendants k)).
Proof.
  cbn [descendants]. rewrite in_flat_map. split.
  - intros (k & Hk & [E|H]); exists k; auto.
  - intros (k & Hk & [E|H]); exists k; split; auto; [left|right]; auto.
Qed.

(** What is below a descendant is below the tag. *)
Lemma descendants_trans (y x a : node) :
  In y (descendants x) -> In x (descendants a) -> In y (descendants a).
Proof.
  intros Hy. induction a as [k s|nm c at_ cs IH] using node_induction;
    [intros []|].
  rewrite !in_descendants_tag. intros (k & Hk & [->|Hx]).
  - exists k. auto.
  - exists k. split; [exact Hk|]. right.
    rewrite Forall_forall in IH. now apply IH.
Qed.

(** Every tag of the chain the walk gives a node is either of the chain
    the walk started with or has the node below it. *)
Lemma descendants_ctx_chain (n : node) :
  forall anc ch x,
    In (ch, x) (descendants_ctx anc n) ->
    In x (descendants n)
    /\ forall a, In a ch -> In a anc \/ In x (descendants a).
Proof.
  induction n as [k s|nm c at_ cs IH] using node_induction;
    intros anc ch x; [intros []|].
  cbn [descendants_ctx]. rewrite in_flat_map. intros (k & Hk & [E|H]).
  - injection E as <- <-. split.
    + apply in_descendants_tag. exists k. auto.
    + intros a [<-|Ha]; [right|now left].
      apply in_descendants_tag. exists k. auto.
  - rewrite Forall_forall in IH. destruct (IH k Hk _ _ _ H) as [Hx Hch].
    assert (Hn : In x (descendants (Tag nm c at_ cs)))
      by (apply in_descendants_tag; exists k; auto).
    split; [exact Hn|].
    intros a Ha. destruct (Hch a Ha) as [[<-|Hanc]|Hd]; auto.
Qed.

Lemma hd_error_in {A : Type} (l : list A) (x : A) :
  hd_error l = Some x -> In x l.
Proof. destruct l; [discriminate|]. intros [= ->]. now left. Qed.

Lemma find_ctx_in (c : criteria) (anc : list node) (n : node)
      (p : list node * node) :
  find_ctx c anc n = Some p -> In p (descendants_ctx anc n).
Proof.
  intros H. apply hd_error_in in H. unfold find_all_ctx in H.
  now apply filter_In in H as [H _].
Qed.

(** The content area stands below every tag of its chain. *)
Lemma content_chain (soup : node) (a : node) :
  In a (fst (content soup)) -> In (snd (content soup)) (descendants a).
Proof.
  unfold content.
  destruct (find_ctx _ [] soup) as [[ch x]|] eqn:E1.
  - apply find_ctx_in, descendants_ctx_chain in E1 as [_ H].
    intros Ha. destruct (H a Ha) as [[]|Hd]. exact Hd.
  - destruct (find_ctx (named "main") [] soup) as [[ch x]|] eqn:E2.
    + apply find_ctx_in, descendants_ctx_chain in E2 as [_ H].
      intros Ha. destruct (H a Ha) as [[]|Hd]. exact Hd.
    + intros [].
Qed.

(** A checklist link found in the content area stands below every tag
    of its chain, those around the content area included. *)
Lemma link_chain (soup : node) (c : criteria) (ch : list node) (x a : node) :
  In (ch, x) (find_all_ctx c (fst (content soup)) (snd (content soup))) ->
  In a ch -> In x (descendants a).
Proof.
  unfold find_all_ctx. intros H Ha. apply filter_In in H as [H _].
  apply descendants_ctx_chain in H as [Hx Hch].
  destruct (Hch a Ha) as [Hanc|Hd]; [|exact Hd].
  eapply descendants_trans; [exact Hx | now apply content_chain].
Qed.

Lemma find_parent_some (names : list string) (anc : list node) (p : node) :
  find_parent names anc = Some p ->
  In p anc /\ exists nm, name_of p = Some nm /\ In nm names.
Proof.
  unfold find_parent. intros H. apply find_some in H as [Hin H].
  split; [exact Hin|].
  destruct (name_of p) as [nm|]; [|discriminate]. exists nm. split; auto.
  apply existsb_exists in H as (x & Hx & E).
  apply String.eqb_eq in E. now subst.
Qed.

Lemma is_container_names (p : node) (nm : string) :
  name_of p = Some nm -> In nm ["div"; "li"; "tr"] -> is_container p = true.
Proof.
  intros Hn H. unfold is_container, is_named. rewrite Hn.
  destruct H as [<-|[<-|[<-|[]]]]; cbn; rewrite ?orb_true_r; reflexivity.
Qed.

(** A tag with a checklist link below it gives a record that names a
    checklist. *)
Lemma checklist_below (row link : node) :
  In link (descendants row) -> is_link_to "/checklist/" link = true ->
  has_checklist_url row.
Proof.
  intros Hin Hl. unfold has_checklist_url, extract_sighting_data.
  rewrite checklist_link_first.
  destruct (List.find _ (descendants row)) as [l|] eqn:E.
  - rewrite dict_get_set_same. eexists; split; [reflexivity|].
    apply find_some in E as [_ E].
    unfold is_link_to in E. apply andb_true_iff in E as [_ E].
    unfold resolve_href. destruct (attr "href" l) as [h|]; [|discriminate E].
    cbn [has] in E. apply andb_true_iff in E as [_ E].
    destruct (Py.startswith "/" h); [now apply contains_app_r | exact E].
  - exfalso. apply (find_none _ _ E) in Hin. congruence.
Qed.

Lemma ordpairs_snoc {A : Type} (R : A -> A -> Prop) (l : list A) (x : A) :
  ForallOrdPairs R l -> Forall (fun a => R a x) l ->
  ForallOrdPairs R (l ++ [x])%list.
Proof.
  induction 1 as [|a l Ha Hl IH]; intros Hx; simpl.
  - repeat constructor.
  - inversion Hx; subst. constructor; [|now apply IH].
    apply Forall_app; split; [exact Ha | repeat constructor; assumption].
Qed.

Lemma node_in_false (x : node) (l : list node) :
  node_in x l = false -> Forall (fun a => node_eqb x a = false) l.
Proof.
  unfold node_in. induction l as [|a l IH]; simpl; [constructor|].
  intros H. apply orb_false_iff in H as [H1 H2]. constructor; auto.
Qed.

(** What the loop of method 4 keeps true of the rows. *)
Lemma add_parent_invariant (P : node -> Prop) (rows : list node)
      (link : list node * node) :
  (forall p, In p (fst link) ->
             (exists nm, name_of p = Some nm /\ In nm ["div"; "li"; "tr"]) ->
             P p) ->
  Forall P rows /\ ForallOrdPairs (fun a b => node_eqb b a = false) rows ->
  Forall P (add_parent rows link)
  /\ ForallOrdPairs (fun a b => node_eqb b a = false) (add_parent rows link).
Proof.
  intros Hp [HF HO]. unfold add_parent.
  destruct (find_parent _ (fst link)) as [p|] eqn:E; [|now split].
  destruct (node_in p rows) eqn:N; cbn [negb]; [now split|].
  apply find_parent_some in E as [Hin Hn]. split.
  - apply Forall_app; split; [exact HF | repeat constructor; now apply Hp].
  - apply ordpairs_snoc; [exact HO | now apply node_in_false].
Qed.

Lemma fold_add_parent (P : node -> Prop)
      (links : list (list node * node)) :
  (forall link p, In link links -> In p (fst link) ->
                  (exists nm, name_of p = Some nm /\ In nm ["div"; "li"; "tr"]) ->
                  P p) ->
  forall rows,
    Forall P rows /\ ForallOrdPairs (fun a b => node_eqb b a = false) rows ->
    Forall P (fold_left add_parent links rows)
    /\ ForallOrdPairs (fun a b => node_eqb b a = false)
                      (fold_left add_parent links rows).
Proof.
  induction links as [|link links IH]; intros Hp rows H; [exact H|].
  cbn [fold_left]. apply IH.
  - intros l p Hl. apply Hp. now right.
  - apply add_parent_invariant; [|exact H].
    intros p. apply Hp. now left.
Qed.

(** X19.  The rows of method 4, for every page.  Each row is a [div],
    a [li] or a [tr] with a checklist link below it, so the record
    extracted from it names a checklist; and no row is equal, as a tag,
    to a row taken before it: two links with equal enclosing tags give
    one row. *)
Theorem method4_rows (soup : node) :
  Forall (fun row => is_container row = true /\ has_checklist_url row)
         (method4 (content soup))
  /\ ForallOrdPairs (fun earlier later => node_eqb later earlier = false)
                    (method4 (content soup)).
Proof.
  unfold method4. apply fold_add_parent; [|split; constructor].
  intros [ch x] p Hl Hp (nm & Hn & Hnm). cbn [fst] in Hp. split.
  - now apply (is_container_names p nm).
  - apply (checklist_below p x).
    + now apply (link_chain soup _ ch x p Hl).
    + unfold find_all_ctx in Hl. apply filter_In in Hl as [_ Hm].
      cbn [snd] in Hm. now rewrite matches_link in Hm.
Qed.

End Method4Facts.

(** ** The page without a template *)
Section HtmlFacts.
Import Bs4.
#[local] Open Scope text_scope.
Variable repr : json -> str.

Lemma some_inj {A : Type} (x y : A) : Some x = Some y -> x = y.
Proof. congruence. Qed.

Lemma ok_inj {A : Type} (x y : A) : Ok x = Ok y -> x = y.
Proof. congruence. Qed.

Lemma row_sightings_keys (rows : list node) :
  Forall (fun s => dict_keys s = six_keys) (row_sightings rows).
Proof.
  unfold row_sightings. induction rows as [|row rows IH]; cbn [flat_map];
    [constructor|].
  apply Forall_app; split; [|exact IH].
  match goal with |- context [if ?c then _ else _] => destruct c end;
    [|constructor].
  constructor; [apply extract_sighting_data_shape | constructor].
Qed.

(** Every record [parse_alerts] returns has the six keys. *)
Lemma parse_soup_keys (json_decode : string -> result json) (soup : node)
      (ss : list sighting) :
  parse_soup json_decode soup = Ok ss ->
  Forall (fun s => dict_keys s = six_keys) ss.
Proof.
  rewrite parse_soup_cases.
  pose proof (row_sightings_keys (obs_rows (content soup))) as H.
  destruct (row_sightings _).
  - intros E. apply extract_sightings_generic_shape in E.
    eapply Forall_impl; [|exact E]. now intros s [Hk _].
  - now intros [= <-].
Qed.

Lemma parse_alerts_keys (json_decode : string -> result json)
      (BeautifulSoup : string -> result node) (html : string)
      (ss : list sighting) :
  parse_alerts json_decode BeautifulSoup html = Ok ss ->
  Forall (fun s => dict_keys s = six_keys) ss.
Proof.
  unfold parse_alerts.
  destruct (BeautifulSoup html) as [soup|]; [|discriminate].
  apply parse_soup_keys.
Qed.

Lemma html_row_keys (s : sighting) :
  dict_keys s = six_keys -> exists row, html_row repr (JDict s) = Ok row.
Proof.
  intros Hk. unfold html_row, subscript.
  assert (G : forall k, In k six_keys -> exists v, dict_get k s = Some v)
    by (intros k Hin; apply dict_keys_get; now rewrite Hk).
  destruct (G "checklist_url") as [u ->]; [cbn; tauto|].
  destruct (G "species") as [sp ->]; [cbn; tauto|].
  destruct (G "location") as [lo ->]; [cbn; tauto|].
  destruct (G "date") as [da ->]; [cbn; tauto|].
  destruct (G "observer") as [ob ->]; [cbn; tauto|].
  eauto.
Qed.

Lemma html_rows_keys (ss : list sighting) :
  Forall (fun s => dict_keys s = six_keys) ss ->
  exists rows, html_rows repr (map JDict ss) = Ok rows.
Proof.
  induction 1 as [|s ss Hs _ [rows IH]]; [now exists ""|].
  destruct (html_row_keys s Hs) as [row Hr].
  exists (row ++ rows). cbn [map html_rows]. now rewrite Hr, IH.
Qed.

Lemma contains_prefix_self (p s : str) : Text.contains p (p ++ s) = true.
Proof. apply text_contains_app_l, text_contains_self. Qed.

Lemma contains_cell (c : str) :
  Text.contains ("<td>" ++ c ++ "</td>") (Html.cell c) = true.
Proof.
  change (Html.cell c) with ("            " ++ ("<td>" ++ c ++ "</td>")).
  apply text_contains_app_r, text_contains_self.
Qed.

(** The text of the row of a value, cell by cell. *)
Lemma html_row_parts (s : json) (row : str) :
  html_row repr s = Ok row ->
  exists u sp lo da ob,
    subscript s "checklist_url" = Ok u
    /\ subscript s "species" = Ok sp
    /\ subscript s "location" = Ok lo
    /\ subscript s "date" = Ok da
    /\ subscript s "observer" = Ok ob
    /\ row = Html.br ++ "        <tr>"
             ++ Html.br ++ Html.cell (str_of repr sp)
             ++ Html.br ++ Html.cell (str_of repr lo)
             ++ Html.br ++ Html.cell (str_of repr da)
             ++ Html.br ++ Html.cell (str_of repr ob)
             ++ Html.br ++ Html.cell (if truthy u
                                      then Html.link (str_of repr u) else "-")
             ++ Html.br ++ "        </tr>".
Proof.
  unfold html_row.
  destruct (subscript s "checklist_url") as [u|]; [|discriminate].
  destruct (subscript s "species") as [sp|]; [|discriminate].
  destruct (subscript s "location") as [lo|]; [|discriminate].
  destruct (subscript s "date") as [da|]; [|discriminate].
  destruct (subscript s "observer") as [ob|]; [|discriminate].
  cbv zeta. intros E. apply ok_inj in E.
  exists u, sp, lo, da, ob. repeat split. now symmetry.
Qed.

Lemma html_row_nonempty (s : json) (row : str) :
  html_row repr s = Ok row -> row <> "".
Proof.
  intros E. destruct (html_row_parts s row E)
    as (u & sp & lo & da & ob & _ & _ & _ & _ & _ & ->).
  discriminate.
Qed.

(** What is found in the text of a row is found in the rows. *)
Lemma html_rows_in (p : str) (items : list json) (rows : str)
      (s : json) :
  html_rows repr items = Ok rows -> In s items ->
  exists row, html_row repr s = Ok row
              /\ row <> ""
              /\ (Text.contains p row = true -> Text.contains p rows = true)
              /\ rows <> "".
Proof.
  revert rows. induction items as [|x items IH]; intros rows; [intros _ []|].
  cbn [html_rows].
  destruct (html_row repr x) as [row|] eqn:Er; [|discriminate].
  destruct (html_rows repr items) as [rest|] eqn:Et; [|discriminate].
  intros E. apply ok_inj in E. subst rows.
  pose proof (html_row_nonempty x row Er) as Nx.
  intros [->|Hin].
  - exists row. split; [exact Er|].
    split; [exact Nx|]. split; [apply text_contains_app_l|].
    destruct row; [contradiction | discriminate].
  - destruct (IH rest eq_refl Hin) as (r & Hr & N & Hc & _).
    exists r. split; [exact Hr|]. split; [exact N|].
    split; [intros H; apply text_contains_app_r; auto|].
    destruct row; [contradiction | discriminate].
Qed.

Lemma text_app_assoc5 (a b c d e x t : str) :
  a ++ b ++ c ++ d ++ e ++ x ++ t = (a ++ b ++ c ++ d ++ e) ++ x ++ t.
Proof. now rewrite !text_app_assoc. Qed.

Lemma generate_simple_html_list (data : dict str json) (items : list json)
      (page : str) :
  dict_get "sightings"%text data = Some (JList items) ->
  generate_simple_html repr data = Ok page ->
  exists rows a b,
    html_rows repr items = Ok rows
    /\ page = a ++ (if Text.truthy rows then rows else Html.placeholder) ++ b.
Proof.
  intros Hs. unfold generate_simple_html, subscript. rewrite Hs.
  cbn [iterate].
  destruct (html_rows repr items) as [rows|]; [|discriminate].
  destruct (dict_get "last_updated"%text data) as [lu|]; [|discriminate].
  destruct (dict_get "count"%text data) as [n|]; [|discriminate].
  intros E. apply ok_inj in E. subst page. exists rows.
  exists (Html.page_head ++ str_of repr lu ++ Html.page_middle
            ++ str_of repr n ++ Html.page_body).
  exists Html.page_tail.
  split; [reflexivity|]. apply text_app_assoc5.
Qed.

(** What is found in the row of a sighting is found in the page. *)
Lemma page_has_row (data : dict str json) (page : str) (items : list json)
      (s : json) (row p : str) :
  generate_simple_html repr data = Ok page ->
  dict_get "sightings"%text data = Some (JList items) ->
  In s items -> html_row repr s = Ok row ->
  Text.contains p row = true -> Text.contains p page = true.
Proof.
  intros Hg Hs Hin Er Hc.
  destruct (generate_simple_html_list data items page Hs Hg)
    as (rows & a & b & Hr & ->).
  destruct (html_rows_in p items rows s Hr Hin) as (row' & Er' & _ & Hrows & N).
  rewrite Er in Er'. apply ok_inj in Er'. subst row'.
  destruct rows; [contradiction|]. cbn [Text.truthy].
  apply text_contains_app_r, text_contains_app_l. auto.
Qed.

(** The text of the row of a record, cell by cell. *)
Lemma html_row_cells (s : dict str json) (row : str) :
  html_row repr (JDict s) = Ok row ->
  exists u sp lo da ob,
    dict_get "checklist_url"%text s = Some u
    /\ dict_get "species"%text s = Some sp
    /\ dict_get "location"%text s = Some lo
    /\ dict_get "date"%text s = Some da
    /\ dict_get "observer"%text s = Some ob
    /\ row = Html.br ++ "        <tr>"
             ++ Html.br ++ Html.cell (str_of repr sp)
             ++ Html.br ++ Html.cell (str_of repr lo)
             ++ Html.br ++ Html.cell (str_of repr da)
             ++ Html.br ++ Html.cell (str_of repr ob)
             ++ Html.br ++ Html.cell (if truthy u
                                      then Html.link (str_of repr u) else "-")
             ++ Html.br ++ "        </tr>".
Proof.
  intros E. destruct (html_row_parts _ _ E)
    as (u & sp & lo & da & ob & Eu & Esp & Elo & Eda & Eob & Er).
  unfold subscript in *.
  destruct (dict_get "checklist_url"%text s) as [u'|]; [|discriminate].
  destruct (dict_get "species"%text s) as [sp'|]; [|discriminate].
  destruct (dict_get "location"%text s) as [lo'|]; [|discriminate].
  destruct (dict_get "date"%text s) as [da'|]; [|discriminate].
  destruct (dict_get "observer"%text s) as [ob'|]; [|discriminate].
  apply ok_inj in Eu, Esp, Elo, Eda, Eob. subst.
  exists u, sp, lo, da, ob. repeat split.
Qed.

End HtmlFacts.

Section HtmlTheorems.
Import Bs4.
#[local] Open Scope text_scope.
Implicit Types (json_decode : string -> result json)
         (BeautifulSoup : string -> result node)
         (float_repr : spec_float -> str) (repr : json -> str).

(** X20.  [generate_simple_html] raises nothing on a report of what
    [parse_alerts] returns, from the rows or from the fallback: every
    record has the keys the page asks for.  With no sighting the page
    holds the row that says so. *)
Theorem simple_html_defined json_decode BeautifulSoup repr (w : world)
        (html : string) (ss : list sighting)
        (Hp : parse_alerts json_decode BeautifulSoup html = Ok ss) :
  exists page,
    generate_simple_html repr (report w ss) = Ok page
    /\ (ss = [] -> Text.contains Html.placeholder page = true).
Proof.
  apply parse_alerts_keys in Hp.
  destruct (html_rows_keys repr ss Hp) as [rows Hr].
  unfold generate_simple_html, subscript.
  cbn [report dict_get key_eqb text_key Text.eqb N.eqb Pos.eqb andb iterate].
  rewrite Hr. eexists. split; [reflexivity|].
  intros ->. apply ok_inj in Hr. subst rows. cbn [Text.truthy].
  do 5 apply text_contains_app_r. apply contains_prefix_self.
Qed.

Lemma simple_html_defined_witness :
  parse_alerts Sample.loads (Sample.always (Sample.page [])) "<html>" = Ok []
  /\ exists page,
      generate_simple_html Sample.no_repr
        (report (Sample.world_of None (Ok Sample.ok_page)) [])
      = Ok page
      /\ Text.contains Html.placeholder page = true.
Proof.
  assert (H : parse_alerts Sample.loads (Sample.always (Sample.page []))
                           "<html>" = Ok [])
    by (vm_compute; reflexivity).
  split; [exact H|].
  destruct (simple_html_defined Sample.loads (Sample.always (Sample.page []))
              Sample.no_repr (Sample.world_of None (Ok Sample.ok_page))
              "<html>" [] H) as (page & Hg & Hc).
  exists page. split; [exact Hg | exact (Hc eq_refl)].
Defined.

(** X21.  Every sighting of the data has its row in the page, and its
    values stand in the cells as they are: the text of the species, the
    location, the date and the observer between [<td>] and [</td>] with
    nothing escaped, and for the checklist a link to the URL as it is,
    or a dash when the URL is false as Python has it: the empty string,
    zero, [None], [False], an empty list or an empty object. *)
Theorem simple_html_cells repr (data : dict str json) (page : str)
        (items : list json) (s : dict str json)
        (Hg : generate_simple_html repr data = Ok page)
        (Hs : dict_get "sightings"%text data = Some (JList items))
        (Hin : In (JDict s) items) :
  Forall (fun k => exists v,
              dict_get k s = Some v
              /\ Text.contains ("<td>" ++ str_of repr v ++ "</td>") page
                 = true)
         ["species"; "location"; "date"; "observer"]
  /\ exists u,
      dict_get "checklist_url"%text s = Some u
      /\ Text.contains ("<td>" ++ (if truthy u then Html.link (str_of repr u)
                                   else "-") ++ "</td>") page = true.
Proof.
  destruct (generate_simple_html_list repr data items page Hs Hg)
    as (rows & _ & _ & Hr & _).
  destruct (html_rows_in repr "" items rows (JDict s) Hr Hin)
    as (row & Er & _).
  destruct (html_row_cells repr s row Er)
    as (u & sp & lo & da & ob & Eu & Esp & Elo & Eda & Eob & E).
  assert (G : forall p, Text.contains p row = true ->
                        Text.contains p page = true)
    by (intros p; now apply (page_has_row repr data page items (JDict s) row)).
  split.
  - apply Forall_cons; [exists sp; split; [exact Esp|]|].
    { apply G. rewrite E.
      do 3 apply text_contains_app_r.
      apply text_contains_app_l, contains_cell. }
    apply Forall_cons; [exists lo; split; [exact Elo|]|].
    { apply G. rewrite E.
      do 5 apply text_contains_app_r.
      apply text_contains_app_l, contains_cell. }
    apply Forall_cons; [exists da; split; [exact Eda|]|].
    { apply G. rewrite E.
      do 7 apply text_contains_app_r.
      apply text_contains_app_l, contains_cell. }
    apply Forall_cons; [exists ob; split; [exact Eob|]|apply Forall_nil].
    apply G. rewrite E.
    do 9 apply text_contains_app_r.
    apply text_contains_app_l, contains_cell.
  - exists u. split; [exact Eu|].
    apply G. rewrite E.
    do 11 apply text_contains_app_r.
    apply text_contains_app_l, contains_cell.
Qed.

Lemma simple_html_cells_witness :
  let s := [("species", JStr "<b>Owl</b>"); ("location", JStr "");
            ("date", JStr ""); ("observer", JStr "");
            ("checklist_url", JFloat (S754_zero false));
            ("count", JStr "")] in
  let data := report (Sample.world_of None (Ok Sample.ok_page)) [s] in
  exists page,
    generate_simple_html Sample.no_repr data = Ok page
    /\ Text.contains "<td><b>Owl</b></td>" page = true
    /\ Text.contains "<td>-</td>" page = true.
Proof.
  cbv zeta.
  destruct (generate_simple_html Sample.no_repr
              (report (Sample.world_of None (Ok Sample.ok_page))
                 [[("species", JStr "<b>Owl</b>"); ("location", JStr "");
                   ("date", JStr ""); ("observer", JStr "");
                   ("checklist_url", JFloat (S754_zero false));
                   ("count", JStr "")]]))
    as [page|] eqn:E; [|vm_compute in E; discriminate E].
  exists page. split; [reflexivity|].
  destruct (simple_html_cells Sample.no_repr
              (report (Sample.world_of None (Ok Sample.ok_page))
                 [[("species", JStr "<b>Owl</b>"); ("location", JStr "");
                   ("date", JStr ""); ("observer", JStr "");
                   ("checklist_url", JFloat (S754_zero false));
                   ("count", JStr "")]])
              page
              [JDict [("species", JStr "<b>Owl</b>"); ("location", JStr "");
                      ("date", JStr ""); ("observer", JStr "");
                      ("checklist_url", JFloat (S754_zero false));
                      ("count", JStr "")]]
              [("species", JStr "<b>Owl</b>"); ("location", JStr "");
               ("date", JStr ""); ("observer", JStr "");
               ("checklist_url", JFloat (S754_zero false));
               ("count", JStr "")] E eq_refl
              (or_introl eq_refl)) as [F (u & Hu & Hc)].
  split.
  - apply Forall_inv in F. destruct F as (v & Hv & Hp).
    cbn in Hv. apply some_inj in Hv. subst v. exact Hp.
  - cbn in Hu. apply some_inj in Hu. subst u. exact Hc.
Defined.

(** X22.  From the page to the file.  Where the script finds no
    directory of templates, so that the text of index.html is what
    [generate_simple_html] returns, a run that ends normally has
    written to index.html a page in which every sighting found has its
    species, as extracted, in a cell. *)
Theorem index_html_lists_sightings json_decode BeautifulSoup float_repr
        repr (w : world)
        (Ht : template w = None)
        (Hend : snd (run json_decode BeautifulSoup float_repr repr w)
                = Ok tt) :
  exists r ss page,
    session_get w ALERT_URL (parse_cookies (cookie_string w))
                request_headers 30 = Ok r
    /\ parse_alerts json_decode BeautifulSoup (text r) = Ok ss
    /\ generate_simple_html repr (report w ss) = Ok page
    /\ In (WriteFile ((base_dir w ++ "/docs") ++ "/index.html")%string page)
          (fst (run json_decode BeautifulSoup float_repr repr w))
    /\ Forall (fun s => exists v,
                   dict_get "species"%text s = Some v
                   /\ Text.contains ("<td>" ++ str_of repr v ++ "</td>") page
                      = true) ss.
Proof.
  destruct (run_ok _ _ _ _ _ Hend)
    as (r & ss & page & Hc & Hr & Hs & Hp & Hd & Hh & He & Hlog).
  unfold html_content in Hh. rewrite Ht in Hh.
  exists r, ss, page. split; [exact Hr|]. split; [exact Hp|].
  split; [exact Hh|]. split.
  - rewrite Hlog. apply in_or_app. right. apply in_or_app. right.
    unfold output_log. cbn [In]. tauto.
  - pose proof (parse_alerts_keys json_decode _ _ _ Hp) as Hk.
    destruct (html_rows_keys repr ss Hk) as [rows Hrows].
    apply Forall_forall. intros s Hin.
    assert (Hi : In (JDict s) (map JDict ss)) by now apply in_map.
    destruct (html_rows_in repr "" (map JDict ss) rows (JDict s) Hrows Hi)
      as (row & Er & _).
    destruct (html_row_cells repr s row Er)
      as (u & sp & lo & da & ob & _ & Esp & _ & _ & _ & E).
    exists sp. split; [exact Esp|].
    apply (page_has_row repr (report w ss) page (map JDict ss) (JDict s) row);
      auto.
    rewrite E. do 3 apply text_contains_app_r.
    apply text_contains_app_l, contains_cell.
Qed.

Lemma index_html_lists_sightings_witness :
  let w := without_template
             (Sample.world_of (Some "a=b"%string) (Ok Sample.ok_page)) in
  let bs := Sample.always Sample.page_snowy_owl in
  exists page,
    In (WriteFile "/srv/scraper/docs/index.html"%string page)
       (fst (run Sample.loads bs Sample.no_floats Sample.no_repr w))
    /\ Text.contains "<td>Snowy Owl</td>" page = true.
Proof.
  cbv zeta.
  assert (Hp0 : parse_alerts Sample.loads
                  (Sample.always Sample.page_snowy_owl)
                  (text Sample.ok_page)
                = Ok [[("species", JStr "Snowy Owl");
                       ("location", JStr "Lakeshore Park");
                       ("date", JStr ""); ("observer", JStr "");
                       ("checklist_url",
                        JStr "https://ebird.org/checklist/S999");
                       ("count", JStr "")]])
    by (vm_compute; reflexivity).
  destruct (index_html_lists_sightings Sample.loads
              (Sample.always Sample.page_snowy_owl)
              Sample.no_floats Sample.no_repr
              (without_template
                 (Sample.world_of (Some "a=b"%string) (Ok Sample.ok_page)))
              eq_refl eq_refl)
    as (r & ss & page & Hr & Hp & _ & Hin & F).
  apply ok_inj in Hr. subst r.
  change (parse_alerts Sample.loads (Sample.always Sample.page_snowy_owl)
                       (text Sample.ok_page) = Ok ss) in Hp.
  rewrite Hp0 in Hp. apply ok_inj in Hp. subst ss.
  exists page. split; [exact Hin|].
  apply Forall_inv in F. destruct F as (v & Hv & Hcell).
  cbn in Hv. apply some_inj in Hv. subst v. exact Hcell.
Defined.

End HtmlTheorems.

(** ** What the page gives as a whole *)
Section OutputFacts.
Import Bs4.
Variable json_decode : string -> result json.

Lemma extract_sighting_data_truthy (element : node) :
  truthy (JDict (extract_sighting_data element)) = true.
Proof.
  destruct (extract_sighting_data_shape element) as [H _].
  destruct (extract_sighting_data element); [discriminate H | reflexivity].
Qed.

(** The blocks of a page that are all lists of objects. *)
Lemma for_each_object_blocks (scripts : list node) (blocks : list (list json)) :
  Forall2 (fun script items =>
             exists s, string_of script = Some s
                       /\ json_decode s = Ok (JList items)
                       /\ Forall (fun i => is_dict i = true) items)
          scripts blocks ->
  forall st,
  exists recs,
    for_each (ld_script json_decode) scripts st = ((st ++ recs)%list, Ok tt)
    /\ Forall2 (fun i r => ld_record i = Ok r)
               (filter has_name (concat blocks)) recs.
Proof.
  induction 1 as [|script items scripts blocks (s & Hs & Hd & Hi) _ IH];
    intros st.
  - exists []. split; [simpl; unfold ret; now rewrite List.app_nil_r|].
    constructor.
  - destruct (for_each_dicts items st Hi) as (r1 & E1 & F1).
    destruct (IH (st ++ r1)%list) as (r2 & E2 & F2).
    exists (r1 ++ r2)%list. split.
    + cbn [for_each]. unfold bind.
      rewrite (ld_script_list json_decode script s items st Hs Hd), E1, E2.
      now rewrite List.app_assoc.
    + cbn [concat]. rewrite filter_app. now apply Forall2_app.
Qed.

End OutputFacts.

Section OutputTheorems.
Import Bs4.
Implicit Types (json_decode : string -> result json)
         (BeautifulSoup : string -> result node).

(** X23.  Which rows are kept.  A candidate row gives a sighting
    exactly when the first guess for its species has text; the test of
    the record itself, [if sighting and ...], never fails, the record
    having its six keys.  The sightings are the records of the rows
    kept, in the order of the rows. *)
Theorem rows_kept (rows : list node) :
  row_sightings rows
  = map extract_sighting_data
        (filter (fun row => match species_guesses row with
                            | x :: _ => Py.truthy (get_text_strip x)
                            | [] => false
                            end) rows).
Proof.
  unfold row_sightings. induction rows as [|row rows IH]; [reflexivity|].
  cbn [flat_map filter].
  rewrite extract_sighting_data_truthy, species_of_elem, species_elem_first.
  cbn [andb]. rewrite IH.
  destruct (species_guesses row) as [|x guesses]; cbn [hd_error truthy];
    rewrite wide_truthy; [reflexivity|].
  now destruct (Py.truthy (get_text_strip x)).
Qed.

(** X24.  When the rows give a sighting, the output is theirs alone:
    the fallback is not run, nothing is raised, and every record has a
    species that is a string, not empty, with no whitespace at its
    ends. *)
Theorem row_output_has_species json_decode (soup : node)
        (Hrows : row_sightings (obs_rows (content soup)) <> []) :
  parse_soup json_decode soup = Ok (row_sightings (obs_rows (content soup)))
  /\ Forall (fun s => exists t,
                 dict_get "species"%text s = Some (JStr (Text.wide t))
                 /\ t <> "" /\ stripped t = true)
            (row_sightings (obs_rows (content soup))).
Proof.
  split.
  - rewrite parse_soup_cases.
    destruct (row_sightings (obs_rows (content soup)));
      [contradiction | reflexivity].
  - generalize (obs_rows (content soup)) as rows. intros rows.
    unfold row_sightings.
    induction rows as [|row rows IH]; cbn [flat_map]; [constructor|].
    apply Forall_app; split; [|exact IH].
    rewrite species_of_elem.
    match goal with |- context [if ?c then _ else _] => destruct c eqn:C end;
      [|constructor].
    constructor; [|constructor].
    apply andb_true_iff in C as [_ C].
    rewrite species_of_elem. eexists. split; [reflexivity|]. split.
    + intros E. rewrite E in C. discriminate C.
    + destruct (species_elem row);
        [apply get_text_strip_stripped | reflexivity].
Qed.

Lemma row_output_has_species_witness :
  row_sightings (obs_rows (content Sample.page_snowy_owl)) <> []
  /\ parse_soup Sample.loads Sample.page_snowy_owl
     = Ok (row_sightings (obs_rows (content Sample.page_snowy_owl))).
Proof.
  assert (H : row_sightings (obs_rows (content Sample.page_snowy_owl)) <> [])
    by (vm_compute; discriminate).
  split; [exact H|].
  destruct (row_output_has_species Sample.loads Sample.page_snowy_owl H)
    as [E _].
  exact E.
Defined.

(** X25.  The fallback over a whole page.  When every linked-data
    block of the page is a list of objects, the fallback raises nothing
    and returns one record for each object that has the key [name]:
    block after block in the order of the page, and within a block in
    the order of its list. *)
Theorem fallback_of_object_lists json_decode (soup : node)
        (blocks : list (list json))
        (Hb : Forall2 (fun script items =>
                         exists s, string_of script = Some s
                                   /\ json_decode s = Ok (JList items)
                                   /\ Forall (fun i => is_dict i = true) items)
                      (ld_scripts soup) blocks) :
  exists recs,
    extract_sightings_generic json_decode soup = Ok recs
    /\ Forall2 (fun i r => ld_record i = Ok r)
               (filter has_name (concat blocks)) recs.
Proof.
  destruct (for_each_object_blocks json_decode _ _ Hb []) as (recs & E & F).
  exists recs. split; [|exact F].
  unfold extract_sightings_generic. now rewrite E.
Qed.

Lemma fallback_of_object_lists_witness :
  let soup := Sample.page [Sample.ld Blocks.objects;
                           Sample.ld ("[" ++ Blocks.named_obj "Merlin" ++ "]")] in
  let blocks := [[Blocks.obj "Snowy Owl"; JDict []; Blocks.obj "Gyrfalcon"];
                 [Blocks.obj "Merlin"]] in
  filter has_name (concat blocks)
  = [Blocks.obj "Snowy Owl"; Blocks.obj "Gyrfalcon"; Blocks.obj "Merlin"]
  /\ exists recs,
      extract_sightings_generic Sample.loads soup = Ok recs
      /\ Forall2 (fun i r => ld_record i = Ok r)
                 (filter has_name (concat blocks)) recs.
Proof.
  cbv zeta. split; [reflexivity|].
  apply fallback_of_object_lists.
  change (ld_scripts
            (Sample.page [Sample.ld Blocks.objects;
                          Sample.ld ("[" ++ Blocks.named_obj "Merlin" ++ "]")]))
    with [Sample.ld Blocks.objects;
          Sample.ld ("[" ++ Blocks.named_obj "Merlin" ++ "]")].
  apply Forall2_cons; [|apply Forall2_cons; [|apply Forall2_nil]].
  - exists Blocks.objects. split; [reflexivity|].
    split; [vm_compute; reflexivity | repeat constructor].
  - exists ("[" ++ Blocks.named_obj "Merlin" ++ "]"). split; [reflexivity|].
    split; [vm_compute; reflexivity | repeat constructor].
Defined.

End OutputTheorems.
